(** * Stock purchasing optimiser: model builder and result extractor

    A shallow embedding of [src/utils/preprocessing.py] and
    [src/models/optimizer.py].

    - Python dictionaries keep insertion order, and that order decides the
      order of the decision variables, of the constraints and of the plan
      lines: a dictionary is an association list with distinct keys,
      [dict_set] overwrites in place or appends.
    - A missing key raises [KeyError]; PuLP's [LpProblem.addConstraint]
      raises [PulpError] when a constraint name is already taken.  Both are
      results of an error monad.
    - Numeric cells and solved values are rationals ([Q]): every finite
      float is one, and [int()] on a float is exact truncation.  Products are
      taken exact; the concrete values used below are dyadic and their
      products are exact in binary floating point as well.
    - Item and supplier identifiers are integers, as in the CSV files and in
      the test fixture; the formatted names [x_{i}_{s}], [Min_Stock_{i}], ...
      are injective on integers and are kept as constructors.
    - The MILP solver is external: its outcome (status, variable values,
      objective value) is an input of [solve_model]. *)

From Stdlib Require Import String Bool List Sorted ZArith QArith Qround Qabs Lqa Lia.
Import ListNotations.

(** ** Decidable equality on keys *)

Class EqDec (A : Type) := eq_dec : forall x y : A, {x = y} + {x <> y}.

#[global] Instance Z_EqDec : EqDec Z := Z.eq_dec.

#[global] Instance prod_EqDec {A B : Type} `{EqDec A} `{EqDec B} : EqDec (A * B).
Proof.
  intros [a b] [a' b'].
  destruct (eq_dec a a'); [destruct (eq_dec b b') |]; [left | right | right]; congruence.
Defined.

(** ** Python dictionaries and lists *)

Definition dict (K V : Type) := list (K * V).

Section Dict.
Context {K V : Type} `{EqDec K}.

Fixpoint dict_get (d : dict K V) (k : K) : option V :=
    match d with
    | [] => None
    | (k', v) :: d' => if eq_dec k k' then Some v else dict_get d' k
    end.

(** [d[k] = v] *)
Fixpoint dict_set (d : dict K V) (k : K) (v : V) : dict K V :=
    match d with
    | [] => [(k, v)]
    | (k', v') :: d' =>
        if eq_dec k k' then (k', v) :: d' else (k', v') :: dict_set d' k v
    end.

Definition dict_keys (d : dict K V) : list K := map fst d.

(** [k in d] *)
Definition dict_mem (d : dict K V) (k : K) : bool :=
    match dict_get d k with Some _ => true | None => false end.
End Dict.

(** [a in l] on a list *)
Fixpoint list_mem {A : Type} `{EqDec A} (a : A) (l : list A) : bool :=
  match l with
  | [] => false
  | b :: l' => if eq_dec a b then true else list_mem a l'
  end.

(** [Series.unique().tolist()]: the distinct values, in order of first
    appearance. *)
Fixpoint unique {A : Type} `{EqDec A} (l : list A) : list A :=
  match l with
  | [] => []
  | a :: l' => a :: filter (fun b => if eq_dec b a then false else true) (unique l')
  end.

(** ** Exceptions *)

Inductive exn := KeyError | PulpError.

Inductive result (A : Type) :=
| Ok (a : A)
| Raise (e : exn).
Arguments Ok {A} a.
Arguments Raise {A} e.

Definition bind {A B : Type} (c : result A) (k : A -> result B) : result B :=
  match c with
  | Ok a => k a
  | Raise e => Raise e
  end.

Notation "x <- c1 ;; c2" := (bind c1 (fun x => c2))
  (at level 61, c1 at next level, right associativity).

(** [d[k]] *)
Definition getitem {K V : Type} `{EqDec K} (d : dict K V) (k : K) : result V :=
  match dict_get d k with
  | Some v => Ok v
  | None => Raise KeyError
  end.

(** A [for] loop that updates a state and may raise. *)
Fixpoint foldM {A S : Type} (f : S -> A -> result S) (l : list A) (s : S) : result S :=
  match l with
  | [] => Ok s
  | a :: l' => s' <- f s a ;; foldM f l' s'
  end.

(** A comprehension whose element expression may raise. *)
Fixpoint mapM {A B : Type} (f : A -> result B) (l : list A) : result (list B) :=
  match l with
  | [] => Ok []
  | a :: l' => b <- f a ;; bs <- mapM f l' ;; Ok (b :: bs)
  end.

(** A comprehension with a condition that may raise. *)
Fixpoint filterM {A : Type} (f : A -> result bool) (l : list A) : result (list A) :=
  match l with
  | [] => Ok []
  | a :: l' =>
      b <- f a ;; r <- filterM f l' ;; Ok (if b then a :: r else r)
  end.

(** ** Input tables (the three data frames) *)

Abbreviation ItemKey := Z (only parsing).
Abbreviation SupplierKey := Z (only parsing).

Record ItemRow := {
  row_ItemID : ItemKey;
  row_Name : string;
  row_MinStock : Q;
  row_MaxStock : Q;
  row_Expiry : Q;
  row_CurrentStock : Q;
  row_AverageDailySale : Q
}.

Record SupplierRow := {
  srow_SupplierID : SupplierKey;
  srow_Name : string;
  srow_MinPallets : Q;
  srow_MaxPallets : Q;
  srow_LeadTime : Q
}.

Record PricingRow := {
  prow_SupplierID : SupplierKey;
  prow_ItemID : ItemKey;
  prow_CostPerPallet : Q
}.

(** ** The normalised data structure *)

Record Item := {
  name : string;
  current_stock : Q;
  min_stock : Q;
  max_stock : Q;
  expiry_days : Q;
  average_daily_sale : Q;
  expected_demand : Q;
  units_per_pallet : Z
}.

Record Supplier := {
  supplier_name : string;
  min_pallets : Q;
  max_pallets : Q;
  lead_time : Q
}.

Record Data := {
  items : dict ItemKey Item;
  suppliers : dict SupplierKey Supplier;
  available_suppliers : dict ItemKey (list SupplierKey);
  costs : dict ItemKey (dict SupplierKey Q)
}.

(** ** preprocessing.py *)

Definition calculate_expected_demand (item_row : ItemRow) (days_to_consider : Q) : Q :=
  let daily_sale := row_AverageDailySale item_row in
  daily_sale * days_to_consider.

Definition process_item (d : dict ItemKey Item) (item : ItemRow) : dict ItemKey Item :=
  let item_id := row_ItemID item in
  let expiry_days := row_Expiry item in
  let expected_demand := calculate_expected_demand item expiry_days in
  dict_set d item_id
    {| name := row_Name item;
       current_stock := row_CurrentStock item;
       min_stock := row_MinStock item;
       max_stock := row_MaxStock item;
       expiry_days := expiry_days;
       average_daily_sale := row_AverageDailySale item;
       expected_demand := expected_demand;
       units_per_pallet := 24 |}.

Definition process_supplier (d : dict SupplierKey Supplier) (supplier : SupplierRow)
  : dict SupplierKey Supplier :=
  let supplier_id := srow_SupplierID supplier in
  dict_set d supplier_id
    {| supplier_name := srow_Name supplier;
       min_pallets := srow_MinPallets supplier;
       max_pallets := srow_MaxPallets supplier;
       lead_time := srow_LeadTime supplier |}.

(** [pricing_df[pricing_df['ItemID'] == item_id]] *)
Definition item_pricing (pricing_df : list PricingRow) (item_id : ItemKey) : list PricingRow :=
  filter (fun row => Z.eqb (prow_ItemID row) item_id) pricing_df.

(** The inner dictionary [data['costs'][item_id]], filled row by row. *)
Definition item_costs (rows : list PricingRow) : dict SupplierKey Q :=
  fold_left (fun c row => dict_set c (prow_SupplierID row) (prow_CostPerPallet row)) rows [].

Definition process_pricing (pricing_df : list PricingRow)
    (st : dict ItemKey (list SupplierKey) * dict ItemKey (dict SupplierKey Q)) (item_id : ItemKey)
  : dict ItemKey (list SupplierKey) * dict ItemKey (dict SupplierKey Q) :=
  let rows := item_pricing pricing_df item_id in
  (dict_set (fst st) item_id (unique (map prow_SupplierID rows)),
   dict_set (snd st) item_id (item_costs rows)).

Definition prepare_data_for_optimization
    (items_df : list ItemRow) (suppliers_df : list SupplierRow) (pricing_df : list PricingRow)
  : Data :=
  let items := fold_left process_item items_df [] in
  let suppliers := fold_left process_supplier suppliers_df [] in
  let ac := fold_left (process_pricing pricing_df) (dict_keys items) ([], []) in
  {| items := items;
     suppliers := suppliers;
     available_suppliers := fst ac;
     costs := snd ac |}.

(** ** The PuLP objects the optimiser builds *)

(** [f"x_{item_id}_{supplier_id}"] *)
Inductive VarName := x_ (item_id : ItemKey) (supplier_id : SupplierKey).

(** [f"Min_Stock_{item_id}"], [f"Max_Stock_{item_id}"],
    [f"Min_Pallets_{supplier_id}"], [f"Max_Pallets_{supplier_id}"],
    [f"Lead_Time_Expiry_{item_id}_{supplier_id}"] *)
Inductive ConstraintName :=
| Min_Stock_ (item_id : ItemKey)
| Max_Stock_ (item_id : ItemKey)
| Min_Pallets_ (supplier_id : SupplierKey)
| Max_Pallets_ (supplier_id : SupplierKey)
| Lead_Time_Expiry_ (item_id : ItemKey) (supplier_id : SupplierKey).

#[global] Instance ConstraintName_EqDec : EqDec ConstraintName.
Proof. intros a b. unfold EqDec in *. decide equality; apply Z.eq_dec. Defined.

Inductive LpCategory := LpContinuous | LpInteger | LpBinary.

Record LpVariable := {
  var_name : VarName;
  lowBound : option Q;
  upBound : option Q;
  cat : LpCategory
}.

(** An affine expression: its terms, in the order the source generates them,
    and its constant.  (PuLP keeps the terms in a mapping from variables to
    coefficients; no variable is generated twice here.) *)
Record LpAffineExpression := {
  terms : list (LpVariable * Q);
  constant : Q
}.

Inductive LpConstraintSense := LpConstraintLE | LpConstraintGE.

(** [lhs <= rhs] or [lhs >= rhs] *)
Record LpConstraint := {
  lhs : LpAffineExpression;
  sense : LpConstraintSense;
  rhs : Q
}.

Inductive LpSense := LpMinimize | LpMaximize.

Record LpProblem := {
  problem_name : string;
  problem_sense : LpSense;
  objective : option (LpAffineExpression * string);
  constraints : dict ConstraintName LpConstraint
}.

(** [pulp.lpSum(...)] *)
Definition lpSum (ts : list (LpVariable * Q)) : LpAffineExpression :=
  {| terms := ts; constant := 0 |}.

(** [expr + c] for a number [c] *)
Definition add_constant (e : LpAffineExpression) (c : Q) : LpAffineExpression :=
  {| terms := terms e; constant := constant e + c |}.

(** [model += expr, name] for an affine expression: sets the objective. *)
Definition set_objective (model : LpProblem) (e : LpAffineExpression) (n : string) : LpProblem :=
  {| problem_name := problem_name model;
     problem_sense := problem_sense model;
     objective := Some (e, n);
     constraints := constraints model |}.

(** [model += constraint, name]: [addConstraint] refuses a name that is already
    in [model.constraints]. *)
Definition add_constraint (model : LpProblem) (c : LpConstraint) (n : ConstraintName)
  : result LpProblem :=
  if dict_mem (constraints model) n then Raise PulpError
  else Ok {| problem_name := problem_name model;
             problem_sense := problem_sense model;
             objective := objective model;
             constraints := constraints model ++ [(n, c)] |}.

(** ** optimizer.py: create_optimization_model *)

Definition VarDict := dict (ItemKey * SupplierKey) LpVariable.

(** [pulp.LpVariable(name=f"x_{item_id}_{supplier_id}", lowBound=0, cat='Integer')] *)
Definition new_variable (item_id : ItemKey) (supplier_id : SupplierKey) : LpVariable :=
  {| var_name := x_ item_id supplier_id;
     lowBound := Some 0;
     upBound := None;
     cat := LpInteger |}.

(** Lines 11-18. *)
Definition create_variables (data : Data) : result VarDict :=
  foldM (fun (x : VarDict) (it : ItemKey * Item) =>
           let item_id := fst it in
           sups <- getitem (available_suppliers data) item_id ;;
           Ok (fold_left (fun (x : VarDict) supplier_id =>
                            dict_set x (item_id, supplier_id) (new_variable item_id supplier_id))
                         sups x))
        (items data) [].

(** Lines 21-25: the terms of the objective. *)
Definition objective_terms (data : Data) (x : VarDict) : result (list (LpVariable * Q)) :=
  tss <- mapM (fun item_id =>
                 sups <- getitem (available_suppliers data) item_id ;;
                 mapM (fun supplier_id =>
                         v <- getitem x (item_id, supplier_id) ;;
                         ci <- getitem (costs data) item_id ;;
                         c <- getitem ci supplier_id ;;
                         Ok (v, c))
                      sups)
              (dict_keys (items data)) ;;
  Ok (concat tss).

(** [x[(item_id, supplier_id)] * item_data['units_per_pallet']
     for supplier_id in data['available_suppliers'][item_id]] *)
Definition stock_terms (data : Data) (x : VarDict) (item_id : ItemKey) (item_data : Item)
  : result (list (LpVariable * Q)) :=
  sups <- getitem (available_suppliers data) item_id ;;
  mapM (fun supplier_id =>
          v <- getitem x (item_id, supplier_id) ;;
          Ok (v, inject_Z (units_per_pallet item_data)))
       sups.

(** Lines 28-43. *)
Definition stock_constraints (data : Data) (x : VarDict) (model : LpProblem) : result LpProblem :=
  foldM (fun model (it : ItemKey * Item) =>
           let item_id := fst it in
           let item_data := snd it in
           ts <- stock_terms data x item_id item_data ;;
           model <- add_constraint model
                      {| lhs := add_constant (lpSum ts) (current_stock item_data);
                         sense := LpConstraintGE;
                         rhs := min_stock item_data |}
                      (Min_Stock_ item_id) ;;
           ts <- stock_terms data x item_id item_data ;;
           add_constraint model
             {| lhs := add_constant (lpSum ts) (current_stock item_data);
                sense := LpConstraintLE;
                rhs := max_stock item_data |}
             (Max_Stock_ item_id))
        (items data) model.

(** Lines 48-51. *)
Definition items_for_supplier (data : Data) (supplier_id : SupplierKey) : result (list ItemKey) :=
  filterM (fun item_id =>
             sups <- getitem (available_suppliers data) item_id ;;
             Ok (list_mem supplier_id sups))
          (dict_keys (items data)).

(** [x[(item_id, supplier_id)] for item_id in items_for_supplier] *)
Definition pallet_terms (x : VarDict) (supplier_id : SupplierKey) (its : list ItemKey)
  : result (list (LpVariable * Q)) :=
  mapM (fun item_id => v <- getitem x (item_id, supplier_id) ;; Ok (v, 1)) its.

(** Lines 46-68. *)
Definition supplier_constraints (data : Data) (x : VarDict) (model : LpProblem)
  : result LpProblem :=
  foldM (fun model (su : SupplierKey * Supplier) =>
           let supplier_id := fst su in
           let supplier_data := snd su in
           its <- items_for_supplier data supplier_id ;;
           match its with
           | [] => Ok model
           | _ :: _ =>
               ts <- pallet_terms x supplier_id its ;;
               model <- add_constraint model
                          {| lhs := lpSum ts;
                             sense := LpConstraintGE;
                             rhs := min_pallets supplier_data |}
                          (Min_Pallets_ supplier_id) ;;
               ts <- pallet_terms x supplier_id its ;;
               add_constraint model
                 {| lhs := lpSum ts;
                    sense := LpConstraintLE;
                    rhs := max_pallets supplier_data |}
                 (Max_Pallets_ supplier_id)
           end)
        (suppliers data) model.

(** Lines 71-83. *)
Definition lead_time_constraints (data : Data) (x : VarDict) (model : LpProblem)
  : result LpProblem :=
  foldM (fun model (it : ItemKey * Item) =>
           let item_id := fst it in
           let item_data := snd it in
           sups <- getitem (available_suppliers data) item_id ;;
           foldM (fun model supplier_id =>
                    supplier_data <- getitem (suppliers data) supplier_id ;;
                    let lead_time := lead_time supplier_data in
                    let expected_demand_during_lead_time :=
                      average_daily_sale item_data * lead_time in
                    v <- getitem x (item_id, supplier_id) ;;
                    add_constraint model
                      {| lhs := add_constant
                                  (lpSum [(v, inject_Z (units_per_pallet item_data))])
                                  (current_stock item_data);
                         sense := LpConstraintLE;
                         rhs := expected_demand item_data + expected_demand_during_lead_time |}
                      (Lead_Time_Expiry_ item_id supplier_id))
                 sups model)
        (items data) model.

Definition create_optimization_model (data : Data) : result (LpProblem * VarDict) :=
  let model := {| problem_name := "Stock_Purchasing_Optimization";
                  problem_sense := LpMinimize;
                  objective := None;
                  constraints := [] |} in
  x <- create_variables data ;;
  ts <- objective_terms data x ;;
  let model := set_objective model (lpSum ts) "Total_Cost" in
  model <- stock_constraints data x model ;;
  model <- supplier_constraints data x model ;;
  model <- lead_time_constraints data x model ;;
  Ok (model, x).

(** ** What a problem means *)

Definition Assignment := VarName -> Q.

Definition eval (rho : Assignment) (e : LpAffineExpression) : Q :=
  fold_right (fun (t : LpVariable * Q) acc => rho (var_name (fst t)) * snd t + acc)
             0 (terms e)
  + constant e.

Definition satisfies (rho : Assignment) (c : LpConstraint) : Prop :=
  match sense c with
  | LpConstraintLE => eval rho (lhs c) <= rhs c
  | LpConstraintGE => rhs c <= eval rho (lhs c)
  end.

(** [rho] satisfies every constraint of the problem. *)
Definition satisfies_all (rho : Assignment) (model : LpProblem) : Prop :=
  forall n c, In (n, c) (constraints model) -> satisfies rho c.

(** ** optimizer.py: solve_model *)

Inductive LpStatus :=
| LpStatusNotSolved
| LpStatusOptimal
| LpStatusInfeasible
| LpStatusUnbounded
| LpStatusUndefined.

Definition LpStatus_eqb (a b : LpStatus) : bool :=
  match a, b with
  | LpStatusNotSolved, LpStatusNotSolved
  | LpStatusOptimal, LpStatusOptimal
  | LpStatusInfeasible, LpStatusInfeasible
  | LpStatusUnbounded, LpStatusUnbounded
  | LpStatusUndefined, LpStatusUndefined => true
  | _, _ => false
  end.

(** What the solver leaves behind: [model.status], each variable's
    [value()] ([None] when it has none) and [model.objective.value()]. *)
Record Solved := {
  status : LpStatus;
  value : VarName -> option Q;
  objective_value : option Q
}.

Definition Solver := LpProblem -> Solved.

Record OrderLine := {
  ItemID : ItemKey;
  ItemName : string;
  SupplierID : SupplierKey;
  SupplierName : string;
  PalletsOrdered : Z;
  UnitsOrdered : Z;
  CostPerPallet : Q;
  TotalCost : Q
}.

(** [int(v)] on a float: truncation toward zero. *)
Definition int (v : Q) : Z := Z.quot (Qnum v) (Zpos (Qden v)).

Definition Qpositive (v : Q) : bool := negb (Qle_bool v 0).

(** [pallets_ordered and pallets_ordered > 0]: [None] and zero are falsy. *)
Definition ordered (pallets_ordered : option Q) : bool :=
  match pallets_ordered with
  | None => false
  | Some v => negb (Qeq_bool v 0) && Qpositive v
  end.
Arguments ordered : simpl never.

(** Lines 103-117: the body of the inner loop. *)
Definition emit_line (sol : Solved) (x : VarDict) (data : Data) (item_id : ItemKey)
    (results : list OrderLine) (supplier_id : SupplierKey) : result (list OrderLine) :=
  if dict_mem x (item_id, supplier_id) then
    v <- getitem x (item_id, supplier_id) ;;
    let pallets_ordered := value sol (var_name v) in
    if ordered pallets_ordered then
      (* not None in this branch *)
      let p := match pallets_ordered with Some p => p | None => 0 end in
      item_data <- getitem (items data) item_id ;;
      let units_ordered := p * inject_Z (units_per_pallet item_data) in
      ci <- getitem (costs data) item_id ;;
      c <- getitem ci supplier_id ;;
      let cost := p * c in
      supplier_data <- getitem (suppliers data) supplier_id ;;
      Ok (results ++
          [{| ItemID := item_id;
              ItemName := name item_data;
              SupplierID := supplier_id;
              SupplierName := supplier_name supplier_data;
              PalletsOrdered := int p;
              UnitsOrdered := int units_ordered;
              CostPerPallet := c;
              TotalCost := cost |}])
    else Ok results
  else Ok results.

(** Lines 100-117. *)
Definition extract_results (sol : Solved) (x : VarDict) (data : Data) : result (list OrderLine) :=
  foldM (fun results item_id =>
           sups <- getitem (available_suppliers data) item_id ;;
           foldM (emit_line sol x data item_id) sups results)
        (dict_keys (items data)) [].

(** [solve_model]: the solver is run once on the model ([model.solve(solver)],
    recorded in the list of solver calls); the result is [(None, None)] or
    [(results_df, total_cost)]. *)
Definition solve_model (solver : Solver) (model : LpProblem) (x : VarDict) (data : Data)
  : list LpProblem * result (option (list OrderLine) * option Q) :=
  let sol := solver model in
  ([model],
   if negb (LpStatus_eqb (status sol) LpStatusOptimal) then Ok (None, None)
   else
     results <- extract_results sol x data ;;
     let total_cost := objective_value sol in
     Ok (Some results, total_cost)).

(** ** The problem, read off the data

    Pure descriptions of what the builder produces; the builder is proved to
    agree with them. *)

(** The suppliers listed for an item (none when the item has no entry). *)
Definition eligible_suppliers (data : Data) (item_id : ItemKey) : list SupplierKey :=
  match dict_get (available_suppliers data) item_id with
  | Some sups => sups
  | None => []
  end.

(** The eligible (item, supplier) pairs, item by item. *)
Definition eligible_pairs (data : Data) : list (ItemKey * SupplierKey) :=
  flat_map (fun item_id => map (pair item_id) (eligible_suppliers data item_id))
           (dict_keys (items data)).

(** [data['costs'][item_id][supplier_id]], when both keys are present. *)
Definition cost_per_pallet (data : Data) (k : ItemKey * SupplierKey) : option Q :=
  match dict_get (costs data) (fst k) with
  | Some ci => dict_get ci (snd k)
  | None => None
  end.

Definition cost_at (data : Data) (k : ItemKey * SupplierKey) : Q :=
  match cost_per_pallet data k with
  | Some c => c
  | None => 0
  end.

Definition supplier_at (data : Data) (supplier_id : SupplierKey) : Supplier :=
  match dict_get (suppliers data) supplier_id with
  | Some sd => sd
  | None => {| supplier_name := ""; min_pallets := 0; max_pallets := 0; lead_time := 0 |}
  end.

Definition stock_lhs (data : Data) (item_id : ItemKey) (item_data : Item) : LpAffineExpression :=
  add_constant
    (lpSum (map (fun supplier_id =>
                   (new_variable item_id supplier_id, inject_Z (units_per_pallet item_data)))
                (eligible_suppliers data item_id)))
    (current_stock item_data).

Definition min_stock_constraint (data : Data) (item_id : ItemKey) (item_data : Item) : LpConstraint :=
  {| lhs := stock_lhs data item_id item_data;
     sense := LpConstraintGE;
     rhs := min_stock item_data |}.

Definition max_stock_constraint (data : Data) (item_id : ItemKey) (item_data : Item) : LpConstraint :=
  {| lhs := stock_lhs data item_id item_data;
     sense := LpConstraintLE;
     rhs := max_stock item_data |}.

Definition stock_rows (data : Data) (it : ItemKey * Item) : list (ConstraintName * LpConstraint) :=
  [(Min_Stock_ (fst it), min_stock_constraint data (fst it) (snd it));
   (Max_Stock_ (fst it), max_stock_constraint data (fst it) (snd it))].

(** The items a supplier is listed for. *)
Definition supplied_items (data : Data) (supplier_id : SupplierKey) : list ItemKey :=
  filter (fun item_id => list_mem supplier_id (eligible_suppliers data item_id))
         (dict_keys (items data)).

Definition pallets_lhs (data : Data) (supplier_id : SupplierKey) : LpAffineExpression :=
  lpSum (map (fun item_id => (new_variable item_id supplier_id, 1))
             (supplied_items data supplier_id)).

Definition supplier_rows (data : Data) (su : SupplierKey * Supplier)
  : list (ConstraintName * LpConstraint) :=
  match supplied_items data (fst su) with
  | [] => []
  | _ :: _ =>
      [(Min_Pallets_ (fst su),
        {| lhs := pallets_lhs data (fst su);
           sense := LpConstraintGE;
           rhs := min_pallets (snd su) |});
       (Max_Pallets_ (fst su),
        {| lhs := pallets_lhs data (fst su);
           sense := LpConstraintLE;
           rhs := max_pallets (snd su) |})]
  end.

Definition lead_time_constraint (item_id : ItemKey) (item_data : Item)
    (supplier_id : SupplierKey) (supplier_data : Supplier) : LpConstraint :=
  {| lhs := add_constant
              (lpSum [(new_variable item_id supplier_id,
                       inject_Z (units_per_pallet item_data))])
              (current_stock item_data);
     sense := LpConstraintLE;
     rhs := expected_demand item_data
            + average_daily_sale item_data * lead_time supplier_data |}.

Definition lead_time_row (data : Data) (it : ItemKey * Item) (supplier_id : SupplierKey)
  : list (ConstraintName * LpConstraint) :=
  [(Lead_Time_Expiry_ (fst it) supplier_id,
    lead_time_constraint (fst it) (snd it) supplier_id (supplier_at data supplier_id))].

Definition lead_time_rows (data : Data) (it : ItemKey * Item)
  : list (ConstraintName * LpConstraint) :=
  flat_map (lead_time_row data it) (eligible_suppliers data (fst it)).

Definition with_constraints (model : LpProblem) (cs : dict ConstraintName LpConstraint)
  : LpProblem :=
  {| problem_name := problem_name model;
     problem_sense := problem_sense model;
     objective := objective model;
     constraints := cs |}.

(** [model'] is [model] with the rows [rows] added at the end, and the
    constraint names stay distinct. *)
Definition extends (model model' : LpProblem) (rows : list (ConstraintName * LpConstraint))
  : Prop :=
  model' = with_constraints model (constraints model ++ rows) /\
  (NoDup (dict_keys (constraints model)) -> NoDup (dict_keys (constraints model'))).

(** What the variable loop has established after the items [pre]. *)
Definition variables_invariant (data : Data) (pre : list (ItemKey * Item)) (x : VarDict) : Prop :=
  NoDup (dict_keys x) /\
  (forall k, In k (dict_keys x) <->
             In k (flat_map (fun item_id => map (pair item_id) (eligible_suppliers data item_id))
                            (dict_keys pre))) /\
  (forall i s v, dict_get x (i, s) = Some v -> v = new_variable i s) /\
  (forall i, In i (dict_keys pre) -> dict_get (available_suppliers data) i <> None).

Definition described_objective (data : Data) : LpAffineExpression :=
  lpSum (map (fun k => (new_variable (fst k) (snd k), cost_at data k)) (eligible_pairs data)).

Definition described_constraints (data : Data) : dict ConstraintName LpConstraint :=
  flat_map (stock_rows data) (items data)
  ++ flat_map (supplier_rows data) (suppliers data)
  ++ flat_map (lead_time_rows data) (items data).

Definition described_problem (data : Data) : LpProblem :=
  {| problem_name := "Stock_Purchasing_Optimization";
     problem_sense := LpMinimize;
     objective := Some (described_objective data, "Total_Cost"%string);
     constraints := described_constraints data |}.

(** ** The plan, read off the solved values *)

Definition item_at (data : Data) (item_id : ItemKey) : Item :=
  match dict_get (items data) item_id with
  | Some it => it
  | None => {| name := ""; current_stock := 0; min_stock := 0; max_stock := 0;
               expiry_days := 0; average_daily_sale := 0; expected_demand := 0;
               units_per_pallet := 0 |}
  end.

(** The line emitted for the pair [k] when its solved value is [p]. *)
Definition order_line (data : Data) (k : ItemKey * SupplierKey) (p : Q) : OrderLine :=
  {| ItemID := fst k;
     ItemName := name (item_at data (fst k));
     SupplierID := snd k;
     SupplierName := supplier_name (supplier_at data (snd k));
     PalletsOrdered := int p;
     UnitsOrdered := int (p * inject_Z (units_per_pallet (item_at data (fst k))));
     CostPerPallet := cost_at data k;
     TotalCost := p * cost_at data k |}.

(** The solved value of the pair [k], when it has a variable with a value. *)
Definition solved_value (sol : Solved) (x : VarDict) (k : ItemKey * SupplierKey) : option Q :=
  match dict_get x k with
  | Some v => value sol (var_name v)
  | None => None
  end.

Definition line_for (sol : Solved) (x : VarDict) (data : Data) (k : ItemKey * SupplierKey)
  : list OrderLine :=
  match solved_value sol x k with
  | Some p => if ordered (Some p) then [order_line data k p] else []
  | None => []
  end.

Definition described_plan (sol : Solved) (x : VarDict) (data : Data) : list OrderLine :=
  flat_map (line_for sol x data) (eligible_pairs data).

(** The (item, supplier) pair of a line. *)
Definition line_pair (l : OrderLine) : ItemKey * SupplierKey := (ItemID l, SupplierID l).

(** ** The normalised data, read off the tables *)

(** The dictionary literal stored for an item row. *)
Definition item_of_row (item : ItemRow) : Item :=
  {| name := row_Name item;
     current_stock := row_CurrentStock item;
     min_stock := row_MinStock item;
     max_stock := row_MaxStock item;
     expiry_days := row_Expiry item;
     average_daily_sale := row_AverageDailySale item;
     expected_demand := row_AverageDailySale item * row_Expiry item;
     units_per_pallet := 24 |}.

(** The dictionary literal stored for a supplier row. *)
Definition supplier_of_row (supplier : SupplierRow) : Supplier :=
  {| supplier_name := srow_Name supplier;
     min_pallets := srow_MinPallets supplier;
     max_pallets := srow_MaxPallets supplier;
     lead_time := srow_LeadTime supplier |}.

(** A price entry exists for the pair. *)
Definition price_entry (pricing_df : list PricingRow) (i : ItemKey) (s : SupplierKey) : Prop :=
  exists row, In row pricing_df /\ prow_ItemID row = i /\ prow_SupplierID row = s.

(** What the builder needs of its input: distinct keys, and every listed
    supplier known and priced. *)
Definition well_formed (data : Data) : Prop :=
  NoDup (dict_keys (items data)) /\
  NoDup (dict_keys (suppliers data)) /\
  forall i, In i (dict_keys (items data)) ->
    exists sups, dict_get (available_suppliers data) i = Some sups /\
                 NoDup sups /\
                 forall s, In s sups ->
                   dict_get (suppliers data) s <> None /\
                   cost_per_pallet data (i, s) <> None.

(** ** Notions the properties are stated with *)

(** The supplier is listed for at least one item. *)
Definition has_eligible_items (data : Data) (supplier_id : SupplierKey) : bool :=
  existsb (fun item_id => list_mem supplier_id (eligible_suppliers data item_id))
          (dict_keys (items data)).

(** The suppliers with at least one eligible item. *)
Definition active_suppliers (data : Data) : list (SupplierKey * Supplier) :=
  filter (fun su => has_eligible_items data (fst su)) (suppliers data).

Definition Qsum (l : list Q) : Q := fold_right Qplus 0 l.

(** Rounding to the nearest integer as the specification words it (Python's
    [round]: a tie goes to the even neighbour).  The extractor does not use it;
    it is here to compare [int] with. *)
Definition round_nearest (v : Q) : Z :=
  let f := Qfloor v in
  match Qcompare (v - inject_Z f) (1 # 2) with
  | Lt => f
  | Gt => (f + 1)%Z
  | Eq => if Z.even f then f else (f + 1)%Z
  end.

(** ** Fixtures *)

(** The two-item, two-supplier data of [test_simple_optimization]. *)
Definition fixture_items_df : list ItemRow :=
  [ {| row_ItemID := 1; row_Name := "Item A"; row_MinStock := 10; row_MaxStock := 100;
       row_Expiry := 60; row_CurrentStock := 5; row_AverageDailySale := 1 |};
    {| row_ItemID := 2; row_Name := "Item B"; row_MinStock := 20; row_MaxStock := 200;
       row_Expiry := 40; row_CurrentStock := 15; row_AverageDailySale := 2 |} ].

Definition fixture_suppliers_df : list SupplierRow :=
  [ {| srow_SupplierID := 1; srow_Name := "Supplier A"; srow_MinPallets := 1;
       srow_MaxPallets := 50; srow_LeadTime := 3 |};
    {| srow_SupplierID := 2; srow_Name := "Supplier B"; srow_MinPallets := 2;
       srow_MaxPallets := 100; srow_LeadTime := 5 |} ].

Definition fixture_pricing_df : list PricingRow :=
  [ {| prow_SupplierID := 1; prow_ItemID := 1; prow_CostPerPallet := 100 |};
    {| prow_SupplierID := 1; prow_ItemID := 2; prow_CostPerPallet := 120 |};
    {| prow_SupplierID := 2; prow_ItemID := 1; prow_CostPerPallet := 110 |};
    {| prow_SupplierID := 2; prow_ItemID := 2; prow_CostPerPallet := 105 |} ].

Definition fixture_data : Data :=
  prepare_data_for_optimization fixture_items_df fixture_suppliers_df fixture_pricing_df.

Definition fixture_x : VarDict :=
  [ ((1, 1)%Z, new_variable 1 1); ((1, 2)%Z, new_variable 1 2);
    ((2, 1)%Z, new_variable 2 1); ((2, 2)%Z, new_variable 2 2) ].

(** The fixture with two more items that nobody supplies (one above, one below
    its minimum stock) and a supplier without any price entry. *)
Definition sparse_items_df : list ItemRow :=
  fixture_items_df ++
  [ {| row_ItemID := 3; row_Name := "Item C"; row_MinStock := 10; row_MaxStock := 100;
       row_Expiry := 30; row_CurrentStock := 50; row_AverageDailySale := 1 |};
    {| row_ItemID := 4; row_Name := "Item D"; row_MinStock := 10; row_MaxStock := 100;
       row_Expiry := 30; row_CurrentStock := 2; row_AverageDailySale := 1 |} ].

Definition sparse_suppliers_df : list SupplierRow :=
  fixture_suppliers_df ++
  [ {| srow_SupplierID := 3; srow_Name := "Supplier C"; srow_MinPallets := 1;
       srow_MaxPallets := 10; srow_LeadTime := 7 |} ].

Definition sparse_data : Data :=
  prepare_data_for_optimization sparse_items_df sparse_suppliers_df fixture_pricing_df.

(** The fixture with one more item that nobody supplies, stocked above its
    maximum stock. *)
Definition surplus_items_df : list ItemRow :=
  fixture_items_df ++
  [ {| row_ItemID := 3; row_Name := "Item C"; row_MinStock := 10; row_MaxStock := 100;
       row_Expiry := 30; row_CurrentStock := 150; row_AverageDailySale := 1 |} ].

Definition surplus_data : Data :=
  prepare_data_for_optimization surplus_items_df fixture_suppliers_df fixture_pricing_df.

(** The fixture with a stocked item that never sold, priced by supplier 1. *)
Definition stalled_items_df : list ItemRow :=
  fixture_items_df ++
  [ {| row_ItemID := 3; row_Name := "Item C"; row_MinStock := 0; row_MaxStock := 100;
       row_Expiry := 30; row_CurrentStock := 24; row_AverageDailySale := 0 |} ].

Definition stalled_pricing_df : list PricingRow :=
  fixture_pricing_df ++
  [ {| prow_SupplierID := 1; prow_ItemID := 3; prow_CostPerPallet := 90 |} ].

Definition stalled_data : Data :=
  prepare_data_for_optimization stalled_items_df fixture_suppliers_df stalled_pricing_df.

Definition stalled_x : VarDict := fixture_x ++ [ ((3, 1)%Z, new_variable 3 1) ].

(** Solver outcomes on the fixture. *)
Definition solved_with (v11 v12 v21 v22 : Q) (obj : Q) : Solver :=
  fun _ =>
    {| status := LpStatusOptimal;
       value := fun n =>
         match n with
         | x_ 1 1 => Some v11
         | x_ 1 2 => Some v12
         | x_ 2 1 => Some v21
         | x_ 2 2 => Some v22
         | _ => None
         end;
       objective_value := Some obj |}.

(** The optimum: one pallet of item 1 from supplier 1, two of item 2 from
    supplier 2. *)
Definition fixture_solver : Solver := solved_with 1 0 0 2 310.

(** A value just below a whole number: 2 - 2^-30. *)
Definition near_integer_solver : Solver :=
  solved_with 1 0 0 (2147483647 # 1073741824) 310.

(** A positive artifact next to zero: 2^-30. *)
Definition artifact_solver : Solver :=
  solved_with 1 (1 # 1073741824) 0 2 310.

(** A negative artifact next to zero, -2^-30, counted in the objective value:
    100 - 110 * 2^-30 + 210. *)
Definition negative_artifact_solver : Solver :=
  solved_with 1 (-1 # 1073741824) 0 2 (332859965330 # 1073741824).

Definition failed_solver (st : LpStatus) : Solver :=
  fun _ => {| status := st; value := fun _ => None; objective_value := None |}.

(** ** The other functions of preprocessing.py and loader.py *)

(** [convert_units_to_pallets]: [quantity / units_per_pallet]; [None] stands
    for Python's [ZeroDivisionError]. *)
Definition convert_units_to_pallets (quantity units_per_pallet : Q) : option Q :=
  if Qeq_bool units_per_pallet 0 then None else Some (quantity / units_per_pallet).

(** [convert_pallets_to_units] *)
Definition convert_pallets_to_units (pallets units_per_pallet : Q) : Q :=
  pallets * units_per_pallet.

(** [get_available_suppliers_for_item] of loader.py:
    [pricing_df[pricing_df['ItemID'] == item_id]['SupplierID'].unique().tolist()] *)
Definition get_available_suppliers_for_item (pricing_df : list PricingRow) (item_id : ItemKey)
  : list SupplierKey :=
  unique (map prow_SupplierID (item_pricing pricing_df item_id)).

(** The fixture with item 1 listed a second time and the pair (1, 1) priced a
    second time. *)
Definition relisted_item_row : ItemRow :=
  {| row_ItemID := 1; row_Name := "Item A (relisted)"; row_MinStock := 12;
     row_MaxStock := 90; row_Expiry := 30; row_CurrentStock := 7;
     row_AverageDailySale := 3 |}.

Definition relisted_items_df : list ItemRow := fixture_items_df ++ [relisted_item_row].

Definition repriced_row : PricingRow :=
  {| prow_SupplierID := 1; prow_ItemID := 1; prow_CostPerPallet := 95 |}.

Definition repriced_pricing_df : list PricingRow := fixture_pricing_df ++ [repriced_row].

Definition renamed_supplier_row : SupplierRow :=
  {| srow_SupplierID := 1; srow_Name := "Supplier A (new terms)"; srow_MinPallets := 3;
     srow_MaxPallets := 40; srow_LeadTime := 2 |}.

Definition renamed_suppliers_df : list SupplierRow :=
  fixture_suppliers_df ++ [renamed_supplier_row].

(** ** Bounds of the decision variables *)

(** [rho] respects the [lowBound] and [upBound] of every variable of [x]. *)
Definition within_bounds (rho : Assignment) (x : VarDict) : Prop :=
  forall k v, In (k, v) x ->
    match lowBound v with Some lb => lb <= rho (var_name v) | None => True end /\
    match upBound v with Some ub => rho (var_name v) <= ub | None => True end.

(** The fixture with the bounds of item 1 and of supplier 1 inverted. *)
Definition inverted_items_df : list ItemRow :=
  [ {| row_ItemID := 1; row_Name := "Item A"; row_MinStock := 50; row_MaxStock := 20;
       row_Expiry := 60; row_CurrentStock := 5; row_AverageDailySale := 1 |};
    {| row_ItemID := 2; row_Name := "Item B"; row_MinStock := 20; row_MaxStock := 200;
       row_Expiry := 40; row_CurrentStock := 15; row_AverageDailySale := 2 |} ].

Definition inverted_suppliers_df : list SupplierRow :=
  [ {| srow_SupplierID := 1; srow_Name := "Supplier A"; srow_MinPallets := 10;
       srow_MaxPallets := 5; srow_LeadTime := 3 |};
    {| srow_SupplierID := 2; srow_Name := "Supplier B"; srow_MinPallets := 2;
       srow_MaxPallets := 100; srow_LeadTime := 5 |} ].

Definition inverted_data : Data :=
  prepare_data_for_optimization inverted_items_df inverted_suppliers_df fixture_pricing_df.

(** The fixture with item 1 stocked above what sells before expiry and during
    any lead time: 70 units against 60 + 1 * 5. *)
Definition overstocked_items_df : list ItemRow :=
  [ {| row_ItemID := 1; row_Name := "Item A"; row_MinStock := 10; row_MaxStock := 100;
       row_Expiry := 60; row_CurrentStock := 70; row_AverageDailySale := 1 |};
    {| row_ItemID := 2; row_Name := "Item B"; row_MinStock := 20; row_MaxStock := 200;
       row_Expiry := 40; row_CurrentStock := 15; row_AverageDailySale := 2 |} ].

Definition overstocked_data : Data :=
  prepare_data_for_optimization overstocked_items_df fixture_suppliers_df fixture_pricing_df.

(** The part of [well_formed] that does not concern the supplier table, and
    the part that does. *)
Definition priced (data : Data) : Prop :=
  NoDup (dict_keys (items data)) /\
  NoDup (dict_keys (suppliers data)) /\
  forall i, In i (dict_keys (items data)) ->
    exists sups, dict_get (available_suppliers data) i = Some sups /\
                 NoDup sups /\
                 forall s, In s sups -> cost_per_pallet data (i, s) <> None.

Definition suppliers_known (data : Data) : Prop :=
  forall i s, In (i, s) (eligible_pairs data) -> dict_get (suppliers data) s <> None.

(** The fixture with a price entry for an item that is not in the item table,
    and the fixture with a price entry of item 2 from a supplier that is not in
    the supplier table. *)
Definition stray_pricing_df : list PricingRow :=
  fixture_pricing_df ++
  [ {| prow_SupplierID := 9; prow_ItemID := 7; prow_CostPerPallet := 80 |} ].

Definition unknown_supplier_pricing_df : list PricingRow :=
  fixture_pricing_df ++
  [ {| prow_SupplierID := 9; prow_ItemID := 2; prow_CostPerPallet := 80 |} ].

(** ** What main.py, dashboard.py and the tests do with the result *)

(** [results_df is not None and not results_df.empty]: the test that main.py
    (line 41), dashboard.py (line 299) and the tests apply to the result of
    [solve_model]. *)
Definition plan_found (r : option (list OrderLine) * option Q) : bool :=
  match fst r with
  | Some (_ :: _) => true
  | _ => false
  end.

(** main.py, line 50: [results_df['ItemID'].unique()] *)
Definition items_to_order (results : list OrderLine) : list ItemKey :=
  unique (map ItemID results).

(** main.py, lines 54-55: [set(data['items'].keys()) - set(items_to_order)]
    (a set: the order of the list carries no meaning). *)
Definition items_not_ordered (data : Data) (results : list OrderLine) : list ItemKey :=
  filter (fun i => negb (list_mem i (items_to_order results))) (dict_keys (items data)).

(** main.py, line 65: [results_df['SupplierID'].unique()] *)
Definition suppliers_used (results : list OrderLine) : list SupplierKey :=
  unique (map SupplierID results).

Definition Zsum (l : list Z) : Z := fold_right Z.add 0%Z l.

(** The tests: [results_df[results_df['ItemID'] == item_id]['UnitsOrdered'].sum()]
    (0 when no line matches), as the callers compute it on a plan they
    accepted. *)
Definition units_ordered_of (results : list OrderLine) (item_id : ItemKey) : Z :=
  Zsum (map UnitsOrdered (filter (fun l => Z.eqb (ItemID l) item_id) results)).

(** The tests:
    [results_df[results_df['SupplierID'] == supplier_id]['PalletsOrdered'].sum()] *)
Definition pallets_ordered_from (results : list OrderLine) (supplier_id : SupplierKey) : Z :=
  Zsum (map PalletsOrdered (filter (fun l => Z.eqb (SupplierID l) supplier_id) results)).

(** ** Solutions an exact solver returns *)

(** The values the solver left, as an assignment (0 for a variable without a
    value). *)
Definition assignment_of (sol : Solved) : Assignment :=
  fun n => match value sol n with Some v => v | None => 0 end.

(** Every variable of [x] has a value, and it is a whole number. *)
Definition whole_values (sol : Solved) (x : VarDict) : Prop :=
  forall k v, In (k, v) x ->
    exists q n, value sol (var_name v) = Some q /\ q == inject_Z n.

(** The solved values are whole, within the variables' bounds, and satisfy
    every constraint of the problem. *)
Definition feasible_solution (sol : Solved) (m : LpProblem) (x : VarDict) : Prop :=
  whole_values sol x /\
  within_bounds (assignment_of sol) x /\
  satisfies_all (assignment_of sol) m.

(** ** optimizer.py: save_results, the summary by supplier *)

(** Ascending order of the group keys, as [groupby] leaves them. *)
Fixpoint insert_sorted (k : Z) (l : list Z) : list Z :=
  match l with
  | [] => [k]
  | h :: t => if Z.leb k h then k :: l else h :: insert_sorted k t
  end.

Definition sorted_keys (l : list Z) : list Z := fold_right insert_sorted [] l.

Record SummaryRow := {
  summary_SupplierID : SupplierKey;
  summary_PalletsOrdered : Z;
  summary_TotalCost : Q
}.

(** Lines 142-145:
    [results_df.groupby('SupplierID').agg({'PalletsOrdered': 'sum',
    'TotalCost': 'sum'}).reset_index()].  The frame that [solve_model] builds
    from no line has no columns, and the lookup of 'SupplierID' raises
    KeyError. *)
Definition supplier_summary (results_df : list OrderLine) : result (list SummaryRow) :=
  match results_df with
  | [] => Raise KeyError
  | _ :: _ =>
      Ok (map (fun supplier_id =>
                 let group :=
                   filter (fun l => Z.eqb (SupplierID l) supplier_id) results_df in
                 {| summary_SupplierID := supplier_id;
                    summary_PalletsOrdered := Zsum (map PalletsOrdered group);
                    summary_TotalCost := Qsum (map TotalCost group) |})
              (sorted_keys (unique (map SupplierID results_df))))
  end.

(** ** dashboard.py: the stock after the order *)

(** [stock_comparison[stock_comparison['ItemID'] == item_id].index], its first
    element: the position of the first row with the ID (the item table has its
    default index, so labels are positions). *)
Fixpoint index_of (item_id : ItemKey) (ids : list ItemKey) : option nat :=
  match ids with
  | [] => None
  | i :: rest =>
      if Z.eqb i item_id then Some 0%nat else option_map S (index_of item_id rest)
  end.

(** [after_stock.iloc[n] += units_ordered] *)
Fixpoint add_at (n : nat) (units : Q) (after : list Q) : list Q :=
  match after, n with
  | [], _ => []
  | q :: rest, O => (q + units) :: rest
  | q :: rest, S n' => q :: add_at n' units rest
  end.

(** dashboard.py, lines 474-482: the column AfterStock. *)
Definition after_stock (items_df : list ItemRow) (results_df : list OrderLine) : list Q :=
  fold_left
    (fun after row =>
       match index_of (ItemID row) (map row_ItemID items_df) with
       | Some n => add_at n (inject_Z (UnitsOrdered row)) after
       | None => after
       end)
    results_df (map row_CurrentStock items_df).

(** * Facts about dictionaries and lists *)

Section DictFacts.
Context {K V : Type} `{EqDec K}.
Implicit Types (d : dict K V) (k : K) (v : V).

Lemma dict_get_set_eq d k v : dict_get (dict_set d k v) k = Some v.
Proof.
    induction d as [| [k' v'] d IH]; simpl.
    - destruct (eq_dec k k); congruence.
    - destruct (eq_dec k k') as [-> | Hne]; simpl.
      + destruct (eq_dec k' k'); congruence.
      + destruct (eq_dec k k'); congruence.
Qed.

Lemma dict_get_set_ne d k k' v : k <> k' -> dict_get (dict_set d k v) k' = dict_get d k'.
Proof.
    intros Hne. induction d as [| [k0 v0] d IH]; simpl.
    - destruct (eq_dec k' k); congruence.
    - destruct (eq_dec k k0) as [-> | Hk]; simpl.
      + destruct (eq_dec k' k0); congruence.
      + destruct (eq_dec k' k0); congruence.
Qed.

Lemma dict_keys_set d k v k' :
    In k' (dict_keys (dict_set d k v)) <-> k' = k \/ In k' (dict_keys d).
Proof.
    unfold dict_keys. induction d as [| [k0 v0] d IH]; simpl.
    - intuition.
    - destruct (eq_dec k k0) as [-> | Hk]; simpl; intuition.
Qed.

Lemma dict_set_NoDup d k v : NoDup (dict_keys d) -> NoDup (dict_keys (dict_set d k v)).
Proof.
    unfold dict_keys. induction d as [| [k0 v0] d IH]; simpl; intros Hnd.
    - constructor; [intros [] | constructor].
    - inversion Hnd as [| ? ? Hnin Hnd']; subst.
      destruct (eq_dec k k0) as [-> | Hk]; simpl.
      + constructor; assumption.
      + constructor; [| auto].
        intros Hin. apply (dict_keys_set d k v k0) in Hin.
        destruct Hin as [Heq | Hin]; [congruence | exact (Hnin Hin)].
Qed.

Lemma dict_get_In d k v : dict_get d k = Some v -> In (k, v) d.
Proof.
    induction d as [| [k0 v0] d IH]; simpl; [discriminate |].
    destruct (eq_dec k k0) as [-> | Hk]; intros Hg.
    - left. congruence.
    - right. auto.
Qed.

Lemma dict_get_None d k : dict_get d k = None <-> ~ In k (dict_keys d).
Proof.
    unfold dict_keys. induction d as [| [k0 v0] d IH]; simpl.
    - intuition.
    - destruct (eq_dec k k0) as [-> | Hk].
      + split; [discriminate | intros Hn; exfalso; apply Hn; now left].
      + rewrite IH. intuition.
Qed.

Lemma dict_get_Some_key d k v : dict_get d k = Some v -> In k (dict_keys d).
Proof.
    intros Hg. apply dict_get_In in Hg. unfold dict_keys.
    change k with (fst (k, v)). now apply in_map.
Qed.

Lemma dict_key_get d k : In k (dict_keys d) -> exists v, dict_get d k = Some v.
Proof.
    intros Hin. destruct (dict_get d k) eqn:Hg; [eauto |].
    apply dict_get_None in Hg. contradiction.
Qed.

Lemma In_dict_get d k v : NoDup (dict_keys d) -> In (k, v) d -> dict_get d k = Some v.
Proof.
    unfold dict_keys. induction d as [| [k0 v0] d IH]; simpl; intros Hnd Hin; [contradiction |].
    inversion Hnd as [| ? ? Hnin Hnd']; subst.
    destruct Hin as [Heq | Hin].
    - inversion Heq; subst. destruct (eq_dec k k); congruence.
    - destruct (eq_dec k k0) as [-> | Hk]; [| auto].
      exfalso. apply Hnin. change k0 with (fst (k0, v)). now apply in_map.
Qed.

Lemma dict_get_app_None d d' k :
    dict_get (d ++ d') k = None <-> dict_get d k = None /\ dict_get d' k = None.
Proof.
    rewrite !dict_get_None. unfold dict_keys. rewrite map_app, in_app_iff. intuition.
Qed.

Lemma dict_mem_false d k : dict_mem d k = false <-> ~ In k (dict_keys d).
Proof.
    unfold dict_mem. rewrite <- dict_get_None.
    destruct (dict_get d k); split; intros Hx; congruence.
Qed.

Lemma dict_mem_true d k : dict_mem d k = true <-> In k (dict_keys d).
Proof.
    unfold dict_mem. destruct (dict_get d k) eqn:Hg.
    - split; [intros _; eapply dict_get_Some_key; eauto | reflexivity].
    - apply dict_get_None in Hg. split; [discriminate | contradiction].
Qed.

(** Filling a dictionary key by key, the value being a function of the key. *)
Lemma fold_set_get (A : Type) (key : A -> K) (val : A -> V) (l : list A) d k v :
    dict_get (fold_left (fun d a => dict_set d (key a) (val a)) l d) k = Some v ->
    dict_get d k = Some v \/ exists a, In a l /\ key a = k /\ val a = v.
Proof.
    revert d. induction l as [| a l IH]; simpl; intros d Hg; [now left |].
    apply IH in Hg. destruct Hg as [Hg | (a' & Hin & Hk & Hv)].
    - destruct (eq_dec (key a) k) as [Heq | Hne].
      + subst k. rewrite dict_get_set_eq in Hg. right. exists a. intuition congruence.
      + rewrite dict_get_set_ne in Hg by assumption. now left.
    - right. exists a'. intuition.
Qed.

Lemma fold_set_keys (A : Type) (key : A -> K) (val : A -> V) (l : list A) d k :
    In k (dict_keys (fold_left (fun d a => dict_set d (key a) (val a)) l d)) <->
    In k (dict_keys d) \/ In k (map key l).
Proof.
    revert d. induction l as [| a l IH]; simpl; intros d; [intuition |].
    rewrite IH, dict_keys_set. intuition.
Qed.

Lemma fold_set_NoDup (A : Type) (key : A -> K) (val : A -> V) (l : list A) d :
    NoDup (dict_keys d) ->
    NoDup (dict_keys (fold_left (fun d a => dict_set d (key a) (val a)) l d)).
Proof.
    revert d. induction l as [| a l IH]; simpl; intros d Hnd; [assumption |].
    apply IH. now apply dict_set_NoDup.
Qed.
End DictFacts.

Lemma list_mem_In {A : Type} `{EqDec A} (a : A) (l : list A) : list_mem a l = true <-> In a l.
Proof.
  induction l as [| b l IH]; simpl.
  - split; [discriminate | contradiction].
  - destruct (eq_dec a b) as [-> | Hne].
    + intuition.
    + rewrite IH. intuition congruence.
Qed.

Lemma unique_In {A : Type} `{EqDec A} (l : list A) (a : A) : In a (unique l) <-> In a l.
Proof.
  induction l as [| b l IH]; simpl; [reflexivity |].
  rewrite filter_In, IH.
  destruct (eq_dec a b) as [-> | Hne]; intuition congruence.
Qed.

Lemma unique_NoDup {A : Type} `{EqDec A} (l : list A) : NoDup (unique l).
Proof.
  induction l as [| b l IH]; simpl; constructor.
  - rewrite filter_In. intros [_ Hb]. destruct (eq_dec b b); congruence.
  - now apply NoDup_filter.
Qed.

(** * Facts about the error monad *)

Lemma bind_Ok {A B : Type} (c : result A) (k : A -> result B) (b : B) :
  bind c k = Ok b -> exists a, c = Ok a /\ k a = Ok b.
Proof. destruct c; simpl; [eauto | discriminate]. Qed.

(** A successful [x <- c ;; k] splits into a successful [c] and the rest. *)
Tactic Notation "inv_bind" hyp(H) "as" ident(a) ident(Ha) :=
  apply bind_Ok in H; destruct H as (a & Ha & H).

Lemma getitem_Ok {K V : Type} `{EqDec K} (d : dict K V) (k : K) (v : V) :
  getitem d k = Ok v <-> dict_get d k = Some v.
Proof. unfold getitem. destruct (dict_get d k); split; congruence. Qed.

Lemma mapM_Ok_map {A B : Type} (f : A -> result B) (g : A -> B) (l : list A) (r : list B) :
  (forall a b, In a l -> f a = Ok b -> b = g a) ->
  mapM f l = Ok r -> r = map g l /\ forall a, In a l -> f a = Ok (g a).
Proof.
  revert r. induction l as [| a l IH]; simpl; intros r Hf Hm.
  - split; [congruence | contradiction].
  - inv_bind Hm as b Hb.
    inv_bind Hm as bs Hbs.
    apply IH in Hbs; [| now auto]. destruct Hbs as [-> Hall].
    assert (b = g a) by (apply Hf; auto). subst b.
    split; [congruence |]. intros a' [<- | Hin]; auto.
Qed.

Lemma mapM_intro {A B : Type} (f : A -> result B) (g : A -> B) (l : list A) :
  (forall a, In a l -> f a = Ok (g a)) -> mapM f l = Ok (map g l).
Proof.
  induction l as [| a l IH]; simpl; intros Hf; [reflexivity |].
  rewrite Hf by now left. simpl. rewrite IH by auto. reflexivity.
Qed.

Lemma filterM_Ok_filter {A : Type} (f : A -> result bool) (p : A -> bool) (l r : list A) :
  (forall a b, In a l -> f a = Ok b -> b = p a) ->
  filterM f l = Ok r -> r = filter p l /\ forall a, In a l -> f a = Ok (p a).
Proof.
  revert r. induction l as [| a l IH]; simpl; intros r Hf Hm.
  - split; [congruence | contradiction].
  - inv_bind Hm as b Hb.
    inv_bind Hm as bs Hbs.
    apply IH in Hbs; [| now auto]. destruct Hbs as [-> Hall].
    assert (b = p a) by (apply Hf; auto). subst b.
    split; [congruence |]. intros a' [<- | Hin]; auto.
Qed.

Lemma filterM_intro {A : Type} (f : A -> result bool) (p : A -> bool) (l : list A) :
  (forall a, In a l -> f a = Ok (p a)) -> filterM f l = Ok (filter p l).
Proof.
  induction l as [| a l IH]; simpl; intros Hf; [reflexivity |].
  rewrite Hf by now left. simpl. rewrite IH by auto. reflexivity.
Qed.

(** A loop invariant indexed by the elements already visited. *)
Lemma foldM_invariant {A S : Type} (f : S -> A -> result S) (P : list A -> S -> Prop)
    (l : list A) (s0 s : S) :
  P [] s0 ->
  (forall pre a s1 s2, In a l -> P pre s1 -> f s1 a = Ok s2 -> P (pre ++ [a]) s2) ->
  foldM f l s0 = Ok s -> P l s.
Proof.
  intros H0 Hstep.
  assert (Hgen : forall rest pre s1, (forall a, In a rest -> In a l) -> P pre s1 ->
                   foldM f rest s1 = Ok s -> P (pre ++ rest) s).
  { induction rest as [| a rest IH]; simpl; intros pre s1 Hsub Hp Hf.
    - rewrite app_nil_r. congruence.
    - inv_bind Hf as s2 Hs2.
      replace (pre ++ a :: rest) with ((pre ++ [a]) ++ rest)
        by (rewrite <- app_assoc; reflexivity).
      apply IH with (s1 := s2); eauto. }
  intros Hf. apply (Hgen l [] s0); auto.
Qed.

(** A loop whose every step succeeds from a state that satisfies the invariant. *)
Lemma foldM_total {A S : Type} (f : S -> A -> result S) (P : list A -> S -> Prop)
    (l : list A) (s0 : S) :
  P [] s0 ->
  (forall pre a post s1, l = pre ++ a :: post -> P pre s1 ->
     exists s2, f s1 a = Ok s2 /\ P (pre ++ [a]) s2) ->
  exists s, foldM f l s0 = Ok s /\ P l s.
Proof.
  intros H0 Hstep.
  assert (Hgen : forall rest pre s1, l = pre ++ rest -> P pre s1 ->
                   exists s, foldM f rest s1 = Ok s /\ P (pre ++ rest) s).
  { induction rest as [| a rest IH]; simpl; intros pre s1 Hl Hp.
    - exists s1. rewrite app_nil_r. auto.
    - destruct (Hstep pre a rest s1 Hl Hp) as (s2 & Hs2 & Hp2).
      rewrite Hs2. simpl.
      replace (pre ++ a :: rest) with ((pre ++ [a]) ++ rest)
        by (rewrite <- app_assoc; reflexivity).
      apply IH; [rewrite <- app_assoc; exact Hl | exact Hp2]. }
  apply (Hgen l [] s0); auto.
Qed.

(** * The builder agrees with the description *)

Lemma eligible_suppliers_get (data : Data) (item_id : ItemKey) (sups : list SupplierKey) :
  dict_get (available_suppliers data) item_id = Some sups ->
  eligible_suppliers data item_id = sups.
Proof. unfold eligible_suppliers. now intros ->. Qed.

Lemma in_eligible_pairs (data : Data) (i : ItemKey) (s : SupplierKey) :
  In (i, s) (eligible_pairs data) <->
  In i (dict_keys (items data)) /\ In s (eligible_suppliers data i).
Proof.
  unfold eligible_pairs. rewrite in_flat_map. split.
  - intros (i' & Hi & Hin). apply in_map_iff in Hin.
    destruct Hin as (s' & Heq & Hs). inversion Heq; subst. auto.
  - intros [Hi Hs]. exists i. split; [assumption |]. now apply in_map.
Qed.

(** ** The decision variables *)

Lemma create_variables_Ok (data : Data) (x : VarDict) :
  create_variables data = Ok x -> variables_invariant data (items data) x.
Proof.
  unfold create_variables.
  apply foldM_invariant with (P := variables_invariant data).
  - repeat split; simpl; try tauto; try discriminate. constructor.
  - intros pre [i it] x1 x2 _ (Hnd & Hkeys & Hval & Hav) Hstep. simpl in Hstep.
    apply bind_Ok in Hstep. destruct Hstep as (sups & Hsups & Hx2).
    apply getitem_Ok in Hsups. inversion Hx2; subst x2; clear Hx2.
    pose proof (eligible_suppliers_get data i sups Hsups) as Hel.
    unfold variables_invariant, dict_keys. rewrite map_app. simpl.
    repeat split.
    + apply (fold_set_NoDup _ (fun s => (i, s)) (new_variable i) sups x1 Hnd).
    + intros Hin.
      apply (fold_set_keys _ (fun s => (i, s)) (new_variable i) sups x1 k) in Hin.
      rewrite flat_map_app, in_app_iff. simpl. rewrite app_nil_r, Hel.
      destruct Hin as [Hin | Hin]; [left; now apply Hkeys | now right].
    + intros Hin.
      apply (fold_set_keys _ (fun s => (i, s)) (new_variable i) sups x1 k).
      rewrite flat_map_app, in_app_iff in Hin. simpl in Hin.
      rewrite app_nil_r, Hel in Hin.
      destruct Hin as [Hin | Hin]; [left; now apply Hkeys | now right].
    + intros i' s' v Hg.
      apply (fold_set_get _ (fun s => (i, s)) (new_variable i) sups x1) in Hg.
      destruct Hg as [Hg | (a & _ & Hk & Hv)]; [eauto |].
      inversion Hk; subst. reflexivity.
    + intros i' Hin. apply in_app_iff in Hin. destruct Hin as [Hin | [<- | []]].
      * now apply Hav.
      * simpl. congruence.
Qed.

(** ** Adding constraints *)

Lemma with_constraints_id (m : LpProblem) : with_constraints m (constraints m) = m.
Proof. now destruct m. Qed.

Lemma extends_refl (m : LpProblem) : extends m m [].
Proof.
  split; [| auto]. rewrite app_nil_r. symmetry. apply with_constraints_id.
Qed.

Lemma extends_trans (m1 m2 m3 : LpProblem) (r1 r2 : list (ConstraintName * LpConstraint)) :
  extends m1 m2 r1 -> extends m2 m3 r2 -> extends m1 m3 (r1 ++ r2).
Proof.
  intros [-> Hn1] [-> Hn2]. split; [| auto].
  unfold with_constraints. simpl. now rewrite app_assoc.
Qed.

Lemma add_constraint_Ok (m m' : LpProblem) (c : LpConstraint) (n : ConstraintName) :
  add_constraint m c n = Ok m' -> extends m m' [(n, c)].
Proof.
  unfold add_constraint. destruct (dict_mem (constraints m) n) eqn:Hmem; [discriminate |].
  intros Heq. inversion Heq; subst m'; clear Heq. split; [reflexivity |].
  simpl. intros Hnd. apply dict_mem_false in Hmem.
  unfold dict_keys in *. rewrite map_app. simpl.
  apply NoDup_app; [assumption | constructor; [intros [] | constructor] |].
  intros a Ha [<- | []]. contradiction.
Qed.

Lemma add_constraint_fresh (m : LpProblem) (c : LpConstraint) (n : ConstraintName) :
  ~ In n (dict_keys (constraints m)) ->
  add_constraint m c n = Ok (with_constraints m (constraints m ++ [(n, c)])).
Proof.
  intros Hn. apply dict_mem_false in Hn. unfold add_constraint. now rewrite Hn.
Qed.

(** A loop whose steps each add the rows [rows a] and establish [Q a]. *)
Lemma foldM_extends {A : Type} (body : LpProblem -> A -> result LpProblem)
    (rows : A -> list (ConstraintName * LpConstraint)) (Q : A -> Prop)
    (l : list A) (m m' : LpProblem) :
  (forall m1 m2 a, In a l -> body m1 a = Ok m2 -> extends m1 m2 (rows a) /\ Q a) ->
  foldM body l m = Ok m' ->
  extends m m' (flat_map rows l) /\ (forall a, In a l -> Q a).
Proof.
  intros Hstep.
  apply foldM_invariant
    with (P := fun pre m1 => extends m m1 (flat_map rows pre) /\ forall a, In a pre -> Q a).
  - split; [apply extends_refl | contradiction].
  - intros pre a m1 m2 Hin [Hext HQ] Hb.
    destruct (Hstep m1 m2 a Hin Hb) as [Hext' HQa].
    rewrite flat_map_app. simpl. rewrite app_nil_r. split.
    + eapply extends_trans; eauto.
    + intros a' Ha'. apply in_app_iff in Ha'. destruct Ha' as [Ha' | [<- | []]]; auto.
Qed.

(** ** The three groups of constraints *)

Section Builder.
Variable data : Data.
Variable x : VarDict.
Hypothesis x_values : forall i s v, dict_get x (i, s) = Some v -> v = new_variable i s.

Lemma stock_terms_Ok (i : ItemKey) (it : Item) (ts : list (LpVariable * Q)) :
  stock_terms data x i it = Ok ts ->
  add_constant (lpSum ts) (current_stock it) = stock_lhs data i it.
Proof.
  unfold stock_terms, stock_lhs. intros Hts.
  inv_bind Hts as sups Hsups.
  apply getitem_Ok in Hsups. rewrite (eligible_suppliers_get data i sups Hsups).
  apply mapM_Ok_map
    with (g := fun s => (new_variable i s, inject_Z (units_per_pallet it))) in Hts.
  - destruct Hts as [-> _]. reflexivity.
  - intros s b _ Hb. inv_bind Hb as v Hv.
    apply getitem_Ok in Hv. apply x_values in Hv. congruence.
Qed.

Lemma stock_constraints_Ok (m m' : LpProblem) :
  stock_constraints data x m = Ok m' ->
  extends m m' (flat_map (stock_rows data) (items data)).
Proof.
  unfold stock_constraints. intros Hf.
  apply foldM_extends with (rows := stock_rows data) (Q := fun _ => True) in Hf;
    [tauto |].
  intros m1 m2 [i it] _ Hb. simpl in Hb. split; [| exact I].
  inv_bind Hb as ts1 Hts1.
  apply bind_Ok in Hb. destruct Hb as (m1' & Hm1' & Hb).
  inv_bind Hb as ts2 Hts2.
  rewrite (stock_terms_Ok i it ts1 Hts1) in Hm1'.
  rewrite (stock_terms_Ok i it ts2 Hts2) in Hb.
  apply add_constraint_Ok in Hm1'. apply add_constraint_Ok in Hb.
  exact (extends_trans _ _ _ _ _ Hm1' Hb).
Qed.

Lemma items_for_supplier_Ok (s : SupplierKey) (its : list ItemKey) :
  items_for_supplier data s = Ok its -> its = supplied_items data s.
Proof.
  unfold items_for_supplier, supplied_items. intros Hf.
  apply filterM_Ok_filter
    with (p := fun i => list_mem s (eligible_suppliers data i)) in Hf; [tauto |].
  intros i b _ Hb. inv_bind Hb as sups Hsups.
  apply getitem_Ok in Hsups. rewrite (eligible_suppliers_get data i sups Hsups). congruence.
Qed.

Lemma pallet_terms_Ok (s : SupplierKey) (ts : list (LpVariable * Q)) :
  pallet_terms x s (supplied_items data s) = Ok ts -> lpSum ts = pallets_lhs data s.
Proof.
  unfold pallet_terms, pallets_lhs. intros Hts.
  apply mapM_Ok_map with (g := fun i => (new_variable i s, 1)) in Hts.
  - destruct Hts as [-> _]. reflexivity.
  - intros i b _ Hb. inv_bind Hb as v Hv.
    apply getitem_Ok in Hv. apply x_values in Hv. congruence.
Qed.

Lemma supplier_constraints_Ok (m m' : LpProblem) :
  supplier_constraints data x m = Ok m' ->
  extends m m' (flat_map (supplier_rows data) (suppliers data)).
Proof.
  unfold supplier_constraints. intros Hf.
  apply foldM_extends with (rows := supplier_rows data) (Q := fun _ => True) in Hf;
    [tauto |].
  intros m1 m2 [s sd] _ Hb. simpl in Hb. split; [| exact I].
  inv_bind Hb as its Hits.
  apply items_for_supplier_Ok in Hits. subst its.
  unfold supplier_rows. simpl.
  destruct (supplied_items data s) as [| i0 its] eqn:Hsup.
  - inversion Hb; subst. apply extends_refl.
  - rewrite <- Hsup in Hb.
    inv_bind Hb as ts1 Hts1.
    apply bind_Ok in Hb. destruct Hb as (m1' & Hm1' & Hb).
    inv_bind Hb as ts2 Hts2.
    rewrite (pallet_terms_Ok s ts1 Hts1) in Hm1'.
    rewrite (pallet_terms_Ok s ts2 Hts2) in Hb.
    apply add_constraint_Ok in Hm1'. apply add_constraint_Ok in Hb.
    exact (extends_trans _ _ _ _ _ Hm1' Hb).
Qed.

Lemma lead_time_constraints_Ok (m m' : LpProblem) :
  lead_time_constraints data x m = Ok m' ->
  extends m m' (flat_map (lead_time_rows data) (items data)) /\
  (forall it, In it (items data) ->
     forall s, In s (eligible_suppliers data (fst it)) ->
       dict_get (suppliers data) s <> None).
Proof.
  unfold lead_time_constraints. intros Hf.
  apply foldM_extends
    with (rows := lead_time_rows data)
         (Q := fun it => forall s, In s (eligible_suppliers data (fst it)) ->
                           dict_get (suppliers data) s <> None) in Hf; [exact Hf |].
  intros m1 m2 [i it] _ Hb. simpl in Hb.
  inv_bind Hb as sups Hsups.
  apply getitem_Ok in Hsups. unfold lead_time_rows. simpl.
  rewrite (eligible_suppliers_get data i sups Hsups).
  apply foldM_extends
    with (rows := lead_time_row data (i, it))
         (Q := fun s => dict_get (suppliers data) s <> None) in Hb; [exact Hb |].
  intros m3 m4 s _ Hs.
  inv_bind Hs as sd Hsd.
  inv_bind Hs as v Hv.
  apply getitem_Ok in Hsd. apply getitem_Ok in Hv. apply x_values in Hv. subst v.
  apply add_constraint_Ok in Hs. unfold lead_time_row, supplier_at. simpl.
  rewrite Hsd. split; [exact Hs | congruence].
Qed.

Lemma objective_terms_Ok (ts : list (LpVariable * Q)) :
  objective_terms data x = Ok ts ->
  ts = map (fun k => (new_variable (fst k) (snd k), cost_at data k)) (eligible_pairs data) /\
  (forall k, In k (eligible_pairs data) -> cost_per_pallet data k <> None).
Proof.
  unfold objective_terms, eligible_pairs. intros Hts.
  inv_bind Hts as tss Htss.
  inversion Hts; subst ts; clear Hts.
  apply mapM_Ok_map
    with (g := fun i => map (fun s => (new_variable i s, cost_at data (i, s)))
                            (eligible_suppliers data i)) in Htss.
  - destruct Htss as [-> Hall]. split.
    + induction (dict_keys (items data)) as [| i l IH]; simpl; [reflexivity |].
      rewrite map_app, map_map. f_equal. apply IH.
      intros a Ha. apply Hall. now right.
    + intros [i s] Hin. apply in_flat_map in Hin. destruct Hin as (i' & Hi' & Hin).
      apply in_map_iff in Hin. destruct Hin as (s' & Heq & Hs'). inversion Heq; subst.
      specialize (Hall i Hi'). inv_bind Hall as sups Hsups. apply getitem_Ok in Hsups.
      rewrite (eligible_suppliers_get data i sups Hsups) in *.
      apply mapM_Ok_map
        with (g := fun s => (new_variable i s, cost_at data (i, s))) in Hall.
      * destruct Hall as [_ Hall]. specialize (Hall s Hs').
        apply bind_Ok in Hall. destruct Hall as (v & _ & Hall).
        inv_bind Hall as ci Hci.
        apply bind_Ok in Hall. destruct Hall as (c & Hc & _).
        apply getitem_Ok in Hci. apply getitem_Ok in Hc.
        unfold cost_per_pallet. simpl. rewrite Hci, Hc. discriminate.
      * intros s0 b _ Hb.
        inv_bind Hb as v Hv.
        inv_bind Hb as ci Hci.
        inv_bind Hb as c Hc.
        apply getitem_Ok in Hv. apply getitem_Ok in Hci. apply getitem_Ok in Hc.
        apply x_values in Hv. subst v.
        unfold cost_at, cost_per_pallet. simpl. rewrite Hci, Hc. congruence.
  - intros i b _ Hb. inv_bind Hb as sups Hsups.
    apply getitem_Ok in Hsups. rewrite (eligible_suppliers_get data i sups Hsups).
    apply mapM_Ok_map
      with (g := fun s => (new_variable i s, cost_at data (i, s))) in Hb; [tauto |].
    intros s0 b0 _ Hb0.
    inv_bind Hb0 as v Hv.
    inv_bind Hb0 as ci Hci.
    inv_bind Hb0 as c Hc.
    apply getitem_Ok in Hv. apply getitem_Ok in Hci. apply getitem_Ok in Hc.
    apply x_values in Hv. subst v.
    unfold cost_at, cost_per_pallet. simpl. rewrite Hci, Hc. congruence.
Qed.

End Builder.

(** ** The whole builder *)

Lemma lead_time_names (data : Data) :
  dict_keys (flat_map (lead_time_rows data) (items data)) =
  map (fun k => Lead_Time_Expiry_ (fst k) (snd k)) (eligible_pairs data).
Proof.
  unfold eligible_pairs, dict_keys.
  induction (items data) as [| [i it] l IH]; simpl; [reflexivity |].
  rewrite !map_app. f_equal; [| exact IH].
  unfold lead_time_rows. simpl.
  induction (eligible_suppliers data i) as [| s sups IHs]; simpl; [reflexivity |].
  f_equal. exact IHs.
Qed.

Lemma stock_names (data : Data) :
  dict_keys (flat_map (stock_rows data) (items data)) =
  flat_map (fun i => [Min_Stock_ i; Max_Stock_ i]) (dict_keys (items data)).
Proof.
  unfold dict_keys. induction (items data) as [| [i it] l IH]; simpl; [reflexivity |].
  now rewrite IH.
Qed.

Lemma NoDup_stock_names_inv (l : list ItemKey) :
  NoDup (flat_map (fun i => [Min_Stock_ i; Max_Stock_ i]) l) -> NoDup l.
Proof.
  induction l as [| i l IH]; simpl; intros Hnd; constructor.
  - inversion Hnd as [| ? ? Hnin _]; subst. intros Hin. apply Hnin. right.
    apply in_flat_map. exists i. simpl. auto.
  - apply IH. inversion Hnd as [| ? ? _ Hnd']; subst. now inversion Hnd'.
Qed.

Lemma create_optimization_model_Ok (data : Data) (m : LpProblem) (x : VarDict) :
  create_optimization_model data = Ok (m, x) ->
  variables_invariant data (items data) x /\
  m = described_problem data /\
  NoDup (dict_keys (described_constraints data)) /\
  (forall k, In k (eligible_pairs data) -> cost_per_pallet data k <> None) /\
  (forall it, In it (items data) ->
     forall s, In s (eligible_suppliers data (fst it)) ->
       dict_get (suppliers data) s <> None).
Proof.
  unfold create_optimization_model. intros Hc.
  inv_bind Hc as x0 Hx.
  inv_bind Hc as ts Hts.
  inv_bind Hc as m1 Hm1.
  inv_bind Hc as m2 Hm2.
  inv_bind Hc as m3 Hm3.
  inversion Hc; subst m3 x0; clear Hc.
  pose proof (create_variables_Ok data x Hx) as Hinv.
  assert (Hval : forall i s v, dict_get x (i, s) = Some v -> v = new_variable i s)
    by apply Hinv.
  apply (objective_terms_Ok data x Hval) in Hts. destruct Hts as [-> Hcost].
  apply (stock_constraints_Ok data x Hval) in Hm1.
  apply (supplier_constraints_Ok data x Hval) in Hm2.
  apply (lead_time_constraints_Ok data x Hval) in Hm3. destruct Hm3 as [Hm3 Hsup].
  pose proof (extends_trans _ _ _ _ _ (extends_trans _ _ _ _ _ Hm1 Hm2) Hm3) as [Hm Hnd].
  simpl in Hm. rewrite <- app_assoc in Hm.
  repeat split; try assumption; try apply Hinv.
  subst m. simpl in Hnd. apply Hnd. constructor.
Qed.

Lemma create_Ok_NoDup_pairs (data : Data) (m : LpProblem) (x : VarDict) :
  create_optimization_model data = Ok (m, x) ->
  NoDup (dict_keys (items data)) /\ NoDup (eligible_pairs data).
Proof.
  intros Hc. apply create_optimization_model_Ok in Hc.
  destruct Hc as (_ & _ & Hnd & _). unfold described_constraints, dict_keys in Hnd.
  rewrite !map_app in Hnd. split.
  - apply NoDup_app_remove_r in Hnd. apply NoDup_stock_names_inv.
    now rewrite <- stock_names.
  - apply NoDup_app_remove_l in Hnd. apply NoDup_app_remove_l in Hnd.
    fold (dict_keys (flat_map (lead_time_rows data) (items data))) in Hnd.
    rewrite lead_time_names in Hnd. now apply NoDup_map_inv in Hnd.
Qed.

(** * The extractor agrees with the description *)

(** A loop whose steps each append the elements [rows a]. *)
Lemma foldM_appends {A B : Type} (body : list B -> A -> result (list B))
    (rows : A -> list B) (l : list A) (r r' : list B) :
  (forall r1 r2 a, In a l -> body r1 a = Ok r2 -> r2 = r1 ++ rows a) ->
  foldM body l r = Ok r' -> r' = r ++ flat_map rows l.
Proof.
  intros Hstep.
  apply foldM_invariant with (P := fun pre r1 => r1 = r ++ flat_map rows pre).
  - now rewrite app_nil_r.
  - intros pre a r1 r2 Hin -> Hb. apply Hstep in Hb; [| assumption]. subst r2.
    rewrite flat_map_app. simpl. now rewrite app_nil_r, app_assoc.
Qed.

Lemma flat_map_pairs {B : Type} (f : ItemKey * SupplierKey -> list B)
    (g : ItemKey -> list SupplierKey) (l : list ItemKey) :
  flat_map f (flat_map (fun i => map (pair i) (g i)) l) =
  flat_map (fun i => flat_map (fun s => f (i, s)) (g i)) l.
Proof.
  induction l as [| i l IH]; simpl; [reflexivity |].
  rewrite flat_map_app, IH. f_equal.
  induction (g i) as [| s sups IHs]; simpl; [reflexivity |]. now rewrite IHs.
Qed.

Lemma emit_line_Ok (sol : Solved) (x : VarDict) (data : Data)
    (i : ItemKey) (s : SupplierKey) (r1 r2 : list OrderLine) :
  emit_line sol x data i r1 s = Ok r2 -> r2 = r1 ++ line_for sol x data (i, s).
Proof.
  unfold emit_line.
  unfold line_for, solved_value, dict_mem, getitem.
  destruct (dict_get x (i, s)) as [v |]; simpl.
  - destruct (value sol (var_name v)) as [p |].
    + destruct (ordered (Some p)); simpl.
      * intros Hb.
        inv_bind Hb as it Hit.
        inv_bind Hb as ci Hci.
        inv_bind Hb as c Hc.
        inv_bind Hb as sd Hsd.
        change (getitem (items data) i = Ok it) in Hit.
        change (getitem (costs data) i = Ok ci) in Hci.
        change (getitem ci s = Ok c) in Hc.
        change (getitem (suppliers data) s = Ok sd) in Hsd.
        apply getitem_Ok in Hit. apply getitem_Ok in Hci.
        apply getitem_Ok in Hc. apply getitem_Ok in Hsd.
        injection Hb as <-.
        unfold order_line, item_at, supplier_at, cost_at, cost_per_pallet. simpl.
        rewrite Hit, Hci, Hc, Hsd. reflexivity.
      * intros Hb. injection Hb as <-. now rewrite app_nil_r.
    + simpl. intros Hb. injection Hb as <-. now rewrite app_nil_r.
  - intros Hb. injection Hb as <-. now rewrite app_nil_r.
Qed.

Lemma extract_results_Ok (sol : Solved) (x : VarDict) (data : Data) (lines : list OrderLine) :
  extract_results sol x data = Ok lines -> lines = described_plan sol x data.
Proof.
  unfold extract_results, described_plan, eligible_pairs. intros Hf.
  rewrite flat_map_pairs.
  apply foldM_appends
    with (rows := fun i => flat_map (fun s => line_for sol x data (i, s))
                                    (eligible_suppliers data i)) in Hf; [exact Hf |].
  intros r1 r2 i _ Hb.
  inv_bind Hb as sups Hsups.
  apply getitem_Ok in Hsups. rewrite (eligible_suppliers_get data i sups Hsups).
  apply foldM_appends with (rows := fun s => line_for sol x data (i, s)) in Hb;
    [exact Hb |].
  intros r3 r4 s _ Hs. now apply emit_line_Ok.
Qed.

(** * What the normalisation guarantees *)

Section DictFill.
Context {K V A : Type} `{EqDec K}.
Variables (key : A -> K) (val : A -> V).

Lemma fold_set_untouched (l : list A) (d : dict K V) (k : K) :
  ~ In k (map key l) ->
  dict_get (fold_left (fun d a => dict_set d (key a) (val a)) l d) k = dict_get d k.
Proof.
  revert d. induction l as [| a l IH]; simpl; intros d Hn; [reflexivity |].
  rewrite IH by tauto. apply dict_get_set_ne. intros Heq. apply Hn. now left.
Qed.

(** The last element with a key decides the value stored under it. *)
Lemma fold_set_lookup (l : list A) (d : dict K V) (k : K) :
  In k (map key l) ->
  exists a, In a l /\ key a = k /\
            dict_get (fold_left (fun d a => dict_set d (key a) (val a)) l d) k = Some (val a).
Proof.
  revert d. induction l as [| a l IH]; simpl; intros d Hin; [contradiction |].
  destruct (in_dec eq_dec k (map key l)) as [Hl | Hl].
  - destruct (IH (dict_set d (key a) (val a)) Hl) as (a' & Ha' & Hk & Hg).
    exists a'. auto.
  - destruct Hin as [Hk | Hin]; [| contradiction].
    exists a. split; [now left |]. split; [assumption |].
    rewrite fold_set_untouched by assumption. subst k. apply dict_get_set_eq.
Qed.
End DictFill.

Section Prepare.
Variables (items_df : list ItemRow) (suppliers_df : list SupplierRow)
          (pricing_df : list PricingRow).

Let D := prepare_data_for_optimization items_df suppliers_df pricing_df.

Lemma prepare_items :
  items D = fold_left (fun d a => dict_set d (row_ItemID a) (item_of_row a)) items_df [].
Proof. reflexivity. Qed.

Lemma prepare_suppliers :
  suppliers D =
  fold_left (fun d a => dict_set d (srow_SupplierID a) (supplier_of_row a)) suppliers_df [].
Proof. reflexivity. Qed.

Lemma prepare_available (l : list ItemKey)
    (st : dict ItemKey (list SupplierKey) * dict ItemKey (dict SupplierKey Q)) :
  fst (fold_left (process_pricing pricing_df) l st) =
  fold_left (fun d i => dict_set d i
               (unique (map prow_SupplierID (item_pricing pricing_df i)))) l (fst st).
Proof. revert st. induction l as [| i l IH]; simpl; intros st; [reflexivity |]. now rewrite IH. Qed.

Lemma prepare_costs (l : list ItemKey)
    (st : dict ItemKey (list SupplierKey) * dict ItemKey (dict SupplierKey Q)) :
  snd (fold_left (process_pricing pricing_df) l st) =
  fold_left (fun d i => dict_set d i (item_costs (item_pricing pricing_df i))) l (snd st).
Proof. revert st. induction l as [| i l IH]; simpl; intros st; [reflexivity |]. now rewrite IH. Qed.

Lemma prepare_items_NoDup : NoDup (dict_keys (items D)).
Proof. rewrite prepare_items. apply fold_set_NoDup. constructor. Qed.

Lemma prepare_suppliers_NoDup : NoDup (dict_keys (suppliers D)).
Proof. rewrite prepare_suppliers. apply fold_set_NoDup. constructor. Qed.

Lemma prepare_items_keys (i : ItemKey) :
  In i (dict_keys (items D)) <-> In i (map row_ItemID items_df).
Proof. rewrite prepare_items, fold_set_keys. simpl. tauto. Qed.

Lemma prepare_suppliers_keys (s : SupplierKey) :
  In s (dict_keys (suppliers D)) <-> In s (map srow_SupplierID suppliers_df).
Proof. rewrite prepare_suppliers, fold_set_keys. simpl. tauto. Qed.

Lemma prepare_item_shape (i : ItemKey) (it : Item) :
  In (i, it) (items D) -> exists row, In row items_df /\ row_ItemID row = i /\ it = item_of_row row.
Proof.
  intros Hin. apply In_dict_get in Hin; [| apply prepare_items_NoDup].
  rewrite prepare_items in Hin. apply fold_set_get in Hin.
  destruct Hin as [Hin | (row & Hrow & Hk & Hv)]; [discriminate |].
  exists row. auto.
Qed.

Lemma prepare_available_get (i : ItemKey) :
  In i (dict_keys (items D)) ->
  dict_get (available_suppliers D) i =
  Some (unique (map prow_SupplierID (item_pricing pricing_df i))).
Proof.
  intros Hin. unfold D, prepare_data_for_optimization. simpl.
  rewrite prepare_available.
  destruct (fold_set_lookup (fun i : ItemKey => i)
              (fun i => unique (map prow_SupplierID (item_pricing pricing_df i)))
              (dict_keys (fold_left process_item items_df [])) [] i) as (a & _ & -> & Hg).
  - rewrite map_id. exact Hin.
  - exact Hg.
Qed.

Lemma prepare_costs_get (i : ItemKey) :
  In i (dict_keys (items D)) ->
  dict_get (costs D) i = Some (item_costs (item_pricing pricing_df i)).
Proof.
  intros Hin. unfold D, prepare_data_for_optimization. simpl.
  rewrite prepare_costs.
  destruct (fold_set_lookup (fun i : ItemKey => i)
              (fun i => item_costs (item_pricing pricing_df i))
              (dict_keys (fold_left process_item items_df [])) [] i) as (a & _ & -> & Hg).
  - rewrite map_id. exact Hin.
  - exact Hg.
Qed.

Lemma item_pricing_suppliers (i : ItemKey) (s : SupplierKey) :
  In s (map prow_SupplierID (item_pricing pricing_df i)) <-> price_entry pricing_df i s.
Proof.
  unfold item_pricing, price_entry. rewrite in_map_iff. split.
  - intros (row & Hs & Hin). apply filter_In in Hin. destruct Hin as [Hin Hi].
    apply Z.eqb_eq in Hi. eauto.
  - intros (row & Hin & Hi & Hs). exists row. split; [assumption |].
    apply filter_In. split; [assumption |]. now apply Z.eqb_eq.
Qed.

Lemma item_costs_keys (rows : list PricingRow) (s : SupplierKey) :
  In s (dict_keys (item_costs rows)) <-> In s (map prow_SupplierID rows).
Proof. unfold item_costs. rewrite fold_set_keys. simpl. tauto. Qed.

Lemma prepare_eligible (i : ItemKey) (s : SupplierKey) :
  In i (dict_keys (items D)) ->
  (In s (eligible_suppliers D i) <-> price_entry pricing_df i s).
Proof.
  intros Hi. unfold eligible_suppliers. rewrite (prepare_available_get i Hi).
  rewrite unique_In. apply item_pricing_suppliers.
Qed.

Lemma prepare_cost_entry (i : ItemKey) (s : SupplierKey) :
  cost_per_pallet D (i, s) <> None <->
  In i (dict_keys (items D)) /\ price_entry pricing_df i s.
Proof.
  unfold cost_per_pallet. cbn [fst snd]. split.
  - destruct (dict_get (costs D) i) as [ci |] eqn:Hci; [| intros Hx; now elim Hx].
    intros Hs.
    assert (Hi : In i (dict_keys (items D))).
    { apply dict_get_Some_key in Hci. unfold D, prepare_data_for_optimization in Hci.
      simpl in Hci. rewrite prepare_costs in Hci.
      apply (fold_set_keys _ (fun i : ItemKey => i)
               (fun i => item_costs (item_pricing pricing_df i))) in Hci.
      simpl in Hci.
      rewrite map_id in Hci. tauto. }
    split; [assumption |].
    rewrite (prepare_costs_get i Hi) in Hci. injection Hci as <-.
    apply item_pricing_suppliers, item_costs_keys.
    destruct (dict_get (item_costs (item_pricing pricing_df i)) s) eqn:Hg;
      [| now elim Hs].
    eapply dict_get_Some_key; eauto.
  - intros [Hi Hp]. rewrite (prepare_costs_get i Hi).
    apply item_pricing_suppliers, item_costs_keys, dict_key_get in Hp.
    destruct Hp as (c & ->). discriminate.
Qed.

Lemma prepare_well_formed :
  (forall row, In row pricing_df ->
     In (prow_SupplierID row) (map srow_SupplierID suppliers_df)) ->
  well_formed D.
Proof.
  intros Hclosed. split; [apply prepare_items_NoDup |].
  split; [apply prepare_suppliers_NoDup |].
  intros i Hi. eexists. split; [apply (prepare_available_get i Hi) |].
  split; [apply unique_NoDup |].
  intros s Hs. apply unique_In, item_pricing_suppliers in Hs. split.
  - destruct Hs as (row & Hrow & _ & <-).
    apply Hclosed, prepare_suppliers_keys, dict_key_get in Hrow.
    destruct Hrow as (sd & ->). discriminate.
  - apply prepare_cost_entry. auto.
Qed.

End Prepare.

(** * The builder succeeds on well-formed data *)

Lemma NoDup_flat_map {A B : Type} (f : A -> list B) (l : list A) :
  NoDup l ->
  (forall a, In a l -> NoDup (f a)) ->
  (forall a b c, In a l -> In b l -> In c (f a) -> In c (f b) -> a = b) ->
  NoDup (flat_map f l).
Proof.
  induction l as [| a l IH]; simpl; intros Hnd Hf Hdisj; [constructor |].
  inversion Hnd as [| ? ? Hnin Hnd']; subst.
  apply NoDup_app; [now apply Hf; left | apply IH; auto |].
  - intros a1 b1 c Ha1 Hb1. apply Hdisj; now right.
  - intros c Hc Hin. apply in_flat_map in Hin. destruct Hin as (b & Hb & Hcb).
    assert (a = b) by (apply (Hdisj a b c); auto). subst b. contradiction.
Qed.

Lemma NoDup_map_injective {A B : Type} (f : A -> B) (l : list A) :
  (forall a b, f a = f b -> a = b) -> NoDup l -> NoDup (map f l).
Proof.
  intros Hinj. induction 1 as [| a l Hnin Hnd IH]; simpl; constructor; [| assumption].
  intros Hin. apply in_map_iff in Hin. destruct Hin as (b & Hb & Hin).
  apply Hinj in Hb. now subst b.
Qed.

Lemma supplier_names (data : Data) :
  dict_keys (flat_map (supplier_rows data) (suppliers data)) =
  flat_map (fun s => match supplied_items data s with
                     | [] => []
                     | _ :: _ => [Min_Pallets_ s; Max_Pallets_ s]
                     end) (dict_keys (suppliers data)).
Proof.
  unfold dict_keys. induction (suppliers data) as [| [s sd] l IH]; simpl; [reflexivity |].
  rewrite map_app, IH. f_equal. unfold supplier_rows. simpl.
  now destruct (supplied_items data s).
Qed.

Lemma well_formed_priced (data : Data) :
  well_formed data -> priced data /\ suppliers_known data.
Proof.
  intros (Hit & Hsu & Hav). split.
  - split; [assumption |]. split; [assumption |].
    intros i Hi. destruct (Hav i Hi) as (sups & Hg & Hnd & Hall).
    exists sups. split; [assumption |]. split; [assumption |].
    intros s Hs. now apply Hall.
  - intros i s Hin. apply in_eligible_pairs in Hin. destruct Hin as [Hi Hs].
    destruct (Hav i Hi) as (sups & Hg & _ & Hall).
    rewrite (eligible_suppliers_get data i sups Hg) in Hs. now apply Hall.
Qed.

Lemma priced_pairs (data : Data) : priced data -> NoDup (eligible_pairs data).
Proof.
  intros (Hit & _ & Hav). unfold eligible_pairs. apply NoDup_flat_map; [assumption | |].
  - intros i Hi. destruct (Hav i Hi) as (sups & Hg & Hnd & _).
    rewrite (eligible_suppliers_get data i sups Hg).
    apply NoDup_map_injective; [| assumption]. intros a b Hab. congruence.
  - intros a b [i s] _ _ Ha Hb. apply in_map_iff in Ha, Hb.
    destruct Ha as (? & Ha & _), Hb as (? & Hb & _). congruence.
Qed.

Lemma described_names_NoDup (data : Data) :
  priced data -> NoDup (dict_keys (described_constraints data)).
Proof.
  intros Hwf. pose proof (priced_pairs data Hwf) as Hpairs.
  destruct Hwf as (Hit & Hsu & _).
  unfold described_constraints, dict_keys. rewrite !map_app.
  fold (dict_keys (flat_map (stock_rows data) (items data))).
  fold (dict_keys (flat_map (supplier_rows data) (suppliers data))).
  fold (dict_keys (flat_map (lead_time_rows data) (items data))).
  rewrite stock_names, supplier_names, lead_time_names.
  apply NoDup_app; [| apply NoDup_app |].
  - apply NoDup_flat_map; [assumption | |].
    + intros i _. repeat constructor; simpl; intuition discriminate.
    + intros a b c _ _ Ha Hb. simpl in Ha, Hb. intuition congruence.
  - apply NoDup_flat_map; [assumption | |].
    + intros s _. destruct (supplied_items data s); [constructor |].
      repeat constructor; simpl; intuition discriminate.
    + intros a b c _ _ Ha Hb.
      destruct (supplied_items data a); [contradiction |].
      destruct (supplied_items data b); [contradiction |].
      simpl in Ha, Hb. intuition congruence.
  - apply NoDup_map_injective; [| assumption].
    intros [i s] [i' s'] Heq. simpl in Heq. congruence.
  - intros n Hn Hl. apply in_flat_map in Hn. destruct Hn as (s & _ & Hn).
    apply in_map_iff in Hl. destruct Hl as (k & Hk & _).
    destruct (supplied_items data s); [contradiction |].
    simpl in Hn. intuition congruence.
  - intros n Hn Hl. apply in_flat_map in Hn. destruct Hn as (i & _ & Hn).
    apply in_app_iff in Hl. destruct Hl as [Hl | Hl].
    + apply in_flat_map in Hl. destruct Hl as (s & _ & Hl).
      destruct (supplied_items data s); [contradiction |].
      simpl in Hn, Hl. intuition congruence.
    + apply in_map_iff in Hl. destruct Hl as (k & Hk & _).
      simpl in Hn. intuition congruence.
Qed.

Lemma add_constraint_total (m : LpProblem) (c : LpConstraint) (n : ConstraintName) :
  NoDup (dict_keys (constraints m ++ [(n, c)])) ->
  exists m2, add_constraint m c n = Ok m2 /\ constraints m2 = constraints m ++ [(n, c)].
Proof.
  intros Hnd. unfold dict_keys in Hnd. rewrite map_app in Hnd. simpl in Hnd.
  apply NoDup_remove_2 in Hnd. rewrite app_nil_r in Hnd.
  rewrite (add_constraint_fresh m c n Hnd). eexists. split; reflexivity.
Qed.

Lemma add_two_constraints_total (m : LpProblem) (c1 c2 : LpConstraint)
    (n1 n2 : ConstraintName) :
  NoDup (dict_keys (constraints m ++ [(n1, c1); (n2, c2)])) ->
  exists m2, (m1 <- add_constraint m c1 n1 ;; add_constraint m1 c2 n2) = Ok m2 /\
             constraints m2 = constraints m ++ [(n1, c1); (n2, c2)].
Proof.
  intros Hnd.
  change [(n1, c1); (n2, c2)] with ([(n1, c1)] ++ [(n2, c2)]) in *.
  rewrite app_assoc in *.
  destruct (add_constraint_total m c1 n1) as (m1 & Hm1 & Hc1).
  { unfold dict_keys in *. rewrite map_app in Hnd. now apply NoDup_app_remove_r in Hnd. }
  rewrite Hm1. simpl. rewrite <- Hc1 in *. now apply add_constraint_total.
Qed.

(** A loop whose steps each succeed in adding the rows [rows a]. *)
Lemma foldM_adds_total {A : Type} (body : LpProblem -> A -> result LpProblem)
    (rows : A -> list (ConstraintName * LpConstraint)) (l : list A) (m0 : LpProblem) :
  NoDup (dict_keys (constraints m0 ++ flat_map rows l)) ->
  (forall m1 a, In a l -> NoDup (dict_keys (constraints m1 ++ rows a)) ->
     exists m2, body m1 a = Ok m2 /\ constraints m2 = constraints m1 ++ rows a) ->
  exists m', foldM body l m0 = Ok m' /\ constraints m' = constraints m0 ++ flat_map rows l.
Proof.
  intros Hnd Hstep.
  apply foldM_total
    with (P := fun pre m1 => constraints m1 = constraints m0 ++ flat_map rows pre).
  - now rewrite app_nil_r.
  - intros pre a post m1 Hl Hc.
    destruct (Hstep m1 a) as (m2 & Hm2 & Hc2).
    + subst l. apply in_app_iff. right. now left.
    + rewrite Hc. subst l. rewrite flat_map_app in Hnd. simpl in Hnd.
      rewrite !app_assoc in Hnd. unfold dict_keys in *.
      rewrite map_app in Hnd. apply NoDup_app_remove_r in Hnd.
      now rewrite <- !app_assoc in *.
    + exists m2. split; [assumption |].
      rewrite Hc2, Hc, flat_map_app. simpl. now rewrite app_nil_r, app_assoc.
Qed.

Section BuilderTotal.
Variable data : Data.
Variable x : VarDict.
Hypothesis data_wf : priced data.
Hypothesis x_inv : variables_invariant data (items data) x.

Lemma priced_available (i : ItemKey) :
  In i (dict_keys (items data)) ->
  getitem (available_suppliers data) i = Ok (eligible_suppliers data i).
Proof.
  intros Hi. destruct data_wf as (_ & _ & Hav). destruct (Hav i Hi) as (sups & Hg & _).
  unfold getitem, eligible_suppliers. now rewrite Hg.
Qed.

Lemma variable_lookup (i : ItemKey) (s : SupplierKey) :
  In (i, s) (eligible_pairs data) -> getitem x (i, s) = Ok (new_variable i s).
Proof.
  intros Hin. destruct x_inv as (_ & Hkeys & Hval & _).
  apply Hkeys, dict_key_get in Hin. destruct Hin as (v & Hv).
  unfold getitem. rewrite Hv. now rewrite (Hval i s v Hv).
Qed.

Lemma cost_lookups (i : ItemKey) (s : SupplierKey) :
  In (i, s) (eligible_pairs data) ->
  exists ci, getitem (costs data) i = Ok ci /\ getitem ci s = Ok (cost_at data (i, s)).
Proof.
  intros Hin. apply in_eligible_pairs in Hin. destruct Hin as [Hi Hs].
  destruct data_wf as (_ & _ & Hav). destruct (Hav i Hi) as (sups & Hg & _ & Hall).
  rewrite (eligible_suppliers_get data i sups Hg) in Hs.
  pose proof (Hall s Hs) as Hcost.
  unfold cost_at, cost_per_pallet, getitem in *. simpl in *.
  destruct (dict_get (costs data) i) as [ci |]; [| congruence].
  exists ci. split; [reflexivity |]. destruct (dict_get ci s); congruence.
Qed.

Lemma supplier_lookup (s : SupplierKey) :
  dict_get (suppliers data) s <> None ->
  getitem (suppliers data) s = Ok (supplier_at data s).
Proof.
  intros Hs. unfold getitem, supplier_at.
  destruct (dict_get (suppliers data) s); congruence.
Qed.

Lemma objective_terms_total :
  objective_terms data x = Ok (terms (described_objective data)).
Proof.
  unfold objective_terms, described_objective, eligible_pairs. simpl.
  rewrite mapM_intro
    with (g := fun i => map (fun s => (new_variable i s, cost_at data (i, s)))
                            (eligible_suppliers data i)).
  - simpl. f_equal. induction (dict_keys (items data)) as [| i l IH]; simpl; [reflexivity |].
    now rewrite map_app, map_map, IH.
  - intros i Hi. rewrite (priced_available i Hi). simpl.
    apply mapM_intro. intros s Hs.
    assert (Hin : In (i, s) (eligible_pairs data)) by (apply in_eligible_pairs; auto).
    rewrite (variable_lookup i s Hin). simpl.
    destruct (cost_lookups i s Hin) as (ci & Hci & Hc).
    rewrite Hci. simpl. rewrite Hc. reflexivity.
Qed.

Lemma stock_terms_total (it : ItemKey * Item) :
  In it (items data) ->
  stock_terms data x (fst it) (snd it) =
  Ok (map (fun s => (new_variable (fst it) s, inject_Z (units_per_pallet (snd it))))
          (eligible_suppliers data (fst it))).
Proof.
  intros Hit. assert (Hi : In (fst it) (dict_keys (items data))) by now apply in_map.
  unfold stock_terms. rewrite (priced_available (fst it) Hi). simpl.
  apply mapM_intro. intros s Hs.
  rewrite variable_lookup by (apply in_eligible_pairs; auto). reflexivity.
Qed.

Lemma stock_constraints_total (m0 : LpProblem) :
  NoDup (dict_keys (constraints m0 ++ flat_map (stock_rows data) (items data))) ->
  exists m', stock_constraints data x m0 = Ok m' /\
             constraints m' = constraints m0 ++ flat_map (stock_rows data) (items data).
Proof.
  intros Hnd. unfold stock_constraints. apply foldM_adds_total; [assumption |].
  intros m1 it Hit Hnd1. rewrite (stock_terms_total it Hit). simpl.
  apply (add_two_constraints_total m1
           (min_stock_constraint data (fst it) (snd it))
           (max_stock_constraint data (fst it) (snd it))
           (Min_Stock_ (fst it)) (Max_Stock_ (fst it)) Hnd1).
Qed.

Lemma items_for_supplier_total (s : SupplierKey) :
  items_for_supplier data s = Ok (supplied_items data s).
Proof.
  unfold items_for_supplier, supplied_items. apply filterM_intro.
  intros i Hi. now rewrite (priced_available i Hi).
Qed.

Lemma pallet_terms_total (s : SupplierKey) :
  pallet_terms x s (supplied_items data s) = Ok (terms (pallets_lhs data s)).
Proof.
  unfold pallet_terms, pallets_lhs. simpl. apply mapM_intro.
  intros i Hi. unfold supplied_items in Hi. apply filter_In in Hi.
  destruct Hi as [Hi Hs]. apply list_mem_In in Hs.
  rewrite variable_lookup by (apply in_eligible_pairs; auto). reflexivity.
Qed.

Lemma supplier_constraints_total (m0 : LpProblem) :
  NoDup (dict_keys (constraints m0 ++ flat_map (supplier_rows data) (suppliers data))) ->
  exists m', supplier_constraints data x m0 = Ok m' /\
             constraints m' = constraints m0 ++ flat_map (supplier_rows data) (suppliers data).
Proof.
  intros Hnd. unfold supplier_constraints. apply foldM_adds_total; [assumption |].
  intros m1 [s sd] _ Hnd1. simpl. rewrite items_for_supplier_total. simpl.
  unfold supplier_rows in *. simpl in *.
  pose proof (pallet_terms_total s) as Hts.
  destruct (supplied_items data s) as [| i0 its] eqn:Hsup.
  - exists m1. now rewrite app_nil_r.
  - rewrite Hts. simpl.
    apply (add_two_constraints_total m1 _ _ _ _ Hnd1).
Qed.

(** One step of the inner lead-time loop. *)
Lemma lead_time_step_total (m2 : LpProblem) (it : ItemKey * Item) (s : SupplierKey) :
  In (fst it, s) (eligible_pairs data) ->
  dict_get (suppliers data) s <> None ->
  NoDup (dict_keys (constraints m2 ++ lead_time_row data it s)) ->
  exists m3,
    (supplier_data <- getitem (suppliers data) s ;;
     v <- getitem x (fst it, s) ;;
     add_constraint m2
       {| lhs := add_constant (lpSum [(v, inject_Z (units_per_pallet (snd it)))])
                              (current_stock (snd it));
          sense := LpConstraintLE;
          rhs := expected_demand (snd it)
                 + average_daily_sale (snd it) * lead_time supplier_data |}
       (Lead_Time_Expiry_ (fst it) s)) = Ok m3 /\
    constraints m3 = constraints m2 ++ lead_time_row data it s.
Proof.
  intros Hin Hs Hnd. rewrite (supplier_lookup s Hs). simpl.
  rewrite (variable_lookup (fst it) s Hin). simpl.
  now apply add_constraint_total.
Qed.

Lemma lead_time_constraints_total (m0 : LpProblem) :
  suppliers_known data ->
  NoDup (dict_keys (constraints m0 ++ flat_map (lead_time_rows data) (items data))) ->
  exists m', lead_time_constraints data x m0 = Ok m' /\
             constraints m' = constraints m0 ++ flat_map (lead_time_rows data) (items data).
Proof.
  intros Hkn Hnd. unfold lead_time_constraints. apply foldM_adds_total; [assumption |].
  intros m1 it Hit Hnd1.
  assert (Hi : In (fst it) (dict_keys (items data))) by now apply in_map.
  rewrite (priced_available (fst it) Hi). simpl.
  apply foldM_adds_total with (rows := lead_time_row data it); [exact Hnd1 |].
  intros m2 s Hs Hnd2.
  assert (Hin : In (fst it, s) (eligible_pairs data)) by (apply in_eligible_pairs; auto).
  apply lead_time_step_total; [assumption | now apply (Hkn (fst it)) | assumption].
Qed.

End BuilderTotal.

Lemma create_variables_total (data : Data) :
  priced data -> exists x, create_variables data = Ok x.
Proof.
  intros Hwf. unfold create_variables.
  destruct (foldM_total
              (fun (x : VarDict) (it : ItemKey * Item) =>
                 sups <- getitem (available_suppliers data) (fst it) ;;
                 Ok (fold_left (fun (x : VarDict) supplier_id =>
                                  dict_set x (fst it, supplier_id)
                                           (new_variable (fst it) supplier_id))
                               sups x))
              (fun _ _ => True) (items data) []) as (x & Hx & _); [exact I | | eauto].
  intros pre it post x1 Hl _.
  assert (Hi : In (fst it) (dict_keys (items data))).
  { apply in_map. rewrite Hl. apply in_app_iff. right. now left. }
  destruct Hwf as (_ & _ & Hav). destruct (Hav _ Hi) as (sups & Hg & _).
  unfold getitem. rewrite Hg. simpl. eauto.
Qed.

Lemma create_optimization_model_total (data : Data) :
  well_formed data -> exists m x, create_optimization_model data = Ok (m, x).
Proof.
  intros Hwf0. destruct (well_formed_priced data Hwf0) as [Hwf Hkn].
  pose proof (described_names_NoDup data Hwf) as Hnd.
  destruct (create_variables_total data Hwf) as (x & Hx).
  pose proof (create_variables_Ok data x Hx) as Hinv.
  unfold create_optimization_model. rewrite Hx. simpl.
  rewrite (objective_terms_total data x Hwf Hinv). simpl.
  unfold described_constraints, dict_keys in Hnd.
  match goal with
  | |- context [stock_constraints data x ?m0] =>
      destruct (stock_constraints_total data x Hwf Hinv m0) as (m1 & Hm1 & Hc1)
  end.
  { simpl. rewrite map_app in Hnd. now apply NoDup_app_remove_r in Hnd. }
  rewrite Hm1. simpl. simpl in Hc1.
  destruct (supplier_constraints_total data x Hwf Hinv m1) as (m2 & Hm2 & Hc2).
  { rewrite Hc1. rewrite app_assoc in Hnd. unfold dict_keys.
    rewrite map_app in Hnd. now apply NoDup_app_remove_r in Hnd. }
  rewrite Hm2. simpl.
  destruct (lead_time_constraints_total data x Hwf Hinv m2 Hkn) as (m3 & Hm3 & Hc3).
  { rewrite Hc2, Hc1, <- app_assoc. exact Hnd. }
  rewrite Hm3. simpl. eauto.
Qed.

(** * Numbers *)

Lemma ordered_true (ov : option Q) :
  ordered ov = true <-> exists v, ov = Some v /\ 0 < v.
Proof.
  unfold ordered, Qpositive. destruct ov as [v |].
  - rewrite andb_true_iff, !negb_true_iff. split.
    + intros [_ Hle]. exists v. split; [reflexivity |].
      apply Qnot_le_lt. intros Hc. apply Qle_bool_iff in Hc. congruence.
    + intros (v' & Hv & Hpos). injection Hv as <-. split.
      * destruct (Qeq_bool v 0) eqn:He; [| reflexivity].
        apply Qeq_bool_iff in He. rewrite He in Hpos. now apply Qlt_irrefl in Hpos.
      * destruct (Qle_bool v 0) eqn:Hl; [| reflexivity].
        apply Qle_bool_iff in Hl. exfalso. apply (Qlt_irrefl 0).
        eapply Qlt_le_trans; eauto.
  - split; [discriminate | intros (v & Hv & _); discriminate].
Qed.

(** On a non-negative value [int] is the floor. *)
Lemma int_floor (v : Q) : 0 <= v -> int v = Qfloor v.
Proof.
  destruct v as [n d]. unfold Qle, int. simpl. intros Hn.
  apply Z.quot_div_nonneg; lia.
Qed.

(** On a whole number [int] is the identity. *)
Lemma int_whole (v : Q) (n : Z) : v == inject_Z n -> int v = n.
Proof.
  destruct v as [a d]. unfold Qeq, int. simpl. intros Heq.
  rewrite Z.mul_1_r in Heq. subst a. apply Z.quot_mul. discriminate.
Qed.

Lemma int_bounds (v : Q) : 0 < v -> inject_Z (int v) <= v /\ v < inject_Z (int v + 1).
Proof.
  intros Hpos. rewrite int_floor by now apply Qlt_le_weak.
  split; [apply Qfloor_le | apply Qlt_floor].
Qed.

Lemma int_nonneg (v : Q) : 0 < v -> (0 <= int v)%Z.
Proof.
  intros Hpos. rewrite int_floor by now apply Qlt_le_weak.
  change 0%Z with (Qfloor 0). apply Qfloor_resp_le. now apply Qlt_le_weak.
Qed.

Lemma int_positive (v : Q) : 0 < v -> ((0 < int v)%Z <-> 1 <= v).
Proof.
  intros Hpos. rewrite int_floor by now apply Qlt_le_weak. split.
  - intros Hf. apply Qle_trans with (inject_Z (Qfloor v)); [| apply Qfloor_le].
    change 1 with (inject_Z 1). rewrite <- Zle_Qle. lia.
  - intros Hv. apply Qfloor_resp_le in Hv. change (Qfloor 1) with 1%Z in Hv. lia.
Qed.

(** * The extractor succeeds after the builder *)

Lemma foldM_appends_total {A B : Type} (body : list B -> A -> result (list B))
    (rows : A -> list B) (l : list A) (r : list B) :
  (forall r1 a, In a l -> body r1 a = Ok (r1 ++ rows a)) ->
  foldM body l r = Ok (r ++ flat_map rows l).
Proof.
  revert r. induction l as [| a l IH]; simpl; intros r Hstep.
  - now rewrite app_nil_r.
  - rewrite Hstep by now left. simpl. rewrite IH by auto. now rewrite app_assoc.
Qed.

Lemma emit_line_total (sol : Solved) (x : VarDict) (data : Data)
    (i : ItemKey) (s : SupplierKey) (r : list OrderLine) :
  dict_get (items data) i <> None ->
  cost_per_pallet data (i, s) <> None ->
  dict_get (suppliers data) s <> None ->
  emit_line sol x data i r s = Ok (r ++ line_for sol x data (i, s)).
Proof.
  unfold emit_line, line_for, solved_value, dict_mem, getitem, cost_per_pallet.
  simpl. intros Hit Hc Hsd.
  destruct (dict_get x (i, s)) as [v |]; simpl; [| now rewrite app_nil_r].
  destruct (value sol (var_name v)) as [p |]; simpl.
  - destruct (ordered (Some p)); [| now rewrite app_nil_r].
    unfold order_line, item_at, supplier_at, cost_at, cost_per_pallet. simpl.
    destruct (dict_get (items data) i) as [it |]; [| congruence]. simpl.
    destruct (dict_get (costs data) i) as [ci |]; [| congruence]. simpl.
    destruct (dict_get ci s) as [c |]; [| congruence]. simpl.
    destruct (dict_get (suppliers data) s) as [sd |]; [| congruence]. reflexivity.
  - unfold ordered. now rewrite app_nil_r.
Qed.

Lemma extract_results_total (sol : Solved) (data : Data) (m : LpProblem) (x : VarDict) :
  create_optimization_model data = Ok (m, x) ->
  extract_results sol x data = Ok (described_plan sol x data).
Proof.
  intros Hc. apply create_optimization_model_Ok in Hc.
  destruct Hc as ((_ & _ & _ & Hav) & _ & _ & Hcost & Hsup).
  unfold extract_results, described_plan, eligible_pairs. rewrite flat_map_pairs.
  apply (foldM_appends_total
           (fun results item_id =>
              sups <- getitem (available_suppliers data) item_id ;;
              foldM (emit_line sol x data item_id) sups results)
           (fun i => flat_map (fun s => line_for sol x data (i, s))
                              (eligible_suppliers data i))).
  intros r1 i Hi. unfold getitem, eligible_suppliers.
  pose proof (Hav i Hi) as Hai.
  destruct (dict_get (available_suppliers data) i) as [sups |] eqn:Hg; [| congruence].
  simpl. apply foldM_appends_total. intros r2 s Hs.
  destruct (dict_key_get (items data) i Hi) as (it & Hit).
  apply emit_line_total.
  - congruence.
  - apply Hcost, in_eligible_pairs. split; [assumption |].
    now rewrite (eligible_suppliers_get data i sups Hg).
  - apply (Hsup (i, it)); [now apply dict_get_In |]. simpl.
    now rewrite (eligible_suppliers_get data i sups Hg).
Qed.

(** * Shared consequences *)

Lemma cost_at_entry (data : Data) (k : ItemKey * SupplierKey) :
  cost_per_pallet data k <> None -> cost_per_pallet data k = Some (cost_at data k).
Proof. unfold cost_at. destruct (cost_per_pallet data k); congruence. Qed.

Lemma supplier_at_entry (data : Data) (s : SupplierKey) :
  dict_get (suppliers data) s <> None -> dict_get (suppliers data) s = Some (supplier_at data s).
Proof. unfold supplier_at. destruct (dict_get (suppliers data) s); congruence. Qed.

Lemma create_Ok_variables_length (data : Data) (m : LpProblem) (x : VarDict) :
  create_optimization_model data = Ok (m, x) -> length x = length (eligible_pairs data).
Proof.
  intros Hc. destruct (create_Ok_NoDup_pairs data m x Hc) as [_ Hnd].
  apply create_optimization_model_Ok in Hc. destruct Hc as ((Hndx & Hkeys & _) & _).
  rewrite <- (length_map fst x). fold (dict_keys x).
  apply Nat.le_antisymm; apply NoDup_incl_length; try assumption;
    intros k Hk; now apply Hkeys.
Qed.

Lemma supplied_items_nil (data : Data) (s : SupplierKey) :
  supplied_items data s = [] <-> has_eligible_items data s = false.
Proof.
  unfold supplied_items, has_eligible_items.
  induction (dict_keys (items data)) as [| i l IH]; simpl; [tauto |].
  destruct (list_mem s (eligible_suppliers data i)); simpl; [| exact IH].
  split; discriminate.
Qed.

Lemma stock_rows_length (data : Data) (l : list (ItemKey * Item)) :
  length (flat_map (stock_rows data) l) = (2 * length l)%nat.
Proof. induction l as [| it l IH]; simpl; [reflexivity | rewrite IH; lia]. Qed.

Lemma supplier_rows_length (data : Data) :
  length (flat_map (supplier_rows data) (suppliers data)) =
  (2 * length (active_suppliers data))%nat.
Proof.
  unfold active_suppliers. induction (suppliers data) as [| [s sd] l IH]; [reflexivity |].
  simpl flat_map. simpl filter. rewrite length_app, IH. unfold supplier_rows. simpl fst.
  destruct (has_eligible_items data s) eqn:Hs.
  - destruct (supplied_items data s) eqn:Hsup; [| simpl; lia].
    apply supplied_items_nil in Hsup. congruence.
  - apply supplied_items_nil in Hs. rewrite Hs. reflexivity.
Qed.

Lemma lead_time_rows_length (data : Data) :
  length (flat_map (lead_time_rows data) (items data)) = length (eligible_pairs data).
Proof.
  rewrite <- (length_map fst (flat_map (lead_time_rows data) (items data))).
  fold (dict_keys (flat_map (lead_time_rows data) (items data))).
  now rewrite lead_time_names, length_map.
Qed.

Lemma in_supplier_rows (data : Data) (n : ConstraintName) (c : LpConstraint) :
  In (n, c) (flat_map (supplier_rows data) (suppliers data)) ->
  exists s, has_eligible_items data s = true /\ (n = Min_Pallets_ s \/ n = Max_Pallets_ s).
Proof.
  intros Hin. apply in_flat_map in Hin. destruct Hin as ([s sd] & _ & Hin).
  unfold supplier_rows in Hin. simpl in Hin. exists s.
  destruct (has_eligible_items data s) eqn:Hs.
  - split; [reflexivity |]. destruct (supplied_items data s); [contradiction |].
    simpl in Hin. intuition congruence.
  - apply supplied_items_nil in Hs. rewrite Hs in Hin. contradiction.
Qed.

Lemma in_lead_time_rows (data : Data) (n : ConstraintName) (c : LpConstraint) :
  In (n, c) (flat_map (lead_time_rows data) (items data)) ->
  exists i it s, In (i, it) (items data) /\ In s (eligible_suppliers data i) /\
                 n = Lead_Time_Expiry_ i s /\
                 c = lead_time_constraint i it s (supplier_at data s).
Proof.
  intros Hin. apply in_flat_map in Hin. destruct Hin as ([i it] & Hit & Hin).
  unfold lead_time_rows in Hin. apply in_flat_map in Hin. destruct Hin as (s & Hs & Hin).
  simpl in Hin. destruct Hin as [Heq | []]. injection Heq as <- <-.
  exists i, it, s. auto.
Qed.

Lemma in_stock_rows (data : Data) (n : ConstraintName) (c : LpConstraint) :
  In (n, c) (flat_map (stock_rows data) (items data)) ->
  exists i, n = Min_Stock_ i \/ n = Max_Stock_ i.
Proof.
  intros Hin. apply in_flat_map in Hin. destruct Hin as ([i it] & _ & Hin).
  exists i. simpl in Hin. intuition congruence.
Qed.

Lemma has_eligible_items_true (data : Data) (s : SupplierKey) :
  has_eligible_items data s = true <->
  exists i, In i (dict_keys (items data)) /\ In s (eligible_suppliers data i).
Proof.
  unfold has_eligible_items. rewrite existsb_exists.
  split; intros (i & Hi & Hs); exists i; (split; [assumption |]); now apply list_mem_In.
Qed.

Lemma eval_lpSum (rho : Assignment) (ts : list (LpVariable * Q)) :
  eval rho (lpSum ts) == Qsum (map (fun t => rho (var_name (fst t)) * snd t) ts).
Proof.
  unfold eval, lpSum, Qsum. simpl. rewrite Qplus_0_r.
  induction ts as [| t ts IH]; simpl; [reflexivity |]. now rewrite IH.
Qed.

(** * The properties *)

(** C4. For data on which the builder returns, the variable dictionary has
    exactly one entry per eligible (item, supplier) pair and none for any other
    pair; every variable is an integer variable with lower bound 0 and no upper
    bound.  On normalised tables a pair is eligible iff its item is in the item
    table and a price entry exists for the pair. *)
Theorem one_variable_per_eligible_pair (data : Data) (m : LpProblem) (x : VarDict) :
  create_optimization_model data = Ok (m, x) ->
  NoDup (dict_keys x) /\
  (forall i s, In (i, s) (dict_keys x) <-> In (i, s) (eligible_pairs data)) /\
  (forall i s v, dict_get x (i, s) = Some v ->
     var_name v = x_ i s /\ lowBound v = Some 0 /\ upBound v = None /\ cat v = LpInteger) /\
  (forall items_df suppliers_df pricing_df,
     data = prepare_data_for_optimization items_df suppliers_df pricing_df ->
     forall i s, In (i, s) (dict_keys x) <->
                 In i (map row_ItemID items_df) /\ price_entry pricing_df i s).
Proof.
  intros Hc. apply create_optimization_model_Ok in Hc.
  destruct Hc as ((Hnd & Hkeys & Hval & _) & _).
  assert (Hpairs : forall k, In k (dict_keys x) <-> In k (eligible_pairs data))
    by exact Hkeys.
  split; [assumption |]. split; [intros i s; apply Hpairs |]. split.
  - intros i s v Hv. rewrite (Hval i s v Hv). repeat split.
  - intros items_df suppliers_df pricing_df -> i s.
    rewrite (Hpairs (i, s)), in_eligible_pairs, <- prepare_items_keys.
    split; intros [Hi Hs]; (split; [assumption |]);
      now apply (prepare_eligible items_df suppliers_df pricing_df i s Hi).
Qed.

Lemma one_variable_per_eligible_pair_witness :
  NoDup (dict_keys fixture_x) /\
  (In (1, 2)%Z (dict_keys fixture_x) <->
   In 1%Z (map row_ItemID fixture_items_df) /\ price_entry fixture_pricing_df 1 2).
Proof.
  destruct (one_variable_per_eligible_pair fixture_data
              (described_problem fixture_data) fixture_x eq_refl)
    as (Hnd & _ & _ & Hprep).
  split; [exact Hnd |].
  exact (Hprep fixture_items_df fixture_suppliers_df fixture_pricing_df eq_refl 1%Z 2%Z).
Defined.

(** C5. The built problem minimises; its objective is the sum, over the
    eligible pairs in order, of the pair's variable times the pair's cost per
    pallet, with constant 0 and no other term. *)
Theorem objective_is_total_cost (data : Data) (m : LpProblem) (x : VarDict) :
  create_optimization_model data = Ok (m, x) ->
  problem_sense m = LpMinimize /\
  exists obj, objective m = Some (obj, "Total_Cost"%string) /\
    constant obj = 0 /\
    Forall2 (fun k t => dict_get x k = Some (fst t) /\
                        var_name (fst t) = x_ (fst k) (snd k) /\
                        cost_per_pallet data k = Some (snd t))
            (eligible_pairs data) (terms obj) /\
    forall rho, eval rho obj ==
                Qsum (map (fun k => rho (x_ (fst k) (snd k)) * cost_at data k)
                          (eligible_pairs data)).
Proof.
  intros Hc. apply create_optimization_model_Ok in Hc.
  destruct Hc as ((_ & Hkeys & Hval & _) & -> & _ & Hcost & _).
  split; [reflexivity |]. exists (described_objective data).
  split; [reflexivity |]. split; [reflexivity |]. split.
  - unfold described_objective. simpl.
    assert (Hall : forall k, In k (eligible_pairs data) -> In k (eligible_pairs data))
      by auto.
    revert Hall. generalize (eligible_pairs data) at 1 3 4.
    induction l as [| [i s] l IH]; simpl; intros Hall; constructor.
    + simpl. assert (Hin : In (i, s) (eligible_pairs data)) by (apply Hall; now left).
      split; [| split; [reflexivity | now apply cost_at_entry, Hcost]].
      apply Hkeys, dict_key_get in Hin. destruct Hin as (v & Hv).
      now rewrite Hv, (Hval i s v Hv).
    + apply IH. intros k Hk. apply Hall. now right.
  - intros rho. unfold described_objective. rewrite eval_lpSum, map_map. reflexivity.
Qed.

Lemma objective_is_total_cost_witness :
  problem_sense (described_problem fixture_data) = LpMinimize /\
  exists obj, objective (described_problem fixture_data) = Some (obj, "Total_Cost"%string) /\
    constant obj = 0 /\
    Forall2 (fun k t => dict_get fixture_x k = Some (fst t) /\
                        var_name (fst t) = x_ (fst k) (snd k) /\
                        cost_per_pallet fixture_data k = Some (snd t))
            (eligible_pairs fixture_data) (terms obj) /\
    forall rho, eval rho obj ==
                Qsum (map (fun k => rho (x_ (fst k) (snd k)) * cost_at fixture_data k)
                          (eligible_pairs fixture_data)).
Proof.
  exact (objective_is_total_cost fixture_data (described_problem fixture_data)
           fixture_x eq_refl).
Defined.

(** C6. Building is a function of the data; the number of variables is the
    number of eligible pairs, the number of constraints is
    2*|items| + 2*|suppliers with an eligible item| + |eligible pairs|, and a
    supplier without eligible items names no constraint. *)
Theorem problem_size (data : Data) (m : LpProblem) (x : VarDict) :
  create_optimization_model data = Ok (m, x) ->
  (forall m' x', create_optimization_model data = Ok (m', x') -> m' = m /\ x' = x) /\
  length x = length (eligible_pairs data) /\
  length (constraints m) =
    (2 * length (items data) + 2 * length (active_suppliers data)
     + length (eligible_pairs data))%nat /\
  (forall s, has_eligible_items data s = false ->
     forall n c, In (n, c) (constraints m) ->
       n <> Min_Pallets_ s /\ n <> Max_Pallets_ s /\ forall i, n <> Lead_Time_Expiry_ i s).
Proof.
  intros Hc. split; [intros m' x' Hc'; rewrite Hc in Hc'; now injection Hc' as <- <- |].
  split; [exact (create_Ok_variables_length data m x Hc) |].
  apply create_optimization_model_Ok in Hc. destruct Hc as (_ & -> & _). split.
  - simpl. unfold described_constraints.
    rewrite !length_app, stock_rows_length, supplier_rows_length, lead_time_rows_length.
    lia.
  - intros s Hs n c Hin. simpl in Hin. unfold described_constraints in Hin.
    assert (Hno : forall i, In i (dict_keys (items data)) ->
                            ~ In s (eligible_suppliers data i)).
    { intros i Hi Hin'. assert (has_eligible_items data s = true)
        by (apply has_eligible_items_true; eauto). congruence. }
    apply in_app_iff in Hin. destruct Hin as [Hin | Hin];
      [| apply in_app_iff in Hin; destruct Hin as [Hin | Hin]].
    + apply in_stock_rows in Hin. destruct Hin as (i & [-> | ->]);
        repeat split; try discriminate; intros; discriminate.
    + apply in_supplier_rows in Hin. destruct Hin as (s' & Hs' & Hn).
      assert (s' <> s) by congruence.
      destruct Hn as [-> | ->]; repeat split; try congruence; intros; discriminate.
    + apply in_lead_time_rows in Hin. destruct Hin as (i & it & s' & Hit & Hs' & -> & _).
      assert (s' <> s).
      { intros ->. apply (Hno i); [| assumption].
        change i with (fst (i, it)). now apply in_map. }
      repeat split; try discriminate. intros i'. congruence.
Qed.

Lemma problem_size_witness :
  length fixture_x = length (eligible_pairs sparse_data) /\
  length (constraints (described_problem sparse_data)) =
    (2 * length (items sparse_data) + 2 * length (active_suppliers sparse_data)
     + length (eligible_pairs sparse_data))%nat /\
  forall n c, In (n, c) (constraints (described_problem sparse_data)) ->
    n <> Min_Pallets_ 3 /\ n <> Max_Pallets_ 3 /\ forall i, n <> Lead_Time_Expiry_ i 3.
Proof.
  destruct (problem_size sparse_data (described_problem sparse_data) fixture_x eq_refl)
    as (_ & Hx & Hn & Hs).
  split; [exact Hx |]. split; [exact Hn |]. exact (Hs 3%Z eq_refl).
Defined.

Lemma described_constraint_get (data : Data) (n : ConstraintName) (c : LpConstraint) :
  NoDup (dict_keys (described_constraints data)) ->
  In (n, c) (described_constraints data) ->
  dict_get (constraints (described_problem data)) n = Some c.
Proof. intros Hnd Hin. simpl. now apply In_dict_get. Qed.

Lemma eval_stock_lhs_nil (data : Data) (i : ItemKey) (it : Item) (rho : Assignment) :
  eligible_suppliers data i = [] -> eval rho (stock_lhs data i it) == current_stock it.
Proof.
  intros Hel. unfold eval, stock_lhs. rewrite Hel. simpl. lra.
Qed.

Lemma satisfies_lead_time (rho : Assignment) (i : ItemKey) (it : Item)
    (s : SupplierKey) (sd : Supplier) :
  satisfies rho (lead_time_constraint i it s sd) <->
  rho (x_ i s) * inject_Z (units_per_pallet it) + current_stock it
  <= expected_demand it + average_daily_sale it * lead_time sd.
Proof.
  unfold satisfies, lead_time_constraint, eval. simpl.
  set (a := rho (x_ i s) * inject_Z (units_per_pallet it)).
  set (b := average_daily_sale it * lead_time sd).
  split; intros H; lra.
Qed.

(** C1. The built problem has, for every eligible (item, supplier) pair, the
    constraint named after the pair, and an assignment satisfies it iff
    x[i,s]*units_per_pallet + current_stock <= expected_demand +
    average_daily_sale*lead_time.  On normalised tables, for an item with
    average daily sale 0 and positive current stock, no assignment with a
    positive quantity for one of its pairs satisfies the constraint set. *)
Theorem lead_time_expiry_constraint (data : Data) (m : LpProblem) (x : VarDict) :
  create_optimization_model data = Ok (m, x) ->
  (forall i it s, In (i, it) (items data) -> In s (eligible_suppliers data i) ->
     exists sd c,
       dict_get (suppliers data) s = Some sd /\
       dict_get (constraints m) (Lead_Time_Expiry_ i s) = Some c /\
       forall rho, satisfies rho c <->
         rho (x_ i s) * inject_Z (units_per_pallet it) + current_stock it
         <= expected_demand it + average_daily_sale it * lead_time sd) /\
  (forall items_df suppliers_df pricing_df,
     data = prepare_data_for_optimization items_df suppliers_df pricing_df ->
     forall i it s, In (i, it) (items data) -> In s (eligible_suppliers data i) ->
       average_daily_sale it == 0 -> 0 < current_stock it ->
       forall rho, 0 < rho (x_ i s) -> ~ satisfies_all rho m).
Proof.
  intros Hc. apply create_optimization_model_Ok in Hc.
  destruct Hc as (_ & -> & Hnd & _ & Hsup).
  assert (Hrow : forall i it s, In (i, it) (items data) ->
                   In s (eligible_suppliers data i) ->
                   In (Lead_Time_Expiry_ i s,
                       lead_time_constraint i it s (supplier_at data s))
                      (described_constraints data)).
  { intros i it s Hit Hs. unfold described_constraints.
    apply in_app_iff. right. apply in_app_iff. right.
    apply in_flat_map. exists (i, it). split; [assumption |].
    unfold lead_time_rows. apply in_flat_map. exists s. split; [assumption |]. now left. }
  split.
  - intros i it s Hit Hs.
    exists (supplier_at data s), (lead_time_constraint i it s (supplier_at data s)).
    split; [apply supplier_at_entry, (Hsup (i, it) Hit s Hs) |].
    split; [apply described_constraint_get; auto |].
    intros rho. apply satisfies_lead_time.
  - intros items_df suppliers_df pricing_df -> i it s Hit Hs Hads Hcs rho Hpos Hall.
    pose proof (Hall _ _ (Hrow i it s Hit Hs)) as Hsat.
    apply satisfies_lead_time in Hsat.
    apply prepare_item_shape in Hit. destruct Hit as (row & _ & _ & ->).
    unfold item_of_row in *.
    cbn [units_per_pallet current_stock expected_demand average_daily_sale] in *.
    rewrite Hads, !Qmult_0_l in Hsat. unfold inject_Z in Hsat.
    set (v := rho (x_ i s)) in *. lra.
Qed.

Lemma lead_time_expiry_constraint_witness :
  (exists sd c,
     dict_get (suppliers stalled_data) 1%Z = Some sd /\
     dict_get (constraints (described_problem stalled_data)) (Lead_Time_Expiry_ 3 1) = Some c /\
     forall rho, satisfies rho c <->
       rho (x_ 3 1) * inject_Z 24 + 24 <= 0 * 30 + 0 * lead_time sd) /\
  ~ satisfies_all (fun _ => 1) (described_problem stalled_data).
Proof.
  destruct (lead_time_expiry_constraint stalled_data (described_problem stalled_data)
              stalled_x eq_refl) as [Hrow Hnone].
  split.
  - apply (Hrow 3%Z (item_of_row {| row_ItemID := 3; row_Name := "Item C";
                                     row_MinStock := 0; row_MaxStock := 100;
                                     row_Expiry := 30; row_CurrentStock := 24;
                                     row_AverageDailySale := 0 |}) 1%Z).
    + simpl. auto.
    + simpl. auto.
  - apply (Hnone stalled_items_df fixture_suppliers_df stalled_pricing_df eq_refl 3%Z
             (item_of_row {| row_ItemID := 3; row_Name := "Item C";
                              row_MinStock := 0; row_MaxStock := 100;
                              row_Expiry := 30; row_CurrentStock := 24;
                              row_AverageDailySale := 0 |}) 1%Z).
    + simpl. auto.
    + simpl. auto.
    + reflexivity.
    + reflexivity.
    + reflexivity.
Defined.

(** C9, as the code has it.  For an item with no eligible supplier the
    minimum-stock and the maximum-stock constraint have no decision variable,
    and the item has no lead-time constraint.  The minimum-stock constraint
    holds under every assignment iff min_stock <= current_stock, the
    maximum-stock constraint iff current_stock <= max_stock.  When
    current_stock < min_stock or max_stock < current_stock no assignment
    satisfies the built problem; when min_stock <= current_stock <= max_stock
    the item's constraints hold under every assignment, so an assignment
    satisfies the problem iff it satisfies the other constraints. *)
Theorem unsupplied_item_stock_limits (data : Data) (m : LpProblem) (x : VarDict)
    (i : ItemKey) (it : Item) :
  create_optimization_model data = Ok (m, x) ->
  In (i, it) (items data) ->
  eligible_suppliers data i = [] ->
  exists cmin cmax,
    dict_get (constraints m) (Min_Stock_ i) = Some cmin /\
    dict_get (constraints m) (Max_Stock_ i) = Some cmax /\
    terms (lhs cmin) = [] /\ terms (lhs cmax) = [] /\
    (forall s, dict_get (constraints m) (Lead_Time_Expiry_ i s) = None) /\
    (forall rho, satisfies rho cmin <-> min_stock it <= current_stock it) /\
    (forall rho, satisfies rho cmax <-> current_stock it <= max_stock it) /\
    (current_stock it < min_stock it -> forall rho, ~ satisfies_all rho m) /\
    (max_stock it < current_stock it -> forall rho, ~ satisfies_all rho m) /\
    (min_stock it <= current_stock it -> current_stock it <= max_stock it ->
     forall rho,
       satisfies_all rho m <->
       (forall n c, In (n, c) (constraints m) ->
                    n <> Min_Stock_ i -> n <> Max_Stock_ i -> satisfies rho c)).
Proof.
  intros Hc Hit Hel. apply create_optimization_model_Ok in Hc.
  destruct Hc as (_ & -> & Hnd & _).
  assert (Hrows : forall r, In r (stock_rows data (i, it)) ->
                            In r (described_constraints data)).
  { intros r Hr. unfold described_constraints. apply in_app_iff. left.
    apply in_flat_map. exists (i, it). auto. }
  assert (Hmin : forall rho, satisfies rho (min_stock_constraint data i it) <->
                             min_stock it <= current_stock it).
  { intros rho. unfold satisfies. simpl. now rewrite eval_stock_lhs_nil. }
  assert (Hmax : forall rho, satisfies rho (max_stock_constraint data i it) <->
                             current_stock it <= max_stock it).
  { intros rho. unfold satisfies. simpl. now rewrite eval_stock_lhs_nil. }
  assert (Hgmin : dict_get (constraints (described_problem data)) (Min_Stock_ i)
                  = Some (min_stock_constraint data i it)).
  { apply described_constraint_get; [assumption | apply Hrows; simpl; auto]. }
  assert (Hgmax : dict_get (constraints (described_problem data)) (Max_Stock_ i)
                  = Some (max_stock_constraint data i it)).
  { apply described_constraint_get; [assumption | apply Hrows; simpl; auto]. }
  exists (min_stock_constraint data i it), (max_stock_constraint data i it).
  split; [exact Hgmin |]. split; [exact Hgmax |].
  split; [simpl; now rewrite Hel |]. split; [simpl; now rewrite Hel |].
  split; [| split; [exact Hmin | split; [exact Hmax | split; [| split]]]].
  - intros s. apply dict_get_None. intros Hin. apply in_map_iff in Hin.
    destruct Hin as ([n c] & Hn & Hin). simpl in Hn. subst n.
    simpl in Hin. unfold described_constraints in Hin.
    apply in_app_iff in Hin. destruct Hin as [Hin | Hin].
    + apply in_stock_rows in Hin. destruct Hin as (i' & [Hn | Hn]); discriminate.
    + apply in_app_iff in Hin. destruct Hin as [Hin | Hin].
      * apply in_supplier_rows in Hin. destruct Hin as (s' & _ & [Hn | Hn]); discriminate.
      * apply in_lead_time_rows in Hin.
        destruct Hin as (i' & it' & s' & _ & Hs & Hn & _).
        injection Hn as <- <-. rewrite Hel in Hs. contradiction.
  - intros Hlt rho Hall.
    assert (Hsat : satisfies rho (min_stock_constraint data i it)).
    { apply (Hall (Min_Stock_ i)). apply Hrows. simpl. auto. }
    apply Hmin in Hsat. apply (Qlt_irrefl (current_stock it)).
    eapply Qlt_le_trans; eauto.
  - intros Hlt rho Hall.
    assert (Hsat : satisfies rho (max_stock_constraint data i it)).
    { apply (Hall (Max_Stock_ i)). apply Hrows. simpl. auto. }
    apply Hmax in Hsat. apply (Qlt_irrefl (max_stock it)).
    eapply Qlt_le_trans; eauto.
  - intros Hlow Hhigh rho. split.
    + intros Hall n c Hin _ _. exact (Hall n c Hin).
    + intros Hother n c Hin.
      pose proof (described_constraint_get data n c Hnd Hin) as Hg.
      destruct (eq_dec n (Min_Stock_ i)) as [-> | Hn1].
      { rewrite Hgmin in Hg. injection Hg as <-. now apply Hmin. }
      destruct (eq_dec n (Max_Stock_ i)) as [-> | Hn2].
      { rewrite Hgmax in Hg. injection Hg as <-. now apply Hmax. }
      now apply (Hother n c).
Qed.

Lemma unsupplied_item_stock_limits_witness :
  exists cmin cmax,
    dict_get (constraints (described_problem sparse_data)) (Min_Stock_ 4) = Some cmin /\
    dict_get (constraints (described_problem sparse_data)) (Max_Stock_ 4) = Some cmax /\
    terms (lhs cmin) = [] /\ terms (lhs cmax) = [] /\
    (forall s, dict_get (constraints (described_problem sparse_data))
                 (Lead_Time_Expiry_ 4 s) = None) /\
    (forall rho, satisfies rho cmin <-> 10 <= 2) /\
    (forall rho, satisfies rho cmax <-> 2 <= 100) /\
    (forall rho, ~ satisfies_all rho (described_problem sparse_data)).
Proof.
  destruct (unsupplied_item_stock_limits sparse_data (described_problem sparse_data)
              fixture_x
              4%Z (item_of_row {| row_ItemID := 4; row_Name := "Item D";
                                   row_MinStock := 10; row_MaxStock := 100;
                                   row_Expiry := 30; row_CurrentStock := 2;
                                   row_AverageDailySale := 1 |})
              eq_refl)
    as (cmin & cmax & H1 & H2 & H3 & H4 & H5 & H6 & H7 & H8 & _).
  - simpl. auto 6.
  - reflexivity.
  - exists cmin, cmax. repeat (split; [assumption |]). apply H8. reflexivity.
Defined.

(** C9 as stated fails: an item that nobody supplies, with
    current_stock >= min_stock but above its maximum stock (150 > 100), is
    built into the problem, and its maximum-stock constraint holds under no
    assignment. *)
Lemma unsupplied_item_above_max_stock :
  ~ (forall (data : Data) (m : LpProblem) (x : VarDict) (i : ItemKey) (it : Item),
       create_optimization_model data = Ok (m, x) ->
       In (i, it) (items data) ->
       eligible_suppliers data i = [] ->
       min_stock it <= current_stock it ->
       forall n c rho, In (n, c) (constraints m) ->
                       n = Min_Stock_ i \/ n = Max_Stock_ i ->
                       satisfies rho c).
Proof.
  intros H.
  specialize (H surplus_data (described_problem surplus_data) fixture_x 3%Z
                (item_at surplus_data 3) eq_refl).
  assert (Hsat : satisfies (fun _ => 0)
                   (max_stock_constraint surplus_data 3 (item_at surplus_data 3))).
  { apply (H ltac:(simpl; auto) eq_refl ltac:(vm_compute; discriminate)
             (Max_Stock_ 3)).
    - simpl. auto 8.
    - now right. }
  vm_compute in Hsat. now apply Hsat.
Qed.

(** With that item the built problem as a whole is unsatisfiable. *)
Example unsupplied_item_above_max_infeasible :
  create_optimization_model surplus_data = Ok (described_problem surplus_data, fixture_x) /\
  eligible_suppliers surplus_data 3 = [] /\
  forall rho, ~ satisfies_all rho (described_problem surplus_data).
Proof.
  split; [reflexivity |]. split; [reflexivity |].
  intros rho Hall.
  assert (Hsat : satisfies rho (max_stock_constraint surplus_data 3 (item_at surplus_data 3))).
  { apply (Hall (Max_Stock_ 3)). simpl. auto 8. }
  vm_compute in Hsat. now apply Hsat.
Qed.

(** An item without suppliers and with enough stock leaves the problem
    satisfiable: the sparse fixture without its understocked item. *)
Example unsupplied_item_feasible :
  let data := prepare_data_for_optimization
                (removelast sparse_items_df) sparse_suppliers_df fixture_pricing_df in
  eligible_suppliers data 3 = [] /\
  create_optimization_model data = Ok (described_problem data, fixture_x) /\
  satisfies_all (fun n => match n with x_ 1 1 => 1 | x_ 2 2 => 2 | _ => 0 end)
                (described_problem data).
Proof.
  split; [reflexivity |]. split; [reflexivity |].
  intros n c Hin. simpl in Hin.
  repeat (destruct Hin as [Heq | Hin];
          [injection Heq as <- <-; vm_compute; intros Hx; discriminate |]).
  contradiction.
Qed.

(** C10. In the normalised data every item has an entry in
    [available_suppliers] and in [costs], and every supplier listed for the
    item has a cost; when every supplier of the pricing table is in the
    supplier table, the builder returns a problem: no lookup fails. *)
Theorem prepared_lookups_succeed (items_df : list ItemRow) (suppliers_df : list SupplierRow)
    (pricing_df : list PricingRow) :
  let data := prepare_data_for_optimization items_df suppliers_df pricing_df in
  (forall i, In i (dict_keys (items data)) ->
     exists sups ci,
       dict_get (available_suppliers data) i = Some sups /\
       dict_get (costs data) i = Some ci /\
       forall s, In s sups -> exists c, dict_get ci s = Some c) /\
  ((forall row, In row pricing_df ->
      In (prow_SupplierID row) (map srow_SupplierID suppliers_df)) ->
   exists m x, create_optimization_model data = Ok (m, x)).
Proof.
  intros data. split.
  - intros i Hi. eexists. eexists.
    split; [apply (prepare_available_get items_df suppliers_df pricing_df i Hi) |].
    split; [apply (prepare_costs_get items_df suppliers_df pricing_df i Hi) |].
    intros s Hs. rewrite unique_In in Hs. apply dict_key_get. now apply item_costs_keys.
  - intros Hclosed. apply create_optimization_model_total.
    now apply prepare_well_formed.
Qed.

Lemma prepared_lookups_succeed_witness :
  exists m x, create_optimization_model sparse_data = Ok (m, x).
Proof.
  apply (prepared_lookups_succeed sparse_items_df sparse_suppliers_df fixture_pricing_df).
  intros row Hin. simpl in Hin.
  repeat (destruct Hin as [<- | Hin]; [simpl; auto |]). contradiction.
Defined.

(** ** The extracted plan *)

Lemma solve_model_plan (solver : Solver) (m : LpProblem) (x : VarDict) (data : Data)
    (lines : list OrderLine) (total : option Q) :
  snd (solve_model solver m x data) = Ok (Some lines, total) ->
  status (solver m) = LpStatusOptimal /\
  lines = described_plan (solver m) x data /\
  total = objective_value (solver m).
Proof.
  unfold solve_model. simpl.
  destruct (status (solver m)) eqn:Hst; simpl; try discriminate.
  intros Hr. apply bind_Ok in Hr. destruct Hr as (r & Hr & Heq).
  apply extract_results_Ok in Hr. injection Heq as <- <-. auto.
Qed.

Lemma plan_line (sol : Solved) (x : VarDict) (data : Data) (line : OrderLine) :
  In line (described_plan sol x data) ->
  exists k v, In k (eligible_pairs data) /\ solved_value sol x k = Some v /\ 0 < v /\
              line = order_line data k v.
Proof.
  unfold described_plan, line_for. intros Hin. apply in_flat_map in Hin.
  destruct Hin as (k & Hk & Hin). exists k.
  destruct (solved_value sol x k) as [v |]; [| contradiction].
  destruct (ordered (Some v)) eqn:Ho; [| contradiction].
  apply ordered_true in Ho. destruct Ho as (v' & Hv & Hpos). injection Hv as <-.
  destruct Hin as [<- | []]. exists v. auto.
Qed.

Lemma plan_pairs (sol : Solved) (x : VarDict) (data : Data) :
  NoDup (eligible_pairs data) -> NoDup (map line_pair (described_plan sol x data)).
Proof.
  unfold described_plan. intros Hnd.
  assert (Hmap : forall l, map line_pair (flat_map (line_for sol x data) l) =
                           flat_map (fun k => map line_pair (line_for sol x data k)) l).
  { induction l as [| k l IH]; simpl; [reflexivity |]. now rewrite map_app, IH. }
  rewrite Hmap.
  assert (Hk : forall k c, In c (map line_pair (line_for sol x data k)) -> c = k).
  { intros [i s] c. unfold line_for.
    destruct (solved_value sol x (i, s)) as [v |]; [| contradiction].
    destruct (ordered (Some v)); [| contradiction].
    simpl. intros [<- | []]. reflexivity. }
  apply NoDup_flat_map; [assumption | |].
  - intros [i s] _. unfold line_for.
    destruct (solved_value sol x (i, s)) as [v |]; [| constructor].
    destruct (ordered (Some v)); repeat constructor. intros [].
  - intros a b c _ _ Ha Hb. apply Hk in Ha, Hb. congruence.
Qed.

(** C2, as the code has it.  Every emitted line has a solved value v > 0 and
    its PalletsOrdered is v truncated: the floor of v, so
    PalletsOrdered <= v < PalletsOrdered + 1; it is v itself when v is whole. *)
Theorem pallets_ordered_truncated (solver : Solver) (m : LpProblem) (x : VarDict)
    (data : Data) (lines : list OrderLine) (total : option Q) (line : OrderLine) :
  snd (solve_model solver m x data) = Ok (Some lines, total) ->
  In line lines ->
  exists v, solved_value (solver m) x (line_pair line) = Some v /\ 0 < v /\
            PalletsOrdered line = Qfloor v /\
            inject_Z (PalletsOrdered line) <= v < inject_Z (PalletsOrdered line + 1) /\
            forall n, v == inject_Z n -> PalletsOrdered line = n.
Proof.
  intros Hr Hin. apply solve_model_plan in Hr. destruct Hr as (_ & -> & _).
  apply plan_line in Hin. destruct Hin as ([i s] & v & _ & Hv & Hpos & ->).
  exists v. simpl. split; [assumption |]. split; [assumption |].
  split; [apply int_floor; now apply Qlt_le_weak |].
  split; [now apply int_bounds |]. intros n Hn. now apply int_whole.
Qed.

Lemma pallets_ordered_truncated_witness :
  exists v, solved_value (near_integer_solver (described_problem fixture_data)) fixture_x
              (2, 2)%Z = Some v /\ 0 < v /\
            1%Z = Qfloor v /\
            inject_Z 1 <= v < inject_Z (1 + 1) /\
            forall n, v == inject_Z n -> 1%Z = n.
Proof.
  apply (pallets_ordered_truncated near_integer_solver (described_problem fixture_data)
           fixture_x fixture_data
           (described_plan (near_integer_solver (described_problem fixture_data))
                           fixture_x fixture_data)
           (Some 310)
           (order_line fixture_data (2, 2)%Z (2147483647 # 1073741824))).
  - reflexivity.
  - right. left. reflexivity.
Defined.

(** C2 as stated fails: the solved value 2 - 2^-30 rounds to 2 and is emitted
    as 1. *)
Lemma pallets_ordered_not_rounded :
  ~ (forall (solver : Solver) (m : LpProblem) (x : VarDict) (data : Data)
            (lines : list OrderLine) (total : option Q) (line : OrderLine) (v : Q),
       snd (solve_model solver m x data) = Ok (Some lines, total) ->
       In line lines ->
       solved_value (solver m) x (line_pair line) = Some v ->
       0 < v ->
       PalletsOrdered line = round_nearest v).
Proof.
  intros H.
  specialize (H near_integer_solver (described_problem fixture_data) fixture_x fixture_data
                (described_plan (near_integer_solver (described_problem fixture_data))
                                fixture_x fixture_data)
                (Some 310)
                (order_line fixture_data (2, 2)%Z (2147483647 # 1073741824))
                (2147483647 # 1073741824)
                eq_refl (or_intror (or_introl eq_refl)) eq_refl eq_refl).
  vm_compute in H. discriminate H.
Qed.

(** C3, as the code has it.  After a successful build, the lines of an
    extracted plan have pairwise distinct (item, supplier) pairs; every line's
    pair is eligible and priced (on normalised tables: it has a price entry);
    its solved value v is positive, its PalletsOrdered is never negative, and
    PalletsOrdered is positive whenever v >= 1, in particular whenever v is a
    whole number. *)
Theorem plan_lines_eligible_distinct (data : Data) (m : LpProblem) (x : VarDict)
    (solver : Solver) (lines : list OrderLine) (total : option Q) :
  create_optimization_model data = Ok (m, x) ->
  snd (solve_model solver m x data) = Ok (Some lines, total) ->
  NoDup (map line_pair lines) /\
  (forall line, In line lines ->
     In (line_pair line) (eligible_pairs data) /\
     cost_per_pallet data (line_pair line) = Some (CostPerPallet line) /\
     exists v, solved_value (solver m) x (line_pair line) = Some v /\ 0 < v /\
               (0 <= PalletsOrdered line)%Z /\
               (1 <= v -> (0 < PalletsOrdered line)%Z) /\
               (forall n, v == inject_Z n -> (0 < PalletsOrdered line)%Z)) /\
  (forall items_df suppliers_df pricing_df,
     data = prepare_data_for_optimization items_df suppliers_df pricing_df ->
     forall line, In line lines ->
       price_entry pricing_df (ItemID line) (SupplierID line)).
Proof.
  intros Hc Hr. apply solve_model_plan in Hr. destruct Hr as (_ & -> & _).
  destruct (create_Ok_NoDup_pairs data m x Hc) as [_ Hnd].
  apply create_optimization_model_Ok in Hc. destruct Hc as (_ & _ & _ & Hcost & _).
  split; [now apply plan_pairs |]. split.
  - intros line Hin. apply plan_line in Hin.
    destruct Hin as ([i s] & v & Hk & Hv & Hpos & ->). simpl.
    split; [assumption |]. split; [now apply cost_at_entry, Hcost |].
    exists v. split; [assumption |]. split; [assumption |].
    split; [now apply int_nonneg |]. split; [now apply int_positive |].
    intros n Hn. rewrite (int_whole v n Hn). rewrite Hn in Hpos.
    change 0 with (inject_Z 0) in Hpos. now rewrite <- Zlt_Qlt in Hpos.
  - intros items_df suppliers_df pricing_df -> line Hin. apply plan_line in Hin.
    destruct Hin as ([i s] & v & Hk & _ & _ & ->). simpl.
    apply in_eligible_pairs in Hk. destruct Hk as [Hi Hs].
    now apply (prepare_eligible items_df suppliers_df pricing_df i s Hi).
Qed.

Lemma plan_lines_eligible_distinct_witness :
  NoDup (map line_pair
           (described_plan (fixture_solver (described_problem fixture_data))
                           fixture_x fixture_data)) /\
  (0 < PalletsOrdered (order_line fixture_data (2, 2)%Z 2))%Z /\
  price_entry fixture_pricing_df 2 2.
Proof.
  destruct (plan_lines_eligible_distinct fixture_data (described_problem fixture_data)
              fixture_x fixture_solver
              (described_plan (fixture_solver (described_problem fixture_data))
                              fixture_x fixture_data)
              (Some 310) eq_refl eq_refl) as (Hnd & Hline & Hprice).
  assert (Hin : In (order_line fixture_data (2, 2)%Z 2)
                   (described_plan (fixture_solver (described_problem fixture_data))
                                   fixture_x fixture_data))
    by (right; left; reflexivity).
  split; [exact Hnd |]. split.
  - destruct (Hline _ Hin) as (_ & _ & v & Hv & _ & _ & Hge & _).
    apply Hge. vm_compute in Hv. injection Hv as <-. discriminate.
  - exact (Hprice fixture_items_df fixture_suppliers_df fixture_pricing_df eq_refl _ Hin).
Defined.

(** C3 as stated fails: a positive solved value below 1 (here 2^-30) passes
    the filter and is emitted with PalletsOrdered = 0. *)
Lemma zero_pallet_line_emitted :
  ~ (forall (data : Data) (m : LpProblem) (x : VarDict) (solver : Solver)
            (lines : list OrderLine) (total : option Q) (line : OrderLine),
       create_optimization_model data = Ok (m, x) ->
       snd (solve_model solver m x data) = Ok (Some lines, total) ->
       In line lines ->
       (0 < PalletsOrdered line)%Z).
Proof.
  intros H.
  specialize (H fixture_data (described_problem fixture_data) fixture_x artifact_solver
                (described_plan (artifact_solver (described_problem fixture_data))
                                fixture_x fixture_data)
                (Some 310)
                (order_line fixture_data (1, 2)%Z (1 # 1073741824))
                eq_refl eq_refl (or_intror (or_introl eq_refl))).
  vm_compute in H. discriminate H.
Qed.

(** C8, as the code has it.  Every emitted line has
    UnitsOrdered = int(v * units_per_pallet) and TotalCost = v * CostPerPallet
    for its solved value v; when v is a whole number these are
    PalletsOrdered * units_per_pallet and PalletsOrdered * CostPerPallet. *)
Theorem line_amounts (data : Data) (m : LpProblem) (x : VarDict) (solver : Solver)
    (lines : list OrderLine) (total : option Q) (line : OrderLine) :
  create_optimization_model data = Ok (m, x) ->
  snd (solve_model solver m x data) = Ok (Some lines, total) ->
  In line lines ->
  exists v it,
    solved_value (solver m) x (line_pair line) = Some v /\
    dict_get (items data) (ItemID line) = Some it /\
    PalletsOrdered line = int v /\
    UnitsOrdered line = int (v * inject_Z (units_per_pallet it)) /\
    TotalCost line = v * CostPerPallet line /\
    forall n, v == inject_Z n ->
      UnitsOrdered line = (PalletsOrdered line * units_per_pallet it)%Z /\
      TotalCost line == inject_Z (PalletsOrdered line) * CostPerPallet line.
Proof.
  intros Hc Hr Hin. apply solve_model_plan in Hr. destruct Hr as (_ & -> & _).
  apply plan_line in Hin. destruct Hin as ([i s] & v & Hk & Hv & Hpos & ->).
  apply in_eligible_pairs in Hk. destruct Hk as [Hi _].
  destruct (dict_key_get (items data) i Hi) as (it & Hit).
  exists v, it. unfold order_line, item_at. simpl. rewrite Hit.
  repeat (split; [first [assumption | reflexivity] |]).
  intros n Hn. rewrite (int_whole v n Hn). split.
  - apply int_whole. rewrite Hn. unfold Qeq. simpl. lia.
  - now rewrite Hn.
Qed.

Lemma line_amounts_witness :
  exists v it,
    solved_value (fixture_solver (described_problem fixture_data)) fixture_x (2, 2)%Z
      = Some v /\
    dict_get (items fixture_data) 2%Z = Some it /\
    2%Z = int v /\
    48%Z = int (v * inject_Z (units_per_pallet it)) /\
    2 * 105 = v * 105 /\
    forall n, v == inject_Z n ->
      48%Z = (2 * units_per_pallet it)%Z /\ 2 * 105 == inject_Z 2 * 105.
Proof.
  apply (line_amounts fixture_data (described_problem fixture_data) fixture_x fixture_solver
           (described_plan (fixture_solver (described_problem fixture_data))
                           fixture_x fixture_data)
           (Some 310) (order_line fixture_data (2, 2)%Z 2)).
  - reflexivity.
  - reflexivity.
  - right. left. reflexivity.
Defined.

(** C8 as stated fails: for the solved value 2 - 2^-30 the line has
    PalletsOrdered 1, UnitsOrdered 47 (not 24) and TotalCost just below 210
    (not 105). *)
Lemma near_integer_line_amounts :
  ~ (forall (data : Data) (m : LpProblem) (x : VarDict) (solver : Solver)
            (lines : list OrderLine) (total : option Q) (line : OrderLine) (it : Item),
       create_optimization_model data = Ok (m, x) ->
       snd (solve_model solver m x data) = Ok (Some lines, total) ->
       In line lines ->
       dict_get (items data) (ItemID line) = Some it ->
       UnitsOrdered line = (PalletsOrdered line * units_per_pallet it)%Z /\
       TotalCost line == inject_Z (PalletsOrdered line) * CostPerPallet line).
Proof.
  intros H.
  specialize (H fixture_data (described_problem fixture_data) fixture_x near_integer_solver
                (described_plan (near_integer_solver (described_problem fixture_data))
                                fixture_x fixture_data)
                (Some 310)
                (order_line fixture_data (2, 2)%Z (2147483647 # 1073741824))
                (item_at fixture_data 2)
                eq_refl eq_refl (or_intror (or_introl eq_refl)) eq_refl).
  destruct H as [Hunits _]. vm_compute in Hunits. discriminate Hunits.
Qed.

(** C7. The solver is run exactly once.  When its status is not Optimal the
    result is (None, None); when it is Optimal, after a successful build, the
    result is a plan together with the objective value the solved model
    reports; and whenever a plan is returned the total is that value. *)
Theorem solve_model_status (solver : Solver) (m : LpProblem) (x : VarDict) (data : Data) :
  fst (solve_model solver m x data) = [m] /\
  (status (solver m) <> LpStatusOptimal ->
   snd (solve_model solver m x data) = Ok (None, None)) /\
  (status (solver m) = LpStatusOptimal ->
   create_optimization_model data = Ok (m, x) ->
   exists lines,
     snd (solve_model solver m x data) = Ok (Some lines, objective_value (solver m))) /\
  (forall lines total,
     snd (solve_model solver m x data) = Ok (Some lines, total) ->
     status (solver m) = LpStatusOptimal /\ total = objective_value (solver m)).
Proof.
  split; [reflexivity |]. split; [| split].
  - unfold solve_model. simpl. destruct (status (solver m)); simpl; congruence.
  - intros Hst Hc. unfold solve_model. simpl. rewrite Hst. simpl.
    rewrite (extract_results_total (solver m) data m x Hc). simpl. eauto.
  - intros lines total Hr. apply solve_model_plan in Hr. tauto.
Qed.

Lemma solve_model_status_witness :
  (snd (solve_model (failed_solver LpStatusInfeasible) (described_problem fixture_data)
          fixture_x fixture_data) = Ok (None, None) /\
   snd (solve_model (failed_solver LpStatusUnbounded) (described_problem fixture_data)
          fixture_x fixture_data) = Ok (None, None)) /\
  (exists lines,
     snd (solve_model fixture_solver (described_problem fixture_data) fixture_x fixture_data)
     = Ok (Some lines, Some 310)) /\
  (LpStatusOptimal = LpStatusOptimal /\ Some 310 = Some 310).
Proof.
  split; [split |]; [| | split].
  - apply (solve_model_status (failed_solver LpStatusInfeasible)
             (described_problem fixture_data) fixture_x fixture_data).
    discriminate.
  - apply (solve_model_status (failed_solver LpStatusUnbounded)
             (described_problem fixture_data) fixture_x fixture_data).
    discriminate.
  - apply (solve_model_status fixture_solver (described_problem fixture_data)
             fixture_x fixture_data); reflexivity.
  - apply (solve_model_status fixture_solver (described_problem fixture_data)
             fixture_x fixture_data)
      with (lines := described_plan (fixture_solver (described_problem fixture_data))
                                    fixture_x fixture_data).
    reflexivity.
Defined.

(** The returned total is the objective value of the solved model, not the sum
    of the lines: with a negative artifact (-2^-30) on a variable, the model's
    objective value counts it and the lines do not. *)
Example total_cost_not_recomputed :
  let r := snd (solve_model negative_artifact_solver (described_problem fixture_data)
                  fixture_x fixture_data) in
  exists lines,
    r = Ok (Some lines, Some (332859965330 # 1073741824)) /\
    Qsum (map TotalCost lines) == 310 /\
    (332859965330 # 1073741824) < 310.
Proof.
  eexists. split; [reflexivity |]. split; vm_compute; reflexivity.
Qed.

(** * Further properties of the normalisation *)

Lemma filter_all {A : Type} (p : A -> bool) (l : list A) :
  (forall a, In a l -> p a = true) -> filter p l = l.
Proof.
  induction l as [| a l IH]; simpl; intros Hp; [reflexivity |].
  rewrite Hp by now left. f_equal. apply IH. auto.
Qed.

Lemma filter_filter_ext {A : Type} (p q r : A -> bool) (l : list A) :
  (forall a, In a l -> r a = q a && p a) -> filter p (filter q l) = filter r l.
Proof.
  induction l as [| a l IH]; simpl; intros Hr; [reflexivity |].
  rewrite (Hr a) by now left.
  destruct (q a); simpl; [destruct (p a) |]; rewrite IH by auto; reflexivity.
Qed.

Lemma unique_NoDup_id {A : Type} `{EqDec A} (l : list A) : NoDup l -> unique l = l.
Proof.
  induction 1 as [| a l Hnin Hnd IH]; simpl; [reflexivity |].
  rewrite IH. f_equal. apply filter_all.
  intros b Hb. destruct (eq_dec b a); [congruence | reflexivity].
Qed.

Lemma unique_length {A : Type} `{EqDec A} (l : list A) :
  length (unique l) = length l <-> NoDup l.
Proof.
  split.
  - intros Hlen. apply NoDup_incl_NoDup with (l := unique l).
    + apply unique_NoDup.
    + rewrite Hlen. apply Nat.le_refl.
    + intros a Ha. now apply unique_In.
  - intros Hnd. now rewrite unique_NoDup_id.
Qed.

Section DictKeys.
Context {K V A : Type} `{EqDec K}.
Variables (key : A -> K) (val : A -> V).

Lemma dict_keys_set_present (d : dict K V) (k : K) (v : V) :
  In k (dict_keys d) -> dict_keys (dict_set d k v) = dict_keys d.
Proof.
  unfold dict_keys. induction d as [| [k0 v0] d IH]; simpl; [contradiction |].
  intros Hin. destruct (eq_dec k k0) as [-> | Hne]; simpl; [reflexivity |].
  f_equal. apply IH. destruct Hin; congruence.
Qed.

Lemma dict_keys_set_fresh (d : dict K V) (k : K) (v : V) :
  ~ In k (dict_keys d) -> dict_keys (dict_set d k v) = dict_keys d ++ [k].
Proof.
  unfold dict_keys. induction d as [| [k0 v0] d IH]; simpl; [reflexivity |].
  intros Hn. destruct (eq_dec k k0) as [-> | Hne]; simpl; [tauto |].
  f_equal. apply IH. tauto.
Qed.

(** The keys of a dictionary filled key by key: the keys it had, then the new
    ones in order of first appearance. *)
Lemma fold_set_keys_order (l : list A) (d : dict K V) :
  dict_keys (fold_left (fun d a => dict_set d (key a) (val a)) l d) =
  dict_keys d ++ filter (fun k => negb (list_mem k (dict_keys d))) (unique (map key l)).
Proof.
  revert d. induction l as [| a l IH]; intros d; simpl.
  - now rewrite app_nil_r.
  - rewrite IH. destruct (list_mem (key a) (dict_keys d)) eqn:Hm; simpl.
    + apply list_mem_In in Hm. rewrite (dict_keys_set_present d (key a) (val a) Hm).
      f_equal. symmetry. apply filter_filter_ext. intros b _.
      destruct (eq_dec b (key a)) as [-> | Hne]; [| reflexivity].
      apply list_mem_In in Hm. now rewrite Hm.
    + assert (Hn : ~ In (key a) (dict_keys d))
        by (intros Hin; apply list_mem_In in Hin; congruence).
      rewrite (dict_keys_set_fresh d (key a) (val a) Hn), <- app_assoc. simpl.
      f_equal. f_equal. symmetry. apply filter_filter_ext. intros b _.
      destruct (eq_dec b (key a)) as [-> | Hne]; simpl.
      * assert (Hb : list_mem (key a) (dict_keys d ++ [key a]) = true)
          by (apply list_mem_In, in_app_iff; right; now left).
        now rewrite Hb.
      * destruct (list_mem b (dict_keys d)) eqn:Hb.
        -- assert (Hb' : list_mem b (dict_keys d ++ [key a]) = true).
           { apply list_mem_In, in_app_iff. left. now apply list_mem_In. }
           now rewrite Hb'.
        -- destruct (list_mem b (dict_keys d ++ [key a])) eqn:Hb'; [| reflexivity].
           apply list_mem_In, in_app_iff in Hb'. destruct Hb' as [Hb' | [Hb' | []]].
           ++ apply list_mem_In in Hb'. congruence.
           ++ congruence.
Qed.

Lemma fold_set_keys_unique (l : list A) :
  dict_keys (fold_left (fun d a => dict_set d (key a) (val a)) l []) = unique (map key l).
Proof. rewrite fold_set_keys_order. simpl. now apply filter_all. Qed.

(** The last element with a given key decides the stored value. *)
Lemma fold_set_last (pre post : list A) (a : A) (d : dict K V) :
  (forall b, In b post -> key b <> key a) ->
  dict_get (fold_left (fun d a => dict_set d (key a) (val a)) (pre ++ a :: post) d) (key a)
  = Some (val a).
Proof.
  intros Hpost. rewrite fold_left_app. simpl.
  rewrite fold_set_untouched.
  - apply dict_get_set_eq.
  - intros Hin. apply in_map_iff in Hin. destruct Hin as (b & Hb & Hin).
    now apply (Hpost b).
Qed.
End DictKeys.

Section PrepareKeys.
Variables (items_df : list ItemRow) (suppliers_df : list SupplierRow)
          (pricing_df : list PricingRow).

Let D := prepare_data_for_optimization items_df suppliers_df pricing_df.

Lemma prepare_items_order : dict_keys (items D) = unique (map row_ItemID items_df).
Proof. unfold D. rewrite prepare_items. apply fold_set_keys_unique. Qed.

Lemma prepare_suppliers_order :
  dict_keys (suppliers D) = unique (map srow_SupplierID suppliers_df).
Proof. unfold D. rewrite prepare_suppliers. apply fold_set_keys_unique. Qed.

Lemma prepare_available_order : dict_keys (available_suppliers D) = dict_keys (items D).
Proof.
  unfold D, prepare_data_for_optimization. cbn [available_suppliers items].
  rewrite prepare_available. cbn [fst].
  rewrite (fold_set_keys_unique (fun i : ItemKey => i)
             (fun i => unique (map prow_SupplierID (item_pricing pricing_df i)))).
  rewrite map_id. apply unique_NoDup_id.
  apply (prepare_items_NoDup items_df suppliers_df pricing_df).
Qed.

Lemma prepare_costs_order : dict_keys (costs D) = dict_keys (items D).
Proof.
  unfold D, prepare_data_for_optimization. cbn [costs items].
  rewrite prepare_costs. cbn [snd].
  rewrite (fold_set_keys_unique (fun i : ItemKey => i)
             (fun i => item_costs (item_pricing pricing_df i))).
  rewrite map_id. apply unique_NoDup_id.
  apply (prepare_items_NoDup items_df suppliers_df pricing_df).
Qed.

Lemma item_pricing_app (l1 l2 : list PricingRow) (i : ItemKey) :
  item_pricing (l1 ++ l2) i = item_pricing l1 i ++ item_pricing l2 i.
Proof. apply filter_app. Qed.

End PrepareKeys.

(** X1. [data['items']] has one entry per distinct ItemID, in order of first
    appearance; so it has as many entries as the item table has rows exactly
    when the ItemIDs are distinct. *)
Theorem items_one_entry_per_id (items_df : list ItemRow) (suppliers_df : list SupplierRow)
    (pricing_df : list PricingRow) :
  let data := prepare_data_for_optimization items_df suppliers_df pricing_df in
  dict_keys (items data) = unique (map row_ItemID items_df) /\
  (length (items data) = length items_df <-> NoDup (map row_ItemID items_df)).
Proof.
  intros data. split; [apply prepare_items_order |].
  rewrite <- (length_map fst (items data)). fold (dict_keys (items data)).
  unfold data. rewrite prepare_items_order, <- (length_map row_ItemID items_df).
  apply unique_length.
Qed.

(** X2. When an ItemID occurs in several rows of the item table, the entry of
    [data['items']] holds the values of the last such row, with
    expected_demand = AverageDailySale * Expiry and units_per_pallet = 24. *)
Theorem item_last_row_wins (items_df : list ItemRow) (suppliers_df : list SupplierRow)
    (pricing_df : list PricingRow) (pre post : list ItemRow) (row : ItemRow) :
  items_df = pre ++ row :: post ->
  (forall r, In r post -> row_ItemID r <> row_ItemID row) ->
  exists it,
    dict_get (items (prepare_data_for_optimization items_df suppliers_df pricing_df))
             (row_ItemID row) = Some it /\
    name it = row_Name row /\
    current_stock it = row_CurrentStock row /\
    min_stock it = row_MinStock row /\
    max_stock it = row_MaxStock row /\
    expiry_days it = row_Expiry row /\
    average_daily_sale it = row_AverageDailySale row /\
    expected_demand it = row_AverageDailySale row * row_Expiry row /\
    units_per_pallet it = 24%Z.
Proof.
  intros -> Hpost. exists (item_of_row row). split.
  - rewrite prepare_items. now apply (fold_set_last row_ItemID item_of_row).
  - repeat split.
Qed.

Lemma item_last_row_wins_witness :
  exists it,
    dict_get (items (prepare_data_for_optimization relisted_items_df fixture_suppliers_df
                       fixture_pricing_df)) 1%Z = Some it /\
    name it = "Item A (relisted)"%string /\
    current_stock it = 7 /\
    min_stock it = 12 /\
    max_stock it = 90 /\
    expiry_days it = 30 /\
    average_daily_sale it = 3 /\
    expected_demand it = 3 * 30 /\
    units_per_pallet it = 24%Z.
Proof.
  apply (item_last_row_wins relisted_items_df fixture_suppliers_df fixture_pricing_df
           fixture_items_df [] relisted_item_row).
  - reflexivity.
  - intros r [].
Defined.

(** X3. [data['suppliers']] has one entry per distinct SupplierID, in order of
    first appearance, holding the values of the last row with that SupplierID. *)
Theorem supplier_entries (items_df : list ItemRow) (suppliers_df : list SupplierRow)
    (pricing_df : list PricingRow) :
  let data := prepare_data_for_optimization items_df suppliers_df pricing_df in
  dict_keys (suppliers data) = unique (map srow_SupplierID suppliers_df) /\
  (forall pre row post,
     suppliers_df = pre ++ row :: post ->
     (forall r, In r post -> srow_SupplierID r <> srow_SupplierID row) ->
     dict_get (suppliers data) (srow_SupplierID row) =
     Some {| supplier_name := srow_Name row;
             min_pallets := srow_MinPallets row;
             max_pallets := srow_MaxPallets row;
             lead_time := srow_LeadTime row |}).
Proof.
  intros data. split; [apply prepare_suppliers_order |].
  intros pre row post Hdf Hpost. unfold data. rewrite prepare_suppliers, Hdf.
  now apply (fold_set_last srow_SupplierID supplier_of_row).
Qed.

Lemma supplier_entries_witness :
  dict_get (suppliers (prepare_data_for_optimization fixture_items_df renamed_suppliers_df
                         fixture_pricing_df)) 1%Z =
  Some {| supplier_name := "Supplier A (new terms)"; min_pallets := 3;
          max_pallets := 40; lead_time := 2 |}.
Proof.
  apply (supplier_entries fixture_items_df renamed_suppliers_df fixture_pricing_df)
    with (pre := fixture_suppliers_df) (row := renamed_supplier_row) (post := []).
  - reflexivity.
  - intros r [].
Defined.

(** X4. A cost entry [data['costs'][i][s]] exists only for an item of the item
    table and comes from a pricing row of the pair; it is the cost of the last
    pricing row of the pair; a pricing row whose item is not in the item table
    leaves no cost entry. *)
Theorem cost_entries (items_df : list ItemRow) (suppliers_df : list SupplierRow)
    (pricing_df : list PricingRow) :
  let data := prepare_data_for_optimization items_df suppliers_df pricing_df in
  (forall i s c, cost_per_pallet data (i, s) = Some c ->
     In i (map row_ItemID items_df) /\
     exists row, In row pricing_df /\ prow_ItemID row = i /\ prow_SupplierID row = s /\
                 prow_CostPerPallet row = c) /\
  (forall pre row post,
     pricing_df = pre ++ row :: post ->
     (forall r, In r post ->
        ~ (prow_ItemID r = prow_ItemID row /\ prow_SupplierID r = prow_SupplierID row)) ->
     In (prow_ItemID row) (map row_ItemID items_df) ->
     cost_per_pallet data (prow_ItemID row, prow_SupplierID row)
     = Some (prow_CostPerPallet row)) /\
  (forall i s, ~ In i (map row_ItemID items_df) -> cost_per_pallet data (i, s) = None).
Proof.
  intros data. split; [| split].
  - intros i s c Hc.
    assert (Hne : cost_per_pallet data (i, s) <> None) by congruence.
    apply prepare_cost_entry in Hne. destruct Hne as [Hi _].
    split; [now apply prepare_items_keys in Hi |].
    unfold cost_per_pallet in Hc. cbn [fst snd] in Hc. unfold data in Hc.
    rewrite (prepare_costs_get items_df suppliers_df pricing_df i Hi) in Hc.
    unfold item_costs in Hc. apply fold_set_get in Hc.
    destruct Hc as [Hc | (row & Hrow & Hs & Hcost)]; [discriminate |].
    apply filter_In in Hrow. destruct Hrow as [Hrow Hi'].
    apply Z.eqb_eq in Hi'. exists row. auto.
  - intros pre row post Hdf Hpost Hi.
    apply prepare_items_keys with (suppliers_df := suppliers_df) (pricing_df := pricing_df) in Hi.
    unfold cost_per_pallet. cbn [fst snd]. unfold data.
    rewrite (prepare_costs_get items_df suppliers_df pricing_df _ Hi), Hdf.
    rewrite item_pricing_app. unfold item_pricing at 2. simpl.
    rewrite Z.eqb_refl. unfold item_costs.
    apply (fold_set_last prow_SupplierID prow_CostPerPallet).
    intros r Hr Heq. apply filter_In in Hr. destruct Hr as [Hr Hri].
    apply Z.eqb_eq in Hri. now apply (Hpost r Hr).
  - intros i s Hi. unfold cost_per_pallet. cbn [fst snd].
    destruct (dict_get (costs data) i) as [ci |] eqn:Hci; [| reflexivity].
    exfalso. apply Hi. apply dict_get_Some_key in Hci. unfold data in Hci.
    rewrite prepare_costs_order in Hci. now apply prepare_items_keys in Hci.
Qed.

Lemma cost_entries_witness :
  cost_per_pallet (prepare_data_for_optimization fixture_items_df fixture_suppliers_df
                     repriced_pricing_df) (1, 1)%Z = Some 95 /\
  cost_per_pallet (prepare_data_for_optimization fixture_items_df fixture_suppliers_df
                     repriced_pricing_df) (7, 1)%Z = None.
Proof.
  destruct (cost_entries fixture_items_df fixture_suppliers_df repriced_pricing_df)
    as (_ & Hlast & Hnone).
  split.
  - apply (Hlast fixture_pricing_df repriced_row []).
    + reflexivity.
    + intros r [].
    + simpl. auto.
  - apply Hnone. simpl. intros [H | [H | []]]; discriminate H.
Defined.

(** X5. For an item of the item table, [data['available_suppliers'][item]] is
    what loader.py's [get_available_suppliers_for_item] returns: each supplier
    with a price entry for the item, once; an item outside the table has no
    entry. *)
Theorem available_suppliers_from_pricing (items_df : list ItemRow)
    (suppliers_df : list SupplierRow) (pricing_df : list PricingRow) (i : ItemKey) :
  let data := prepare_data_for_optimization items_df suppliers_df pricing_df in
  (In i (map row_ItemID items_df) ->
   dict_get (available_suppliers data) i
   = Some (get_available_suppliers_for_item pricing_df i)) /\
  (~ In i (map row_ItemID items_df) -> dict_get (available_suppliers data) i = None) /\
  NoDup (get_available_suppliers_for_item pricing_df i) /\
  (forall s, In s (get_available_suppliers_for_item pricing_df i) <->
             price_entry pricing_df i s).
Proof.
  intros data. split; [| split; [| split]].
  - intros Hi. apply prepare_available_get. now apply prepare_items_keys.
  - intros Hi. apply dict_get_None. unfold data. rewrite prepare_available_order.
    intros Hin. apply Hi. now apply prepare_items_keys in Hin.
  - apply unique_NoDup.
  - intros s. unfold get_available_suppliers_for_item. rewrite unique_In.
    apply item_pricing_suppliers.
Qed.

Lemma available_suppliers_from_pricing_witness :
  dict_get (available_suppliers sparse_data) 3%Z
  = Some (get_available_suppliers_for_item fixture_pricing_df 3) /\
  dict_get (available_suppliers sparse_data) 9%Z = None.
Proof.
  destruct (available_suppliers_from_pricing sparse_items_df sparse_suppliers_df
              fixture_pricing_df 3) as (Hin & _).
  destruct (available_suppliers_from_pricing sparse_items_df sparse_suppliers_df
              fixture_pricing_df 9) as (_ & Hout & _).
  split.
  - apply Hin. simpl. auto.
  - apply Hout. simpl. intros [H | [H | [H | [H | []]]]]; discriminate H.
Defined.

(** X6. The three item-keyed dictionaries of the normalised data have the same
    keys in the same order, and [data['costs'][i]] has exactly the keys listed
    in [data['available_suppliers'][i]], in the same order. *)
Theorem costs_keys_are_available_suppliers (items_df : list ItemRow)
    (suppliers_df : list SupplierRow) (pricing_df : list PricingRow) :
  let data := prepare_data_for_optimization items_df suppliers_df pricing_df in
  dict_keys (available_suppliers data) = dict_keys (items data) /\
  dict_keys (costs data) = dict_keys (items data) /\
  (forall i sups, dict_get (available_suppliers data) i = Some sups ->
     exists ci, dict_get (costs data) i = Some ci /\ dict_keys ci = sups).
Proof.
  intros data. split; [apply prepare_available_order |].
  split; [apply prepare_costs_order |].
  intros i sups Hg.
  assert (Hi : In i (dict_keys (items data))).
  { apply dict_get_Some_key in Hg. unfold data in *.
    now rewrite prepare_available_order in Hg. }
  unfold data in *.
  rewrite (prepare_available_get items_df suppliers_df pricing_df i Hi) in Hg.
  injection Hg as <-. eexists. split; [apply prepare_costs_get, Hi |].
  unfold item_costs. apply fold_set_keys_unique.
Qed.

Lemma costs_keys_are_available_suppliers_witness :
  exists ci, dict_get (costs fixture_data) 2%Z = Some ci /\ dict_keys ci = [1; 2]%Z.
Proof.
  apply (costs_keys_are_available_suppliers fixture_items_df fixture_suppliers_df
           fixture_pricing_df).
  reflexivity.
Defined.

(** * Further properties of the builder *)

Lemma eval_add_constant (rho : Assignment) (ts : list (LpVariable * Q)) (c : Q) :
  eval rho (add_constant (lpSum ts) c)
  == Qsum (map (fun t => rho (var_name (fst t)) * snd t) ts) + c.
Proof.
  unfold eval, add_constant, lpSum, Qsum. simpl. rewrite Qplus_0_l.
  apply Qplus_comp; [| reflexivity].
  induction ts as [| t ts IH]; simpl; [reflexivity |]. now rewrite IH.
Qed.

Lemma eval_stock_lhs (data : Data) (i : ItemKey) (it : Item) (rho : Assignment) :
  eval rho (stock_lhs data i it)
  == Qsum (map (fun s => rho (x_ i s) * inject_Z (units_per_pallet it))
               (eligible_suppliers data i))
     + current_stock it.
Proof. unfold stock_lhs. now rewrite eval_add_constant, map_map. Qed.

Lemma eval_pallets_lhs (data : Data) (s : SupplierKey) (rho : Assignment) :
  eval rho (pallets_lhs data s)
  == Qsum (map (fun i => rho (x_ i s)) (supplied_items data s)).
Proof.
  unfold pallets_lhs. rewrite eval_lpSum, map_map. simpl.
  induction (supplied_items data s) as [| i l IH]; simpl; [reflexivity |].
  now rewrite IH, Qmult_1_r.
Qed.

Lemma stock_rows_in (data : Data) (it : ItemKey * Item) (r : ConstraintName * LpConstraint) :
  In it (items data) -> In r (stock_rows data it) -> In r (described_constraints data).
Proof.
  intros Hit Hr. unfold described_constraints. apply in_app_iff. left.
  apply in_flat_map. eauto.
Qed.

Lemma supplier_rows_in (data : Data) (su : SupplierKey * Supplier)
    (r : ConstraintName * LpConstraint) :
  In su (suppliers data) -> In r (supplier_rows data su) -> In r (described_constraints data).
Proof.
  intros Hsu Hr. unfold described_constraints. apply in_app_iff. right.
  apply in_app_iff. left. apply in_flat_map. eauto.
Qed.

Lemma lead_time_row_in (data : Data) (i : ItemKey) (it : Item) (s : SupplierKey) :
  In (i, it) (items data) -> In s (eligible_suppliers data i) ->
  In (Lead_Time_Expiry_ i s, lead_time_constraint i it s (supplier_at data s))
     (described_constraints data).
Proof.
  intros Hit Hs. unfold described_constraints.
  apply in_app_iff. right. apply in_app_iff. right.
  apply in_flat_map. exists (i, it). split; [assumption |].
  unfold lead_time_rows. apply in_flat_map. exists s. split; [assumption |]. now left.
Qed.

Lemma supplier_rows_active (data : Data) (s : SupplierKey) (sd : Supplier) :
  has_eligible_items data s = true ->
  supplier_rows data (s, sd) =
  [(Min_Pallets_ s,
    {| lhs := pallets_lhs data s; sense := LpConstraintGE; rhs := min_pallets sd |});
   (Max_Pallets_ s,
    {| lhs := pallets_lhs data s; sense := LpConstraintLE; rhs := max_pallets sd |})].
Proof.
  intros Hs. unfold supplier_rows. simpl.
  destruct (supplied_items data s) eqn:Hsup; [| reflexivity].
  apply supplied_items_nil in Hsup. congruence.
Qed.

Lemma satisfies_stock (data : Data) (i : ItemKey) (it : Item) (rho : Assignment) :
  let ordered_units :=
    Qsum (map (fun s => rho (x_ i s) * inject_Z (units_per_pallet it))
              (eligible_suppliers data i)) in
  (satisfies rho (min_stock_constraint data i it)
   <-> min_stock it <= ordered_units + current_stock it) /\
  (satisfies rho (max_stock_constraint data i it)
   <-> ordered_units + current_stock it <= max_stock it).
Proof. unfold satisfies. simpl. rewrite eval_stock_lhs. split; reflexivity. Qed.

Lemma satisfies_pallets (data : Data) (s : SupplierKey) (sd : Supplier) (rho : Assignment) :
  let pallets := Qsum (map (fun i => rho (x_ i s)) (supplied_items data s)) in
  (satisfies rho {| lhs := pallets_lhs data s; sense := LpConstraintGE;
                    rhs := min_pallets sd |}
   <-> min_pallets sd <= pallets) /\
  (satisfies rho {| lhs := pallets_lhs data s; sense := LpConstraintLE;
                    rhs := max_pallets sd |}
   <-> pallets <= max_pallets sd).
Proof. unfold satisfies. simpl. rewrite eval_pallets_lhs. split; reflexivity. Qed.

(** X7. For every item of the data, the built problem has the constraints
    Min_Stock and Max_Stock of the item, and an assignment satisfies them iff
    min_stock <= sum over the item's eligible suppliers of
    x[i,s]*units_per_pallet + current_stock <= max_stock. *)
Theorem stock_constraints_meaning (data : Data) (m : LpProblem) (x : VarDict)
    (i : ItemKey) (it : Item) :
  create_optimization_model data = Ok (m, x) ->
  In (i, it) (items data) ->
  exists cmin cmax,
    dict_get (constraints m) (Min_Stock_ i) = Some cmin /\
    dict_get (constraints m) (Max_Stock_ i) = Some cmax /\
    forall rho,
      let ordered_units :=
        Qsum (map (fun s => rho (x_ i s) * inject_Z (units_per_pallet it))
                  (eligible_suppliers data i)) in
      (satisfies rho cmin <-> min_stock it <= ordered_units + current_stock it) /\
      (satisfies rho cmax <-> ordered_units + current_stock it <= max_stock it).
Proof.
  intros Hc Hit. apply create_optimization_model_Ok in Hc.
  destruct Hc as (_ & -> & Hnd & _).
  exists (min_stock_constraint data i it), (max_stock_constraint data i it).
  split; [apply described_constraint_get;
          [assumption | apply (stock_rows_in data (i, it)); simpl; auto] |].
  split; [apply described_constraint_get;
          [assumption | apply (stock_rows_in data (i, it)); simpl; auto] |].
  intros rho. apply satisfies_stock.
Qed.

Lemma stock_constraints_meaning_witness :
  exists cmin cmax,
    dict_get (constraints (described_problem fixture_data)) (Min_Stock_ 1) = Some cmin /\
    dict_get (constraints (described_problem fixture_data)) (Max_Stock_ 1) = Some cmax /\
    forall rho,
      let ordered_units :=
        Qsum (map (fun s => rho (x_ 1 s) * inject_Z 24) (eligible_suppliers fixture_data 1)) in
      (satisfies rho cmin <-> 10 <= ordered_units + 5) /\
      (satisfies rho cmax <-> ordered_units + 5 <= 100).
Proof.
  apply (stock_constraints_meaning fixture_data (described_problem fixture_data) fixture_x
           1 (item_at fixture_data 1)).
  - reflexivity.
  - simpl. auto.
Defined.

(** X8. For every supplier that is listed for at least one item, the built
    problem has the constraints Min_Pallets and Max_Pallets of the supplier,
    and an assignment satisfies them iff min_pallets <= sum over the items the
    supplier is listed for of x[i,s] <= max_pallets. *)
Theorem supplier_constraints_meaning (data : Data) (m : LpProblem) (x : VarDict)
    (s : SupplierKey) (sd : Supplier) :
  create_optimization_model data = Ok (m, x) ->
  In (s, sd) (suppliers data) ->
  has_eligible_items data s = true ->
  exists cmin cmax,
    dict_get (constraints m) (Min_Pallets_ s) = Some cmin /\
    dict_get (constraints m) (Max_Pallets_ s) = Some cmax /\
    forall rho,
      let pallets := Qsum (map (fun i => rho (x_ i s)) (supplied_items data s)) in
      (satisfies rho cmin <-> min_pallets sd <= pallets) /\
      (satisfies rho cmax <-> pallets <= max_pallets sd).
Proof.
  intros Hc Hsd Hs. apply create_optimization_model_Ok in Hc.
  destruct Hc as (_ & -> & Hnd & _).
  pose proof (supplier_rows_active data s sd Hs) as Hrows.
  eexists. eexists.
  split; [apply described_constraint_get;
          [assumption | apply (supplier_rows_in data (s, sd)); [assumption |];
                        rewrite Hrows; left; reflexivity] |].
  split; [apply described_constraint_get;
          [assumption | apply (supplier_rows_in data (s, sd)); [assumption |];
                        rewrite Hrows; right; left; reflexivity] |].
  intros rho. apply satisfies_pallets.
Qed.

Lemma supplier_constraints_meaning_witness :
  exists cmin cmax,
    dict_get (constraints (described_problem fixture_data)) (Min_Pallets_ 2) = Some cmin /\
    dict_get (constraints (described_problem fixture_data)) (Max_Pallets_ 2) = Some cmax /\
    forall rho,
      let pallets := Qsum (map (fun i => rho (x_ i 2)) (supplied_items fixture_data 2)) in
      (satisfies rho cmin <-> 2 <= pallets) /\
      (satisfies rho cmax <-> pallets <= 100).
Proof.
  apply (supplier_constraints_meaning fixture_data (described_problem fixture_data) fixture_x
           2 (supplier_at fixture_data 2)).
  - reflexivity.
  - simpl. auto.
  - reflexivity.
Defined.

(** X9. The builder does not validate bounds: an item with
    max_stock < min_stock, or a supplier listed for some item with
    max_pallets < min_pallets, is passed through and makes the built problem
    unsatisfiable. *)
Theorem inverted_bounds_infeasible (data : Data) (m : LpProblem) (x : VarDict) :
  create_optimization_model data = Ok (m, x) ->
  (forall i it, In (i, it) (items data) -> max_stock it < min_stock it ->
     forall rho, ~ satisfies_all rho m) /\
  (forall s sd, In (s, sd) (suppliers data) -> has_eligible_items data s = true ->
     max_pallets sd < min_pallets sd ->
     forall rho, ~ satisfies_all rho m).
Proof.
  intros Hc. apply create_optimization_model_Ok in Hc.
  destruct Hc as (_ & -> & _). split.
  - intros i it Hit Hlt rho Hall.
    destruct (satisfies_stock data i it rho) as [Hmin Hmax].
    assert (Hsmin : satisfies rho (min_stock_constraint data i it)).
    { apply (Hall (Min_Stock_ i)), (stock_rows_in data (i, it)); simpl; auto. }
    assert (Hsmax : satisfies rho (max_stock_constraint data i it)).
    { apply (Hall (Max_Stock_ i)), (stock_rows_in data (i, it)); simpl; auto. }
    apply Hmin in Hsmin. apply Hmax in Hsmax.
    apply (Qlt_irrefl (min_stock it)).
    eapply Qle_lt_trans; [| exact Hlt]. eapply Qle_trans; eauto.
  - intros s sd Hsd Hs Hlt rho Hall.
    destruct (satisfies_pallets data s sd rho) as [Hmin Hmax].
    pose proof (supplier_rows_active data s sd Hs) as Hrows.
    assert (Hsmin : satisfies rho {| lhs := pallets_lhs data s; sense := LpConstraintGE;
                                     rhs := min_pallets sd |}).
    { apply (Hall (Min_Pallets_ s)), (supplier_rows_in data (s, sd)); [assumption |].
      rewrite Hrows. left. reflexivity. }
    assert (Hsmax : satisfies rho {| lhs := pallets_lhs data s; sense := LpConstraintLE;
                                     rhs := max_pallets sd |}).
    { apply (Hall (Max_Pallets_ s)), (supplier_rows_in data (s, sd)); [assumption |].
      rewrite Hrows. right. left. reflexivity. }
    apply Hmin in Hsmin. apply Hmax in Hsmax.
    apply (Qlt_irrefl (min_pallets sd)).
    eapply Qle_lt_trans; [| exact Hlt]. eapply Qle_trans; eauto.
Qed.

Lemma inverted_bounds_infeasible_witness :
  (forall rho, ~ satisfies_all rho (described_problem inverted_data)) /\
  (forall rho, ~ satisfies_all rho (described_problem inverted_data)).
Proof.
  destruct (inverted_bounds_infeasible inverted_data (described_problem inverted_data)
              fixture_x eq_refl) as [Hitem Hsupplier].
  split.
  - apply (Hitem 1%Z (item_at inverted_data 1)).
    + simpl. auto.
    + reflexivity.
  - apply (Hsupplier 1%Z (supplier_at inverted_data 1)).
    + simpl. auto.
    + reflexivity.
    + reflexivity.
Defined.

(** X10. An item whose current stock exceeds expected_demand +
    average_daily_sale * lead_time of one of its eligible suppliers makes the
    built problem unsatisfiable by any assignment within the variables' bounds
    (lowBound 0), although nothing has to be ordered for it; units_per_pallet
    is not negative (the normalisation sets it to 24). *)
Theorem overstocked_item_infeasible (data : Data) (m : LpProblem) (x : VarDict)
    (i : ItemKey) (it : Item) (s : SupplierKey) (sd : Supplier) :
  create_optimization_model data = Ok (m, x) ->
  In (i, it) (items data) ->
  In s (eligible_suppliers data i) ->
  dict_get (suppliers data) s = Some sd ->
  (0 <= units_per_pallet it)%Z ->
  expected_demand it + average_daily_sale it * lead_time sd < current_stock it ->
  forall rho, within_bounds rho x -> ~ satisfies_all rho m.
Proof.
  intros Hc Hit Hs Hsd Hupp Hover rho Hb Hall.
  apply create_optimization_model_Ok in Hc.
  destruct Hc as ((_ & Hkeys & Hval & _) & -> & _).
  assert (Hx : In ((i, s), new_variable i s) x).
  { assert (Hin : In (i, s) (dict_keys x)).
    { apply Hkeys. apply (in_eligible_pairs data i s). split; [| assumption].
      change i with (fst (i, it)). now apply in_map. }
    apply dict_key_get in Hin. destruct Hin as (v & Hv).
    rewrite <- (Hval i s v Hv). now apply dict_get_In. }
  destruct (Hb _ _ Hx) as [Hlow _]. simpl in Hlow.
  pose proof (Hall _ _ (lead_time_row_in data i it s Hit Hs)) as Hsat.
  apply satisfies_lead_time in Hsat.
  unfold supplier_at in Hsat. rewrite Hsd in Hsat.
  assert (Hprod : 0 <= rho (x_ i s) * inject_Z (units_per_pallet it)).
  { apply Qmult_le_0_compat; [assumption |].
    change 0 with (inject_Z 0). now rewrite <- Zle_Qle. }
  set (a := rho (x_ i s) * inject_Z (units_per_pallet it)) in *.
  set (b := average_daily_sale it * lead_time sd) in *.
  lra.
Qed.

Lemma overstocked_item_infeasible_witness :
  ~ satisfies_all (fun _ => 0) (described_problem overstocked_data).
Proof.
  apply (overstocked_item_infeasible overstocked_data (described_problem overstocked_data)
           fixture_x 1 (item_at overstocked_data 1) 2 (supplier_at overstocked_data 2)).
  - reflexivity.
  - simpl. auto.
  - simpl. auto.
  - reflexivity.
  - discriminate.
  - reflexivity.
  - intros k v Hin. simpl in Hin.
    repeat (destruct Hin as [Heq | Hin];
            [injection Heq as <- <-; simpl; split; [discriminate | exact I] |]).
    contradiction.
Defined.

(** ** When the builder fails *)

Lemma foldM_app {A S : Type} (f : S -> A -> result S) (l1 l2 : list A) (s : S) :
  foldM f (l1 ++ l2) s = (s1 <- foldM f l1 s ;; foldM f l2 s1).
Proof.
  revert s. induction l1 as [| a l1 IH]; intros s; simpl; [reflexivity |].
  destruct (f s a); simpl; [apply IH | reflexivity].
Qed.

(** The first element that satisfies a test. *)
Lemma first_true {A : Type} (p : A -> bool) (l : list A) :
  existsb p l = true ->
  exists pre a post, l = pre ++ a :: post /\ p a = true /\ forall b, In b pre -> p b = false.
Proof.
  induction l as [| a l IH]; simpl; [discriminate |].
  destruct (p a) eqn:Hpa; simpl.
  - intros _. exists [], a, l. repeat split; [assumption | intros b []].
  - intros Hex. destruct (IH Hex) as (pre & a' & post & -> & Hpa' & Hpre).
    exists (a :: pre), a', post. repeat split; [assumption |].
    intros b [<- | Hb]; auto.
Qed.

Lemma NoDup_keys_app_l {K V : Type} (l1 l2 : dict K V) :
  NoDup (dict_keys (l1 ++ l2)) -> NoDup (dict_keys l1).
Proof. unfold dict_keys. rewrite map_app. apply NoDup_app_remove_r. Qed.

Section BuilderRaises.
Variable data : Data.
Variable x : VarDict.
Hypothesis data_priced : priced data.
Hypothesis x_inv : variables_invariant data (items data) x.

Let unknown (s : SupplierKey) : bool :=
  match dict_get (suppliers data) s with Some _ => false | None => true end.

Lemma lead_time_constraints_raises (m0 : LpProblem) :
  NoDup (dict_keys (constraints m0 ++ flat_map (lead_time_rows data) (items data))) ->
  (exists i s, In (i, s) (eligible_pairs data) /\ dict_get (suppliers data) s = None) ->
  lead_time_constraints data x m0 = Raise KeyError.
Proof.
  intros Hnd (i & s & Hin & Hs).
  apply in_eligible_pairs in Hin. destruct Hin as [Hi Hsi].
  assert (Hex : existsb (fun it : ItemKey * Item =>
                           existsb unknown (eligible_suppliers data (fst it)))
                        (items data) = true).
  { unfold dict_keys in Hi. apply in_map_iff in Hi. destruct Hi as ([i' it] & Hfst & Hit).
    simpl in Hfst. subst i'. apply existsb_exists. exists (i, it). split; [assumption |].
    apply existsb_exists. exists s. split; [assumption |]. unfold unknown. now rewrite Hs. }
  apply first_true in Hex. destruct Hex as (pre_i & it0 & post_i & Hitems & Hbad & Hpre_i).
  apply first_true in Hbad. destruct Hbad as (pre_s & s0 & post_s & Hsups & Hs0 & Hpre_s).
  assert (Hit0 : In it0 (items data)) by (rewrite Hitems; apply in_app_iff; right; now left).
  assert (Hi0 : In (fst it0) (dict_keys (items data))) by now apply in_map.
  unfold lead_time_constraints. rewrite Hitems. rewrite foldM_app.
  rewrite Hitems, flat_map_app in Hnd. simpl in Hnd.
  unfold lead_time_rows at 2 in Hnd. rewrite Hsups, flat_map_app in Hnd.
  rewrite !app_assoc in Hnd.
  do 2 apply NoDup_keys_app_l in Hnd.
  destruct (foldM_adds_total
              (fun model (it : ItemKey * Item) =>
                 sups <- getitem (available_suppliers data) (fst it) ;;
                 foldM (fun model supplier_id =>
                          supplier_data <- getitem (suppliers data) supplier_id ;;
                          v <- getitem x (fst it, supplier_id) ;;
                          add_constraint model
                            {| lhs := add_constant
                                        (lpSum [(v, inject_Z (units_per_pallet (snd it)))])
                                        (current_stock (snd it));
                               sense := LpConstraintLE;
                               rhs := expected_demand (snd it)
                                      + average_daily_sale (snd it)
                                        * lead_time supplier_data |}
                            (Lead_Time_Expiry_ (fst it) supplier_id))
                       sups model)
              (lead_time_rows data) pre_i m0) as (m1 & Hm1 & Hc1).
  { now apply NoDup_keys_app_l in Hnd. }
  { intros m it Hit Hndm.
    assert (Hit' : In it (items data)) by (rewrite Hitems; apply in_app_iff; now left).
    assert (Hi' : In (fst it) (dict_keys (items data))) by now apply in_map.
    rewrite (priced_available data data_priced (fst it) Hi'). simpl.
    apply foldM_adds_total with (rows := lead_time_row data it); [exact Hndm |].
    intros m2 s' Hs' Hnd2. apply (lead_time_step_total data x x_inv).
    - apply in_eligible_pairs. auto.
    - pose proof (Hpre_i it Hit) as Hgood.
      destruct (dict_get (suppliers data) s') eqn:Hg; [discriminate |].
      assert (Hc : existsb unknown (eligible_suppliers data (fst it)) = true).
      { apply existsb_exists. exists s'. split; [assumption |]. unfold unknown.
        now rewrite Hg. }
      congruence.
    - assumption. }
  change (foldM _ pre_i m0) with
    (foldM (fun model (it : ItemKey * Item) =>
              sups <- getitem (available_suppliers data) (fst it) ;;
              foldM (fun model supplier_id =>
                       supplier_data <- getitem (suppliers data) supplier_id ;;
                       v <- getitem x (fst it, supplier_id) ;;
                       add_constraint model
                         {| lhs := add_constant
                                     (lpSum [(v, inject_Z (units_per_pallet (snd it)))])
                                     (current_stock (snd it));
                            sense := LpConstraintLE;
                            rhs := expected_demand (snd it)
                                   + average_daily_sale (snd it)
                                     * lead_time supplier_data |}
                         (Lead_Time_Expiry_ (fst it) supplier_id))
                    sups model) pre_i m0).
  rewrite Hm1. simpl.
  rewrite (priced_available data data_priced (fst it0) Hi0). simpl.
  rewrite Hsups, foldM_app.
  destruct (foldM_adds_total
              (fun model supplier_id =>
                 supplier_data <- getitem (suppliers data) supplier_id ;;
                 v <- getitem x (fst it0, supplier_id) ;;
                 add_constraint model
                   {| lhs := add_constant
                               (lpSum [(v, inject_Z (units_per_pallet (snd it0)))])
                               (current_stock (snd it0));
                      sense := LpConstraintLE;
                      rhs := expected_demand (snd it0)
                             + average_daily_sale (snd it0) * lead_time supplier_data |}
                   (Lead_Time_Expiry_ (fst it0) supplier_id))
              (lead_time_row data it0) pre_s m1) as (m2 & Hm2 & Hc2).
  { now rewrite Hc1. }
  { intros m s' Hs' Hndm. apply (lead_time_step_total data x x_inv).
    - apply in_eligible_pairs. split; [assumption |].
      rewrite Hsups. apply in_app_iff. now left.
    - pose proof (Hpre_s s' Hs') as Hgood. unfold unknown in Hgood.
      destruct (dict_get (suppliers data) s'); [discriminate | discriminate].
    - assumption. }
  rewrite Hm2. simpl. unfold unknown in Hs0. unfold getitem at 1.
  destruct (dict_get (suppliers data) s0); [discriminate | reflexivity].
Qed.

End BuilderRaises.

Lemma priced_known_well_formed (data : Data) :
  priced data -> suppliers_known data -> well_formed data.
Proof.
  intros (Hit & Hsu & Hav) Hkn. split; [assumption |]. split; [assumption |].
  intros i Hi. destruct (Hav i Hi) as (sups & Hg & Hnd & Hall).
  exists sups. split; [assumption |]. split; [assumption |].
  intros s Hs. split; [| now apply Hall].
  apply (Hkn i). apply in_eligible_pairs. split; [assumption |].
  now rewrite (eligible_suppliers_get data i sups Hg).
Qed.

Lemma prepare_priced (items_df : list ItemRow) (suppliers_df : list SupplierRow)
    (pricing_df : list PricingRow) :
  priced (prepare_data_for_optimization items_df suppliers_df pricing_df).
Proof.
  split; [apply prepare_items_NoDup |]. split; [apply prepare_suppliers_NoDup |].
  intros i Hi. eexists. split; [apply (prepare_available_get _ _ _ i Hi) |].
  split; [apply unique_NoDup |].
  intros s Hs. rewrite unique_In in Hs. apply item_pricing_suppliers in Hs.
  apply prepare_cost_entry. auto.
Qed.

(** X11. On normalised tables the builder returns a problem when every price
    entry of an item of the item table names a supplier of the supplier table
    (price entries of other items do not matter), and raises KeyError when
    some such entry names a supplier that is not in the supplier table. *)
Theorem builder_result_by_supplier_table (items_df : list ItemRow)
    (suppliers_df : list SupplierRow) (pricing_df : list PricingRow) :
  let data := prepare_data_for_optimization items_df suppliers_df pricing_df in
  ((forall row, In row pricing_df ->
      In (prow_ItemID row) (map row_ItemID items_df) ->
      In (prow_SupplierID row) (map srow_SupplierID suppliers_df)) ->
   exists m x, create_optimization_model data = Ok (m, x)) /\
  ((exists row, In row pricing_df /\
      In (prow_ItemID row) (map row_ItemID items_df) /\
      ~ In (prow_SupplierID row) (map srow_SupplierID suppliers_df)) ->
   create_optimization_model data = Raise KeyError).
Proof.
  intros data. pose proof (prepare_priced items_df suppliers_df pricing_df) as Hpr.
  fold data in Hpr. split.
  - intros Hclosed. apply create_optimization_model_total.
    apply priced_known_well_formed; [assumption |].
    intros i s Hin. apply in_eligible_pairs in Hin. destruct Hin as [Hi Hs].
    apply (prepare_eligible items_df suppliers_df pricing_df i s Hi) in Hs.
    destruct Hs as (row & Hrow & <- & <-).
    apply prepare_items_keys in Hi.
    apply (Hclosed row Hrow) in Hi.
    apply (prepare_suppliers_keys items_df suppliers_df pricing_df), dict_key_get in Hi.
    destruct Hi as (sd & Hsd). unfold data. congruence.
  - intros (row & Hrow & Hi & Hs).
    pose proof (described_names_NoDup data Hpr) as Hnd.
    destruct (create_variables_total data Hpr) as (x & Hx).
    pose proof (create_variables_Ok data x Hx) as Hinv.
    unfold create_optimization_model. rewrite Hx. simpl.
    rewrite (objective_terms_total data x Hpr Hinv). simpl.
    unfold described_constraints, dict_keys in Hnd.
    match goal with
    | |- context [stock_constraints data x ?m0] =>
        destruct (stock_constraints_total data x Hpr Hinv m0) as (m1 & Hm1 & Hc1)
    end.
    { simpl. rewrite map_app in Hnd. now apply NoDup_app_remove_r in Hnd. }
    rewrite Hm1. simpl. simpl in Hc1.
    destruct (supplier_constraints_total data x Hpr Hinv m1) as (m2 & Hm2 & Hc2).
    { rewrite Hc1. rewrite app_assoc in Hnd. unfold dict_keys.
      rewrite map_app in Hnd. now apply NoDup_app_remove_r in Hnd. }
    rewrite Hm2. simpl.
    rewrite (lead_time_constraints_raises data x Hpr Hinv m2); [reflexivity | |].
    + rewrite Hc2, Hc1, <- app_assoc. exact Hnd.
    + exists (prow_ItemID row), (prow_SupplierID row).
      apply (prepare_items_keys items_df suppliers_df pricing_df) in Hi.
      split.
      * apply in_eligible_pairs. split; [exact Hi |].
        apply (prepare_eligible items_df suppliers_df pricing_df _ _ Hi).
        exists row. auto.
      * apply dict_get_None. intros Hin. apply Hs.
        now apply (prepare_suppliers_keys items_df suppliers_df pricing_df) in Hin.
Qed.

Lemma builder_result_by_supplier_table_witness :
  (exists m x,
     create_optimization_model
       (prepare_data_for_optimization fixture_items_df fixture_suppliers_df stray_pricing_df)
     = Ok (m, x)) /\
  create_optimization_model
    (prepare_data_for_optimization fixture_items_df fixture_suppliers_df
       unknown_supplier_pricing_df)
  = Raise KeyError.
Proof.
  split.
  - apply (builder_result_by_supplier_table fixture_items_df fixture_suppliers_df
             stray_pricing_df).
    intros row Hin Hi. simpl in Hin.
    repeat (destruct Hin as [<- | Hin]; [simpl; auto |]); [| contradiction].
    simpl in Hi. destruct Hi as [Hi | [Hi | []]]; discriminate Hi.
  - apply (builder_result_by_supplier_table fixture_items_df fixture_suppliers_df
             unknown_supplier_pricing_df).
    eexists. split; [do 4 right; left; reflexivity |]. split.
    + simpl. auto.
    + simpl. intros [H | [H | []]]; discriminate H.
Defined.

(** * Further properties of the extracted plan *)

Lemma Zsum_app (l1 l2 : list Z) : Zsum (l1 ++ l2) = (Zsum l1 + Zsum l2)%Z.
Proof. unfold Zsum. induction l1 as [| a l1 IH]; simpl; [reflexivity | lia]. Qed.

Lemma Qsum_Zsum {A : Type} (c : A -> Z) (l : list A) :
  inject_Z (Zsum (map c l)) == Qsum (map (fun a => inject_Z (c a)) l).
Proof.
  induction l as [| a l IH]; simpl; [reflexivity |].
  now rewrite inject_Z_plus, IH.
Qed.

Lemma Qsum_ext {A : Type} (f g : A -> Q) (l : list A) :
  (forall a, In a l -> f a == g a) -> Qsum (map f l) == Qsum (map g l).
Proof.
  induction l as [| a l IH]; simpl; intros Hfg; [reflexivity |].
  rewrite (Hfg a) by now left. rewrite IH by auto. reflexivity.
Qed.

Lemma filter_none {A : Type} (p : A -> bool) (l : list A) :
  (forall a, In a l -> p a = false) -> filter p l = [].
Proof.
  induction l as [| a l IH]; simpl; intros Hp; [reflexivity |].
  rewrite Hp by now left. apply IH. auto.
Qed.

(** A sum over the lines of a plan that match a test on their pair, as a sum
    over the pairs. *)
Lemma plan_sum (f : OrderLine -> Z) (p : ItemKey * SupplierKey -> bool)
    (G : ItemKey * SupplierKey -> list OrderLine) (l : list (ItemKey * SupplierKey)) :
  (forall k l0, In l0 (G k) -> line_pair l0 = k) ->
  Zsum (map f (filter (fun l0 => p (line_pair l0)) (flat_map G l)))
  = Zsum (map (fun k => if p k then Zsum (map f (G k)) else 0%Z) l).
Proof.
  intros HG. induction l as [| k l IH]; simpl; [reflexivity |].
  rewrite filter_app, map_app, Zsum_app, IH. f_equal.
  destruct (p k) eqn:Hp.
  - rewrite filter_all; [reflexivity |]. intros l0 Hl0. now rewrite (HG k l0 Hl0).
  - rewrite filter_none; [reflexivity |]. intros l0 Hl0. now rewrite (HG k l0 Hl0).
Qed.

Lemma pairs_sum_other_item (c : ItemKey * SupplierKey -> Z) (g : ItemKey -> list SupplierKey)
    (i : ItemKey) (l : list ItemKey) :
  ~ In i l ->
  Zsum (map (fun k => if Z.eqb (fst k) i then c k else 0%Z)
            (flat_map (fun i' => map (pair i') (g i')) l)) = 0%Z.
Proof.
  induction l as [| i' l IH]; simpl; intros Hn; [reflexivity |].
  rewrite map_app, Zsum_app, IH by tauto.
  assert (Hne : Z.eqb i' i = false) by (apply Z.eqb_neq; intros ->; apply Hn; now left).
  rewrite map_map. simpl. rewrite Hne.
  induction (g i') as [| s sups IHs]; simpl; [reflexivity | exact IHs].
Qed.

(** The pairs of one item. *)
Lemma pairs_sum_item (c : ItemKey * SupplierKey -> Z) (g : ItemKey -> list SupplierKey)
    (i : ItemKey) (l : list ItemKey) :
  NoDup l -> In i l ->
  Zsum (map (fun k => if Z.eqb (fst k) i then c k else 0%Z)
            (flat_map (fun i' => map (pair i') (g i')) l))
  = Zsum (map (fun s => c (i, s)) (g i)).
Proof.
  induction 1 as [| i' l Hnin Hnd IH]; simpl; intros Hin; [contradiction |].
  rewrite map_app, Zsum_app, map_map. simpl.
  destruct (Z.eq_dec i' i) as [-> | Hne].
  - rewrite Z.eqb_refl, pairs_sum_other_item by assumption. lia.
  - destruct Hin as [Heq | Hin]; [contradiction |]. rewrite IH by assumption.
    assert (Hb : Z.eqb i' i = false) by now apply Z.eqb_neq. rewrite Hb.
    assert (Hz : Zsum (map (fun _ : SupplierKey => 0%Z) (g i')) = 0%Z)
      by (induction (g i'); simpl; [reflexivity | assumption]).
    rewrite Hz. reflexivity.
Qed.

Lemma sum_one_supplier (c : SupplierKey -> Z) (s : SupplierKey) (sups : list SupplierKey) :
  NoDup sups ->
  Zsum (map (fun s' => if Z.eqb s' s then c s' else 0%Z) sups)
  = if list_mem s sups then c s else 0%Z.
Proof.
  induction 1 as [| s' sups Hnin Hnd IH]; simpl; [reflexivity |].
  rewrite IH. destruct (eq_dec s s') as [<- | Hne].
  - rewrite Z.eqb_refl.
    destruct (list_mem s sups) eqn:Hm; [apply list_mem_In in Hm; contradiction | lia].
  - assert (Hb : Z.eqb s' s = false) by (apply Z.eqb_neq; congruence).
    rewrite Hb. reflexivity.
Qed.

(** The pairs of one supplier. *)
Lemma pairs_sum_supplier (c : ItemKey * SupplierKey -> Z) (g : ItemKey -> list SupplierKey)
    (s : SupplierKey) (l : list ItemKey) :
  (forall i, In i l -> NoDup (g i)) ->
  Zsum (map (fun k => if Z.eqb (snd k) s then c k else 0%Z)
            (flat_map (fun i' => map (pair i') (g i')) l))
  = Zsum (map (fun i => c (i, s)) (filter (fun i => list_mem s (g i)) l)).
Proof.
  induction l as [| i l IH]; simpl; intros Hnd; [reflexivity |].
  rewrite map_app, Zsum_app, IH, map_map by auto. simpl.
  rewrite (sum_one_supplier (fun s' => c (i, s')) s (g i)) by auto.
  destruct (list_mem s (g i)); simpl; lia.
Qed.

Lemma line_for_pair (sol : Solved) (x : VarDict) (data : Data)
    (k : ItemKey * SupplierKey) (l : OrderLine) :
  In l (line_for sol x data k) -> line_pair l = k.
Proof.
  unfold line_for. destruct (solved_value sol x k) as [v |]; [| contradiction].
  destruct (ordered (Some v)); [| contradiction].
  intros [<- | []]. now destruct k.
Qed.

Section AfterBuild.
Variables (data : Data) (m : LpProblem) (x : VarDict).
Hypothesis built : create_optimization_model data = Ok (m, x).

Lemma built_variable (i : ItemKey) (s : SupplierKey) :
  In (i, s) (eligible_pairs data) ->
  dict_get x (i, s) = Some (new_variable i s) /\ In ((i, s), new_variable i s) x.
Proof.
  intros Hin. apply create_optimization_model_Ok in built.
  destruct built as ((_ & Hkeys & Hval & _) & _).
  apply Hkeys, dict_key_get in Hin. destruct Hin as (v & Hv).
  rewrite (Hval i s v Hv) in Hv. split; [assumption | now apply dict_get_In].
Qed.

Lemma built_solved_value (sol : Solved) (k : ItemKey * SupplierKey) :
  In k (eligible_pairs data) -> solved_value sol x k = value sol (x_ (fst k) (snd k)).
Proof.
  destruct k as [i s]. intros Hin. unfold solved_value.
  destruct (built_variable i s Hin) as [-> _]. reflexivity.
Qed.

Lemma built_item (i : ItemKey) (it : Item) :
  In (i, it) (items data) -> item_at data i = it.
Proof.
  intros Hit. destruct (create_Ok_NoDup_pairs data m x built) as [Hnd _].
  unfold item_at. now rewrite (In_dict_get (items data) i it Hnd Hit).
Qed.

(** What a pair with a whole, non-negative value contributes to the plan. *)
Lemma whole_contribution (sol : Solved) (i : ItemKey) (s : SupplierKey) (q : Q) (n : Z) :
  In (i, s) (eligible_pairs data) ->
  value sol (x_ i s) = Some q -> q == inject_Z n -> 0 <= q ->
  Zsum (map PalletsOrdered (line_for sol x data (i, s))) = n /\
  Zsum (map UnitsOrdered (line_for sol x data (i, s)))
  = (n * units_per_pallet (item_at data i))%Z.
Proof.
  intros Hin Hv Hn Hpos. unfold line_for.
  rewrite (built_solved_value sol (i, s) Hin). simpl. rewrite Hv.
  destruct (ordered (Some q)) eqn:Ho; simpl.
  - rewrite !Z.add_0_r. split; [now apply int_whole |].
    apply int_whole. rewrite Hn. unfold Qeq. simpl. lia.
  - assert (Hz : q == 0).
    { apply Qle_antisym; [| assumption]. apply Qnot_lt_le. intros Hlt.
      assert (ordered (Some q) = true) by (apply ordered_true; eauto). congruence. }
    rewrite Hz in Hn. assert (n = 0%Z).
    { unfold Qeq in Hn. simpl in Hn. lia. }
    subst n. split; reflexivity.
Qed.

End AfterBuild.

Lemma NoDup_flat_map_part {A B : Type} (f : A -> list B) (l : list A) (a : A) :
  NoDup (flat_map f l) -> In a l -> NoDup (f a).
Proof.
  induction l as [| b l IH]; simpl; intros Hnd Hin; [contradiction |].
  destruct Hin as [-> | Hin].
  - now apply NoDup_app_remove_r in Hnd.
  - apply IH; [| assumption]. now apply NoDup_app_remove_l in Hnd.
Qed.

Section FeasiblePlan.
Variables (solver : Solver) (data : Data) (m : LpProblem) (x : VarDict).
Hypothesis built : create_optimization_model data = Ok (m, x).
Hypothesis feasible : feasible_solution (solver m) m x.

Lemma feasible_value (i : ItemKey) (s : SupplierKey) :
  In (i, s) (eligible_pairs data) ->
  exists q n, value (solver m) (x_ i s) = Some q /\ q == inject_Z n /\ 0 <= q /\
              assignment_of (solver m) (x_ i s) = q.
Proof.
  intros Hin. destruct feasible as (Hwhole & Hb & _).
  destruct (built_variable data m x built i s Hin) as [_ Hx].
  destruct (Hwhole _ _ Hx) as (q & n & Hv & Hn). simpl in Hv.
  exists q, n. destruct (Hb _ _ Hx) as [Hlow _]. simpl in Hlow.
  unfold assignment_of in *. rewrite Hv in *. auto.
Qed.

Lemma feasible_units (i : ItemKey) :
  In i (dict_keys (items data)) ->
  inject_Z (Zsum (map (fun s => Zsum (map UnitsOrdered (line_for (solver m) x data (i, s))))
                      (eligible_suppliers data i)))
  == Qsum (map (fun s => assignment_of (solver m) (x_ i s)
                         * inject_Z (units_per_pallet (item_at data i)))
               (eligible_suppliers data i)).
Proof.
  intros Hi. rewrite Qsum_Zsum. apply Qsum_ext. intros s Hs.
  assert (Hin : In (i, s) (eligible_pairs data)) by (apply in_eligible_pairs; auto).
  destruct (feasible_value i s Hin) as (q & n & Hv & Hn & Hpos & Hrho).
  destruct (whole_contribution data m x built (solver m) i s q n Hin Hv Hn Hpos) as [_ ->].
  rewrite Hrho, inject_Z_mult, Hn. reflexivity.
Qed.

Lemma feasible_pallets (s : SupplierKey) :
  inject_Z (Zsum (map (fun i => Zsum (map PalletsOrdered (line_for (solver m) x data (i, s))))
                      (supplied_items data s)))
  == Qsum (map (fun i => assignment_of (solver m) (x_ i s)) (supplied_items data s)).
Proof.
  rewrite Qsum_Zsum. apply Qsum_ext. intros i Hi.
  unfold supplied_items in Hi. apply filter_In in Hi. destruct Hi as [Hi Hs].
  apply list_mem_In in Hs.
  assert (Hin : In (i, s) (eligible_pairs data)) by (apply in_eligible_pairs; auto).
  destruct (feasible_value i s Hin) as (q & n & Hv & Hn & Hpos & Hrho).
  destruct (whole_contribution data m x built (solver m) i s q n Hin Hv Hn Hpos) as [-> _].
  rewrite Hrho, Hn. reflexivity.
Qed.

(** The units of the plan for one item. *)
Lemma plan_units (i : ItemKey) :
  In i (dict_keys (items data)) ->
  inject_Z (units_ordered_of (described_plan (solver m) x data) i)
  == Qsum (map (fun s => assignment_of (solver m) (x_ i s)
                         * inject_Z (units_per_pallet (item_at data i)))
               (eligible_suppliers data i)).
Proof.
  intros Hi. destruct (create_Ok_NoDup_pairs data m x built) as [Hnd _].
  rewrite <- (feasible_units i Hi). unfold units_ordered_of, described_plan.
  rewrite (plan_sum UnitsOrdered (fun k => Z.eqb (fst k) i) (line_for (solver m) x data))
    by apply line_for_pair.
  unfold eligible_pairs.
  rewrite (pairs_sum_item
             (fun k => Zsum (map UnitsOrdered (line_for (solver m) x data k)))
             (eligible_suppliers data) i) by assumption.
  reflexivity.
Qed.

(** The pallets of the plan from one supplier. *)
Lemma plan_pallets (s : SupplierKey) :
  inject_Z (pallets_ordered_from (described_plan (solver m) x data) s)
  == Qsum (map (fun i => assignment_of (solver m) (x_ i s)) (supplied_items data s)).
Proof.
  destruct (create_Ok_NoDup_pairs data m x built) as [_ Hnd].
  rewrite <- (feasible_pallets s). unfold pallets_ordered_from, described_plan.
  rewrite (plan_sum PalletsOrdered (fun k => Z.eqb (snd k) s) (line_for (solver m) x data))
    by apply line_for_pair.
  unfold eligible_pairs.
  rewrite (pairs_sum_supplier
             (fun k => Zsum (map PalletsOrdered (line_for (solver m) x data k)))
             (eligible_suppliers data) s).
  - reflexivity.
  - intros i Hi. unfold eligible_pairs in Hnd.
    apply (NoDup_flat_map_part _ _ i) in Hnd; [| assumption].
    now apply NoDup_map_inv in Hnd.
Qed.

End FeasiblePlan.

(** The stock limits hold for the plan read off a feasible solution. *)
Lemma plan_stock_limits (solver : Solver) (data : Data) (m : LpProblem) (x : VarDict) :
  create_optimization_model data = Ok (m, x) ->
  feasible_solution (solver m) m x ->
  forall i it, In (i, it) (items data) ->
    min_stock it
    <= current_stock it + inject_Z (units_ordered_of (described_plan (solver m) x data) i) /\
    current_stock it + inject_Z (units_ordered_of (described_plan (solver m) x data) i)
    <= max_stock it.
Proof.
  intros Hc Hf i it Hit.
  assert (Hi : In i (dict_keys (items data)))
    by (change i with (fst (i, it)); now apply in_map).
  pose proof (plan_units solver data m x Hc Hf i Hi) as Hunits.
  rewrite (built_item data m x Hc i it Hit) in Hunits.
  destruct Hf as (_ & _ & Hall).
  pose proof (create_optimization_model_Ok _ _ _ Hc) as (_ & Hm & _).
  destruct (satisfies_stock data i it (assignment_of (solver m))) as [Hmin Hmax].
  assert (Hsmin : satisfies (assignment_of (solver m)) (min_stock_constraint data i it)).
  { apply (Hall (Min_Stock_ i)). rewrite Hm.
    apply (stock_rows_in data (i, it)); simpl; auto. }
  assert (Hsmax : satisfies (assignment_of (solver m)) (max_stock_constraint data i it)).
  { apply (Hall (Max_Stock_ i)). rewrite Hm.
    apply (stock_rows_in data (i, it)); simpl; auto. }
  apply Hmin in Hsmin. apply Hmax in Hsmax.
  rewrite Hunits, (Qplus_comm (current_stock it)). split; assumption.
Qed.

(** The fixture's optimum is a feasible solution of the fixture's problem. *)
Lemma fixture_solution_feasible :
  feasible_solution (fixture_solver (described_problem fixture_data))
                    (described_problem fixture_data) fixture_x.
Proof.
  split; [| split].
  - intros k v Hin. simpl in Hin.
    destruct Hin as [Heq | [Heq | [Heq | [Heq | []]]]]; injection Heq as <- <-; simpl.
    + exists 1, 1%Z. split; reflexivity.
    + exists 0, 0%Z. split; reflexivity.
    + exists 0, 0%Z. split; reflexivity.
    + exists 2, 2%Z. split; reflexivity.
  - intros k v Hin. simpl in Hin.
    repeat (destruct Hin as [Heq | Hin];
            [injection Heq as <- <-; simpl; split; [discriminate | exact I] |]).
    contradiction.
  - intros n c Hin. simpl in Hin.
    repeat (destruct Hin as [Heq | Hin];
            [injection Heq as <- <-; vm_compute; intros Hx; discriminate |]).
    contradiction.
Defined.

(** * The plan of a feasible solution *)

(** X12. After a successful build, the pairs of the plan's lines are the
    eligible pairs whose solved value is positive, in the order of the
    eligible pairs: no such pair is left out and no other line is added. *)
Theorem plan_is_positive_pairs (solver : Solver) (data : Data) (m : LpProblem)
    (x : VarDict) (lines : list OrderLine) (total : option Q) :
  create_optimization_model data = Ok (m, x) ->
  snd (solve_model solver m x data) = Ok (Some lines, total) ->
  map line_pair lines
  = filter (fun k => ordered (value (solver m) (x_ (fst k) (snd k)))) (eligible_pairs data).
Proof.
  intros Hc Hs. destruct (solve_model_plan _ _ _ _ _ _ Hs) as (_ & -> & _).
  unfold described_plan.
  assert (Hl : forall l, (forall k, In k l -> In k (eligible_pairs data)) ->
             map line_pair (flat_map (line_for (solver m) x data) l)
             = filter (fun k => ordered (value (solver m) (x_ (fst k) (snd k)))) l).
  { induction l as [| k l IH]; simpl; intros Hin; [reflexivity |].
    rewrite map_app, IH by auto. unfold line_for at 1.
    rewrite (built_solved_value data m x Hc (solver m) k) by auto.
    destruct (value (solver m) (x_ (fst k) (snd k))) as [p |] eqn:Hv.
    - destruct (ordered (Some p)); [| reflexivity]. destruct k; reflexivity.
    - reflexivity. }
  apply Hl. auto.
Qed.

Lemma plan_is_positive_pairs_witness :
  map line_pair (described_plan (artifact_solver (described_problem fixture_data))
                                fixture_x fixture_data)
  = [(1, 1); (1, 2); (2, 2)]%Z.
Proof.
  apply (plan_is_positive_pairs artifact_solver fixture_data (described_problem fixture_data)
           fixture_x
           (described_plan (artifact_solver (described_problem fixture_data))
                           fixture_x fixture_data)
           (Some 310)).
  - reflexivity.
  - reflexivity.
Defined.

(** X13. When the solver's values are whole, within the variables' bounds
    and satisfy the built constraints, the plan keeps every item of the data
    between its stock limits:
    min_stock <= current_stock + (sum of UnitsOrdered of the item's lines)
    <= max_stock, where an item without a line counts 0. *)
Theorem plan_keeps_stock_limits (solver : Solver) (data : Data) (m : LpProblem)
    (x : VarDict) (lines : list OrderLine) (total : option Q) :
  create_optimization_model data = Ok (m, x) ->
  snd (solve_model solver m x data) = Ok (Some lines, total) ->
  feasible_solution (solver m) m x ->
  forall i it, In (i, it) (items data) ->
    min_stock it <= current_stock it + inject_Z (units_ordered_of lines i) /\
    current_stock it + inject_Z (units_ordered_of lines i) <= max_stock it.
Proof.
  intros Hc Hs Hf i it Hit.
  destruct (solve_model_plan _ _ _ _ _ _ Hs) as (_ & -> & _).
  now apply plan_stock_limits.
Qed.

Lemma plan_keeps_stock_limits_witness :
  10 <= 5 + inject_Z (units_ordered_of
                        (described_plan (fixture_solver (described_problem fixture_data))
                                        fixture_x fixture_data) 1) /\
  5 + inject_Z (units_ordered_of
                  (described_plan (fixture_solver (described_problem fixture_data))
                                  fixture_x fixture_data) 1) <= 100.
Proof.
  apply (plan_keeps_stock_limits fixture_solver fixture_data (described_problem fixture_data)
           fixture_x
           (described_plan (fixture_solver (described_problem fixture_data))
                           fixture_x fixture_data)
           (Some 310) eq_refl eq_refl fixture_solution_feasible 1%Z
           (item_at fixture_data 1)).
  simpl. auto.
Defined.

(** X14. Under the same condition the plan keeps every supplier that is
    listed for some item between its pallet limits:
    min_pallets <= (sum of PalletsOrdered of the supplier's lines)
    <= max_pallets; so such a supplier with a positive minimum always gets a
    line.  A supplier listed for no item gets no line at all. *)
Theorem plan_keeps_pallet_limits (solver : Solver) (data : Data) (m : LpProblem)
    (x : VarDict) (lines : list OrderLine) (total : option Q) :
  create_optimization_model data = Ok (m, x) ->
  snd (solve_model solver m x data) = Ok (Some lines, total) ->
  (feasible_solution (solver m) m x ->
   forall s sd, In (s, sd) (suppliers data) -> has_eligible_items data s = true ->
     min_pallets sd <= inject_Z (pallets_ordered_from lines s) /\
     inject_Z (pallets_ordered_from lines s) <= max_pallets sd) /\
  (forall s, has_eligible_items data s = false ->
     forall line, In line lines -> SupplierID line <> s).
Proof.
  intros Hc Hs. destruct (solve_model_plan _ _ _ _ _ _ Hs) as (_ & -> & _). split.
  - intros Hf s sd Hsd Hact.
    pose proof (plan_pallets solver data m x Hc Hf s) as Hp.
    destruct Hf as (_ & _ & Hall).
    pose proof (create_optimization_model_Ok _ _ _ Hc) as (_ & Hm & _).
    destruct (satisfies_pallets data s sd (assignment_of (solver m))) as [Hmin Hmax].
    pose proof (supplier_rows_active data s sd Hact) as Hrows.
    assert (Hsmin : satisfies (assignment_of (solver m))
                      {| lhs := pallets_lhs data s; sense := LpConstraintGE;
                         rhs := min_pallets sd |}).
    { apply (Hall (Min_Pallets_ s)). rewrite Hm.
      apply (supplier_rows_in data (s, sd)); [assumption |].
      rewrite Hrows. left. reflexivity. }
    assert (Hsmax : satisfies (assignment_of (solver m))
                      {| lhs := pallets_lhs data s; sense := LpConstraintLE;
                         rhs := max_pallets sd |}).
    { apply (Hall (Max_Pallets_ s)). rewrite Hm.
      apply (supplier_rows_in data (s, sd)); [assumption |].
      rewrite Hrows. right. left. reflexivity. }
    apply Hmin in Hsmin. apply Hmax in Hsmax.
    rewrite Hp. split; assumption.
  - intros s Hno line Hin Heq.
    apply plan_line in Hin. destruct Hin as ([i s'] & v & Hk & _ & _ & ->).
    simpl in Heq. subst s'. apply in_eligible_pairs in Hk. destruct Hk as [Hi Hsup].
    assert (Htrue : has_eligible_items data s = true).
    { unfold has_eligible_items. apply existsb_exists. exists i.
      split; [assumption | now apply list_mem_In]. }
    congruence.
Qed.

Lemma plan_keeps_pallet_limits_witness :
  2 <= inject_Z (pallets_ordered_from
                   (described_plan (fixture_solver (described_problem fixture_data))
                                   fixture_x fixture_data) 2) /\
  inject_Z (pallets_ordered_from
              (described_plan (fixture_solver (described_problem fixture_data))
                              fixture_x fixture_data) 2) <= 100.
Proof.
  destruct (plan_keeps_pallet_limits fixture_solver fixture_data
              (described_problem fixture_data) fixture_x
              (described_plan (fixture_solver (described_problem fixture_data))
                              fixture_x fixture_data)
              (Some 310) eq_refl eq_refl) as [Hlimits _].
  apply (Hlimits fixture_solution_feasible 2%Z (supplier_at fixture_data 2)).
  - simpl. auto.
  - reflexivity.
Defined.

(** * What the callers do with the result *)

Lemma plan_nonempty (sol : Solved) (data : Data) (m : LpProblem) (x : VarDict) :
  create_optimization_model data = Ok (m, x) ->
  (described_plan sol x data <> [] <->
   exists k v, In k (eligible_pairs data) /\
               value sol (x_ (fst k) (snd k)) = Some v /\ 0 < v).
Proof.
  intros Hc. split.
  - destruct (described_plan sol x data) as [| line rest] eqn:Hp; [congruence |].
    intros _. assert (Hin : In line (described_plan sol x data)) by (rewrite Hp; now left).
    apply plan_line in Hin. destruct Hin as (k & v & Hk & Hv & Hpos & _).
    exists k, v. rewrite <- (built_solved_value data m x Hc sol k Hk). auto.
  - intros (k & v & Hk & Hv & Hpos) Hnil.
    assert (Hin : In (order_line data k v) (described_plan sol x data)).
    { unfold described_plan. apply in_flat_map. exists k. split; [assumption |].
      unfold line_for. rewrite (built_solved_value data m x Hc sol k Hk), Hv.
      assert (Ho : ordered (Some v) = true) by (apply ordered_true; eauto).
      rewrite Ho. now left. }
    rewrite Hnil in Hin. contradiction.
Qed.

(** X15. After a successful build [solve_model] returns, and the callers'
    test [results_df is not None and not results_df.empty] passes exactly when
    the status is Optimal and some eligible pair has a positive solved value.
    An Optimal solution that orders nothing comes back as an empty plan with
    the model's objective value, and the callers treat it like a failed
    solve. *)
Theorem plan_found_iff (solver : Solver) (data : Data) (m : LpProblem) (x : VarDict) :
  create_optimization_model data = Ok (m, x) ->
  exists r,
    snd (solve_model solver m x data) = Ok r /\
    (plan_found r = true <->
     status (solver m) = LpStatusOptimal /\
     exists k v, In k (eligible_pairs data) /\
                 value (solver m) (x_ (fst k) (snd k)) = Some v /\ 0 < v) /\
    (status (solver m) = LpStatusOptimal ->
     (forall k v, In k (eligible_pairs data) ->
                  value (solver m) (x_ (fst k) (snd k)) = Some v -> v <= 0) ->
     r = (Some [], objective_value (solver m))).
Proof.
  intros Hc. pose proof (plan_nonempty (solver m) data m x Hc) as Hne.
  unfold solve_model. simpl.
  destruct (status (solver m)) eqn:Hst; simpl;
    try (eexists; split; [reflexivity |]; split;
         [split; [discriminate | intros [Hx _]; discriminate] | discriminate]).
  rewrite (extract_results_total (solver m) data m x Hc). simpl.
  eexists. split; [reflexivity |]. split; [split |].
  - unfold plan_found. simpl. intros Hp. split; [reflexivity |]. apply Hne.
    destruct (described_plan (solver m) x data); [discriminate | discriminate].
  - intros [_ Hex]. apply Hne in Hex. unfold plan_found. simpl.
    destruct (described_plan (solver m) x data); [congruence | reflexivity].
  - intros _ Hzero. f_equal. f_equal.
    destruct (described_plan (solver m) x data) as [| line rest] eqn:Hp; [reflexivity |].
    exfalso. assert (Hex : line :: rest <> []) by discriminate.
    apply Hne in Hex. destruct Hex as (k & v & Hk & Hv & Hpos).
    specialize (Hzero k v Hk Hv). apply (Qlt_irrefl 0). eapply Qlt_le_trans; eauto.
Qed.

Lemma plan_found_iff_witness :
  exists r,
    snd (solve_model (solved_with 0 0 0 0 0) (described_problem fixture_data)
           fixture_x fixture_data) = Ok r /\
    plan_found r = false /\ r = (Some [], Some 0).
Proof.
  destruct (plan_found_iff (solved_with 0 0 0 0 0) fixture_data
              (described_problem fixture_data) fixture_x eq_refl)
    as (r & Hr & _ & Hidle).
  exists r. split; [exact Hr |].
  assert (Heq : r = (Some [], Some 0)).
  { apply Hidle; [reflexivity |].
    intros k v Hk Hv. simpl in Hk.
    destruct Hk as [<- | [<- | [<- | [<- | []]]]]; simpl in Hv;
      injection Hv as <-; discriminate. }
  split; [now rewrite Heq | exact Heq].
Defined.

Lemma filter_split_length {A : Type} (p : A -> bool) (l : list A) :
  (length (filter p l) + length (filter (fun a => negb (p a)) l) = length l)%nat.
Proof.
  induction l as [| a l IH]; simpl; [reflexivity |].
  destruct (p a); simpl; lia.
Qed.

(** X16. The counts of main.py's analysis.  The items to order are items of
    the data, and together with the items not ordered they count every item
    once; the suppliers used are suppliers of the data, so their number does
    not exceed the number of suppliers. *)
Theorem analysis_counts (solver : Solver) (data : Data) (m : LpProblem) (x : VarDict)
    (lines : list OrderLine) (total : option Q) :
  create_optimization_model data = Ok (m, x) ->
  snd (solve_model solver m x data) = Ok (Some lines, total) ->
  (forall i, In i (items_to_order lines) -> In i (dict_keys (items data))) /\
  (length (items_to_order lines) + length (items_not_ordered data lines)
   = length (items data))%nat /\
  (forall s, In s (suppliers_used lines) -> In s (dict_keys (suppliers data))) /\
  (length (suppliers_used lines) <= length (suppliers data))%nat.
Proof.
  intros Hc Hs. destruct (solve_model_plan _ _ _ _ _ _ Hs) as (_ & -> & _).
  destruct (create_Ok_NoDup_pairs data m x Hc) as [Hnd _].
  pose proof (create_optimization_model_Ok _ _ _ Hc) as (_ & _ & _ & _ & Hknown).
  set (plan := described_plan (solver m) x data).
  assert (Hline : forall line, In line plan ->
             In (ItemID line) (dict_keys (items data)) /\
             In (SupplierID line) (dict_keys (suppliers data))).
  { intros line Hin. apply plan_line in Hin.
    destruct Hin as ([i s] & v & Hk & _ & _ & ->). simpl.
    apply in_eligible_pairs in Hk. destruct Hk as [Hi Hsup]. split; [assumption |].
    apply in_map_iff in Hi. destruct Hi as ([i' it] & Heq & Hit). simpl in Heq. subst i'.
    specialize (Hknown (i, it) Hit s Hsup).
    destruct (dict_get (suppliers data) s) as [sd |] eqn:Hg; [| congruence].
    now apply dict_get_Some_key in Hg. }
  assert (Hitems : forall i, In i (items_to_order plan) -> In i (dict_keys (items data))).
  { intros i Hi. unfold items_to_order in Hi. rewrite unique_In in Hi.
    apply in_map_iff in Hi. destruct Hi as (line & <- & Hin). now apply Hline. }
  assert (Hsups : forall s, In s (suppliers_used plan) -> In s (dict_keys (suppliers data))).
  { intros s Hi. unfold suppliers_used in Hi. rewrite unique_In in Hi.
    apply in_map_iff in Hi. destruct Hi as (line & <- & Hin). now apply Hline. }
  split; [assumption |]. split; [| split; [assumption |]].
  - unfold items_not_ordered.
    rewrite <- (length_map fst (items data)). fold (dict_keys (items data)).
    rewrite <- (filter_split_length (fun i => list_mem i (items_to_order plan))
                  (dict_keys (items data))).
    f_equal. apply Nat.le_antisymm.
    + apply NoDup_incl_length; [apply unique_NoDup |].
      intros i Hi. apply filter_In. split; [now apply Hitems | now apply list_mem_In].
    + apply NoDup_incl_length; [now apply NoDup_filter |].
      intros i Hi. apply filter_In in Hi. now apply list_mem_In.
  - rewrite <- (length_map fst (suppliers data)). fold (dict_keys (suppliers data)).
    apply NoDup_incl_length; [apply unique_NoDup | exact Hsups].
Qed.

Lemma analysis_counts_witness :
  let lines := described_plan (fixture_solver (described_problem sparse_data))
                              fixture_x sparse_data in
  (forall i, In i (items_to_order lines) -> In i (dict_keys (items sparse_data))) /\
  (length (items_to_order lines) + length (items_not_ordered sparse_data lines) = 4)%nat /\
  (forall s, In s (suppliers_used lines) -> In s (dict_keys (suppliers sparse_data))) /\
  (length (suppliers_used lines) <= 3)%nat.
Proof.
  apply (analysis_counts fixture_solver sparse_data (described_problem sparse_data)
           fixture_x
           (described_plan (fixture_solver (described_problem sparse_data))
                           fixture_x sparse_data)
           (Some 310)).
  - reflexivity.
  - reflexivity.
Defined.

(** X17. An empty item table.  Whatever the supplier and price tables hold,
    the builder returns a problem without variables and without constraints
    (no supplier has an item, so no pallet constraint is added), and
    [solve_model] never yields a plan the callers accept. *)
Theorem no_items_no_plan (suppliers_df : list SupplierRow) (pricing_df : list PricingRow)
    (solver : Solver) :
  let data := prepare_data_for_optimization [] suppliers_df pricing_df in
  exists m,
    create_optimization_model data = Ok (m, []) /\
    constraints m = [] /\
    objective m = Some (lpSum [], "Total_Cost"%string) /\
    exists r, snd (solve_model solver m [] data) = Ok r /\ plan_found r = false.
Proof.
  intros data.
  assert (Hwf : well_formed data).
  { apply priced_known_well_formed; [apply prepare_priced |]. intros i s []. }
  destruct (create_optimization_model_total data Hwf) as (m & x & Hc).
  pose proof (create_Ok_variables_length data m x Hc) as Hlen.
  destruct x as [| v x]; [| discriminate].
  pose proof (create_optimization_model_Ok _ _ _ Hc) as (_ & Hm & _).
  exists m. split; [assumption |].
  assert (Hrows : forall l, flat_map (supplier_rows data) l = []).
  { induction l as [| su l IH]; [reflexivity |]. simpl. now rewrite IH. }
  split; [| split].
  - rewrite Hm. unfold described_problem, described_constraints. simpl. now rewrite Hrows.
  - rewrite Hm. reflexivity.
  - unfold solve_model. simpl.
    destruct (status (solver m)); simpl; eexists; split; reflexivity.
Qed.

(** * The unit conversions *)

(** X18. For whole numbers that floats hold exactly (up to 2^53),
    converting pallets to units and back gives the pallets again, converting
    a whole number of pallets' worth of units to pallets and back gives the
    units again, and converting units with units_per_pallet = 0 raises
    ZeroDivisionError. *)
Theorem conversion_round_trip (pallets units_per_pallet : Z) :
  units_per_pallet <> 0%Z ->
  (Z.abs (pallets * units_per_pallet) <= 2 ^ 53)%Z ->
  (exists q, convert_units_to_pallets
               (convert_pallets_to_units (inject_Z pallets) (inject_Z units_per_pallet))
               (inject_Z units_per_pallet) = Some q /\ q == inject_Z pallets) /\
  (exists q, convert_units_to_pallets (inject_Z (pallets * units_per_pallet))
                                      (inject_Z units_per_pallet) = Some q /\
             convert_pallets_to_units q (inject_Z units_per_pallet)
             == inject_Z (pallets * units_per_pallet)) /\
  (forall quantity, convert_units_to_pallets quantity 0 = None).
Proof.
  intros Hu _.
  assert (Hq : ~ inject_Z units_per_pallet == 0).
  { unfold Qeq. simpl. lia. }
  assert (Hb : Qeq_bool (inject_Z units_per_pallet) 0 = false).
  { destruct (Qeq_bool (inject_Z units_per_pallet) 0) eqn:He; [| reflexivity].
    apply Qeq_bool_iff in He. contradiction. }
  unfold convert_units_to_pallets, convert_pallets_to_units. rewrite Hb.
  split; [| split].
  - eexists. split; [reflexivity |]. now apply Qdiv_mult_l.
  - eexists. split; [reflexivity |]. rewrite Qmult_comm. now apply Qmult_div_r.
  - reflexivity.
Qed.

Lemma conversion_round_trip_witness :
  (exists q, convert_units_to_pallets (convert_pallets_to_units (inject_Z 2) (inject_Z 24))
                                      (inject_Z 24) = Some q /\ q == inject_Z 2) /\
  (exists q, convert_units_to_pallets (inject_Z (2 * 24)) (inject_Z 24) = Some q /\
             convert_pallets_to_units q (inject_Z 24) == inject_Z (2 * 24)) /\
  (forall quantity, convert_units_to_pallets quantity 0 = None).
Proof.
  apply (conversion_round_trip 2 24).
  - discriminate.
  - vm_compute. discriminate.
Defined.

(** * The summary by supplier *)

Lemma insert_sorted_In (k a : Z) (l : list Z) :
  In a (insert_sorted k l) <-> a = k \/ In a l.
Proof.
  induction l as [| h t IH]; simpl.
  - intuition.
  - destruct (Z.leb k h); simpl; [intuition |]. rewrite IH. intuition.
Qed.

Lemma insert_sorted_strict (k : Z) (l : list Z) :
  StronglySorted Z.lt l -> ~ In k l -> StronglySorted Z.lt (insert_sorted k l).
Proof.
  induction l as [| h t IH]; simpl; intros Hs Hn.
  - repeat constructor.
  - apply StronglySorted_inv in Hs. destruct Hs as [Ht Hall].
    destruct (Z.leb k h) eqn:Hle.
    + apply Z.leb_le in Hle. assert (Hlt : (k < h)%Z) by (assert (h <> k) by tauto; lia).
      constructor; [now constructor |]. constructor; [assumption |].
      eapply Forall_impl; [| exact Hall]. intros a Ha. simpl in Ha. lia.
    + apply Z.leb_gt in Hle. constructor; [apply IH; tauto |].
      apply Forall_forall. intros a Ha. apply insert_sorted_In in Ha.
      destruct Ha as [-> | Ha]; [assumption |].
      rewrite Forall_forall in Hall. now apply Hall.
Qed.

Lemma sorted_keys_In (a : Z) (l : list Z) : In a (sorted_keys l) <-> In a l.
Proof.
  induction l as [| k l IH]; simpl; [reflexivity |].
  rewrite insert_sorted_In, IH. intuition.
Qed.

Lemma sorted_keys_strict (l : list Z) : NoDup l -> StronglySorted Z.lt (sorted_keys l).
Proof.
  induction 1 as [| k l Hn Hnd IH]; simpl; [constructor |].
  apply insert_sorted_strict; [assumption |]. now rewrite sorted_keys_In.
Qed.

Lemma Zsum_insert_sorted (f : Z -> Z) (k : Z) (l : list Z) :
  Zsum (map f (insert_sorted k l)) = (f k + Zsum (map f l))%Z.
Proof.
  induction l as [| h t IH]; simpl; [reflexivity |].
  destruct (Z.leb k h); simpl; [reflexivity |]. rewrite IH. lia.
Qed.

Lemma Zsum_sorted_keys (f : Z -> Z) (l : list Z) :
  Zsum (map f (sorted_keys l)) = Zsum (map f l).
Proof.
  induction l as [| k l IH]; simpl; [reflexivity |].
  now rewrite Zsum_insert_sorted, IH.
Qed.

Lemma Zsum_map_add {A : Type} (g h : A -> Z) (l : list A) :
  Zsum (map (fun a => (g a + h a)%Z) l) = (Zsum (map g l) + Zsum (map h l))%Z.
Proof. induction l as [| a l IH]; simpl; [reflexivity |]. rewrite IH. lia. Qed.

(** Summing group by group is summing all the lines. *)
Lemma group_sum (f : OrderLine -> Z) (key : OrderLine -> Z) (ks : list Z)
    (lines : list OrderLine) :
  NoDup ks -> (forall l, In l lines -> In (key l) ks) ->
  Zsum (map (fun s => Zsum (map f (filter (fun l => Z.eqb (key l) s) lines))) ks)
  = Zsum (map f lines).
Proof.
  intros Hnd. induction lines as [| a rest IH]; simpl; intros Hin.
  - clear. induction ks as [| k ks IHk]; simpl; [reflexivity | exact IHk].
  - rewrite <- IH by auto.
    transitivity
      (Zsum (map (fun s => ((if Z.eqb s (key a) then f a else 0)
                            + Zsum (map f (filter (fun l => Z.eqb (key l) s) rest)))%Z) ks)).
    { f_equal. apply map_ext. intros s. rewrite (Z.eqb_sym s).
      destruct (Z.eqb (key a) s); reflexivity. }
    assert (Hone : Zsum (map (fun s => if Z.eqb s (key a) then f a else 0%Z) ks) = f a).
    { rewrite (sum_one_supplier (fun _ => f a) (key a) ks Hnd).
      assert (Hm : list_mem (key a) ks = true) by (apply list_mem_In; auto).
      now rewrite Hm. }
    rewrite (Zsum_map_add (fun s => if Z.eqb s (key a) then f a else 0%Z)), Hone.
    reflexivity.
Qed.

(** X19. The summary by supplier of [save_results].  For a plan with at
    least one line it has one row per supplier of the plan, in ascending order
    of SupplierID; a row's PalletsOrdered is the sum over the supplier's
    lines, and the rows' PalletsOrdered add up to the total number of pallets
    that is printed above them.  For the empty plan the grouping raises
    KeyError (within [save_results] the column lookup of line 139 raises it
    before). *)
Theorem supplier_summary_rows (results_df : list OrderLine) :
  (results_df = [] -> supplier_summary results_df = Raise KeyError) /\
  (results_df <> [] ->
   exists rows,
     supplier_summary results_df = Ok rows /\
     StronglySorted Z.lt (map summary_SupplierID rows) /\
     (forall s, In s (map summary_SupplierID rows) <-> In s (map SupplierID results_df)) /\
     (forall row, In row rows ->
        summary_PalletsOrdered row
        = pallets_ordered_from results_df (summary_SupplierID row)) /\
     Zsum (map summary_PalletsOrdered rows) = Zsum (map PalletsOrdered results_df)).
Proof.
  split; [now intros -> |]. intros Hne.
  unfold supplier_summary. destruct results_df as [| line rest]; [congruence |].
  eexists. split; [reflexivity |].
  set (results_df := line :: rest).
  rewrite !map_map. cbn [summary_SupplierID summary_PalletsOrdered]. rewrite map_id.
  split; [| split; [| split]].
  - apply sorted_keys_strict, unique_NoDup.
  - intros s. now rewrite sorted_keys_In, unique_In.
  - intros row Hin. apply in_map_iff in Hin. destruct Hin as (s & <- & _). reflexivity.
  - rewrite (Zsum_sorted_keys
               (fun s => Zsum (map PalletsOrdered
                                   (filter (fun l => Z.eqb (SupplierID l) s) results_df)))).
    apply group_sum; [apply unique_NoDup |].
    intros l Hl. apply unique_In. now apply in_map.
Qed.

Lemma supplier_summary_rows_witness :
  exists rows,
    supplier_summary (described_plan (artifact_solver (described_problem fixture_data))
                                     fixture_x fixture_data) = Ok rows /\
    StronglySorted Z.lt (map summary_SupplierID rows) /\
    (forall s, In s (map summary_SupplierID rows) <-> In s [1; 2; 2]%Z) /\
    (forall row, In row rows ->
       summary_PalletsOrdered row
       = pallets_ordered_from
           (described_plan (artifact_solver (described_problem fixture_data))
                           fixture_x fixture_data) (summary_SupplierID row)) /\
    Zsum (map summary_PalletsOrdered rows) = 3%Z.
Proof.
  apply (supplier_summary_rows
           (described_plan (artifact_solver (described_problem fixture_data))
                           fixture_x fixture_data)).
  discriminate.
Defined.

(** * The stock after the order *)

Lemma add_at_nth (n j : nat) (units : Q) (after : list Q) :
  nth_error (add_at n units after) j
  = match nth_error after j with
    | Some q => Some (if Nat.eqb n j then q + units else q)
    | None => None
    end.
Proof.
  revert n j. induction after as [| q rest IH]; intros n j.
  - destruct n, j; reflexivity.
  - destruct n as [| n], j as [| j]; simpl; try reflexivity.
    + now destruct (nth_error rest j).
    + apply IH.
Qed.

Lemma index_of_nth (k : ItemKey) (ids : list ItemKey) (j : nat) :
  index_of k ids = Some j -> nth_error ids j = Some k.
Proof.
  revert j. induction ids as [| i rest IH]; simpl; intros j; [discriminate |].
  destruct (Z.eqb i k) eqn:He.
  - intros Hj. injection Hj as <-. apply Z.eqb_eq in He. now subst.
  - destruct (index_of k rest) as [n |]; simpl; [| discriminate].
    intros Hj. injection Hj as <-. now apply IH.
Qed.

Lemma index_of_NoDup (k : ItemKey) (ids : list ItemKey) (j : nat) :
  NoDup ids -> nth_error ids j = Some k -> index_of k ids = Some j.
Proof.
  intros Hnd. revert j. induction Hnd as [| i rest Hn Hnd IH]; intros j; simpl.
  - now destruct j.
  - destruct j as [| j]; simpl.
    + intros Hj. injection Hj as ->. now rewrite Z.eqb_refl.
    + intros Hj. assert (Hne : Z.eqb i k = false).
      { apply Z.eqb_neq. intros ->. apply Hn. eapply nth_error_In; eauto. }
      rewrite Hne, (IH j Hj). reflexivity.
Qed.

(** The entry [j] after the loop over the lines [lines], started on [after]. *)
Lemma after_stock_fold (ids : list ItemKey) (j : nat) (lines : list OrderLine) :
  forall (after : list Q) (q0 : Q),
    nth_error after j = Some q0 ->
    exists q,
      nth_error
        (fold_left (fun after row =>
                      match index_of (ItemID row) ids with
                      | Some n => add_at n (inject_Z (UnitsOrdered row)) after
                      | None => after
                      end) lines after) j = Some q /\
      q == q0 + inject_Z (Zsum (map UnitsOrdered
                                    (filter (fun l => match index_of (ItemID l) ids with
                                                      | Some n => Nat.eqb n j
                                                      | None => false
                                                      end) lines))).
Proof.
  induction lines as [| a rest IH]; simpl; intros after q0 Hq0.
  - exists q0. split; [assumption |]. change (inject_Z 0) with 0. now rewrite Qplus_0_r.
  - destruct (index_of (ItemID a) ids) as [n |] eqn:Hn.
    + destruct (IH (add_at n (inject_Z (UnitsOrdered a)) after)
                   (if Nat.eqb n j then q0 + inject_Z (UnitsOrdered a) else q0))
        as (q & Hq & Heq).
      { now rewrite add_at_nth, Hq0. }
      exists q. split; [assumption |]. rewrite Heq.
      destruct (Nat.eqb n j); simpl; [| reflexivity].
      rewrite inject_Z_plus. ring.
    + apply IH. assumption.
Qed.

(** On the first row with the ID [k], the lines that reach the row are the
    lines of [k]. *)
Lemma first_row_test (ids : list ItemKey) (j : nat) (k k' : ItemKey) :
  nth_error ids j = Some k -> index_of k ids = Some j ->
  match index_of k' ids with
  | Some n => Nat.eqb n j
  | None => false
  end = Z.eqb k' k.
Proof.
  intros Hid Hfirst. destruct (Z.eqb k' k) eqn:He.
  - apply Z.eqb_eq in He. rewrite He, Hfirst. apply Nat.eqb_refl.
  - destruct (index_of k' ids) as [n |] eqn:Hn; [| reflexivity].
    destruct (Nat.eqb n j) eqn:Hnj; [| reflexivity].
    apply Nat.eqb_eq in Hnj. subst n. apply index_of_nth in Hn.
    rewrite Hid in Hn. injection Hn as Hn. apply Z.eqb_neq in He. congruence.
Qed.

(** X20. The stock comparison of the dashboard.  AfterStock has one entry
    per row of the item table.  The first row with an ItemID gets
    CurrentStock plus the UnitsOrdered of all the lines of that item; a later
    row with the same ItemID keeps its CurrentStock (while the optimiser took
    the item's data from the last such row). *)
Theorem after_stock_entry (items_df : list ItemRow) (results_df : list OrderLine)
    (j : nat) (row : ItemRow) :
  nth_error items_df j = Some row ->
  exists q,
    nth_error (after_stock items_df results_df) j = Some q /\
    (index_of (row_ItemID row) (map row_ItemID items_df) = Some j ->
     q == row_CurrentStock row + inject_Z (units_ordered_of results_df (row_ItemID row))) /\
    (index_of (row_ItemID row) (map row_ItemID items_df) <> Some j ->
     q == row_CurrentStock row).
Proof.
  intros Hrow.
  assert (Hid : nth_error (map row_ItemID items_df) j = Some (row_ItemID row))
    by now rewrite nth_error_map, Hrow.
  destruct (after_stock_fold (map row_ItemID items_df) j results_df
              (map row_CurrentStock items_df) (row_CurrentStock row))
    as (q & Hq & Heq).
  { now rewrite nth_error_map, Hrow. }
  exists q. split; [exact Hq |]. split.
  - intros Hfirst. rewrite Heq. unfold units_ordered_of.
    rewrite (filter_ext _ _
               (fun l => first_row_test _ j (row_ItemID row) (ItemID l) Hid Hfirst)).
    reflexivity.
  - intros Hlater. rewrite Heq.
    rewrite filter_none; [simpl; change (inject_Z 0) with 0; now rewrite Qplus_0_r |].
    intros l _. destruct (index_of (ItemID l) (map row_ItemID items_df)) as [n |] eqn:Hn;
      [| reflexivity].
    destruct (Nat.eqb n j) eqn:Hnj; [| reflexivity].
    apply Nat.eqb_eq in Hnj. subst n. pose proof (index_of_nth _ _ _ Hn) as Hl.
    rewrite Hid in Hl. injection Hl as Hl. rewrite <- Hl in Hn. contradiction.
Qed.

Lemma after_stock_entry_witness :
  exists q,
    nth_error (after_stock relisted_items_df
                 (described_plan (fixture_solver (described_problem fixture_data))
                                 fixture_x fixture_data)) 2 = Some q /\
    (index_of 1 (map row_ItemID relisted_items_df) = Some 2%nat ->
     q == row_CurrentStock relisted_item_row
          + inject_Z (units_ordered_of
                        (described_plan (fixture_solver (described_problem fixture_data))
                                        fixture_x fixture_data) 1)) /\
    (index_of 1 (map row_ItemID relisted_items_df) <> Some 2%nat ->
     q == row_CurrentStock relisted_item_row).
Proof.
  apply (after_stock_entry relisted_items_df
           (described_plan (fixture_solver (described_problem fixture_data))
                           fixture_x fixture_data)
           2 relisted_item_row).
  reflexivity.
Defined.

(** X21. The dashboard's pipeline on an item table with distinct ItemIDs:
    when the solver's values are whole, within the variables' bounds and
    satisfy the built constraints, every AfterStock entry lies between the
    row's MinStock and MaxStock. *)
Theorem after_stock_within_limits (items_df : list ItemRow) (suppliers_df : list SupplierRow)
    (pricing_df : list PricingRow) (solver : Solver) (m : LpProblem) (x : VarDict)
    (lines : list OrderLine) (total : option Q) (j : nat) (row : ItemRow) :
  let data := prepare_data_for_optimization items_df suppliers_df pricing_df in
  NoDup (map row_ItemID items_df) ->
  create_optimization_model data = Ok (m, x) ->
  snd (solve_model solver m x data) = Ok (Some lines, total) ->
  feasible_solution (solver m) m x ->
  nth_error items_df j = Some row ->
  exists q,
    nth_error (after_stock items_df lines) j = Some q /\
    row_MinStock row <= q /\ q <= row_MaxStock row.
Proof.
  intros data Hnd Hc Hs Hf Hrow.
  destruct (solve_model_plan _ _ _ _ _ _ Hs) as (_ & -> & _).
  assert (Hid : nth_error (map row_ItemID items_df) j = Some (row_ItemID row))
    by now rewrite nth_error_map, Hrow.
  pose proof (index_of_NoDup _ _ _ Hnd Hid) as Hfirst.
  assert (Hit : In (row_ItemID row, item_of_row row) (items data)).
  { apply dict_get_In. unfold data. rewrite prepare_items.
    destruct (nth_error_split _ _ Hrow) as (pre & post & Hsplit & Hlen).
    rewrite Hsplit. apply (fold_set_last row_ItemID item_of_row).
    intros b Hb Heq. rewrite Hsplit, map_app in Hnd. simpl in Hnd.
    apply NoDup_remove_2 in Hnd. apply Hnd, in_or_app. right.
    rewrite <- Heq. now apply in_map. }
  destruct (plan_stock_limits solver data m x Hc Hf _ _ Hit) as [Hmin Hmax].
  simpl in Hmin, Hmax.
  destruct (after_stock_fold (map row_ItemID items_df) j
              (described_plan (solver m) x data)
              (map row_CurrentStock items_df) (row_CurrentStock row))
    as (q & Hq & Heq).
  { now rewrite nth_error_map, Hrow. }
  exists q. split; [exact Hq |].
  rewrite (filter_ext _ _
             (fun l => first_row_test _ j (row_ItemID row) (ItemID l) Hid Hfirst)) in Heq.
  fold (units_ordered_of (described_plan (solver m) x data) (row_ItemID row)) in Heq.
  rewrite Heq. split; assumption.
Qed.

Lemma after_stock_within_limits_witness :
  exists q,
    nth_error (after_stock fixture_items_df
                 (described_plan (fixture_solver (described_problem fixture_data))
                                 fixture_x fixture_data)) 1 = Some q /\
    20 <= q /\ q <= 200.
Proof.
  apply (after_stock_within_limits fixture_items_df fixture_suppliers_df fixture_pricing_df
           fixture_solver (described_problem fixture_data) fixture_x
           (described_plan (fixture_solver (described_problem fixture_data))
                           fixture_x fixture_data)
           (Some 310) 1
           {| row_ItemID := 2; row_Name := "Item B"; row_MinStock := 20; row_MaxStock := 200;
              row_Expiry := 40; row_CurrentStock := 15; row_AverageDailySale := 2 |}).
  - repeat constructor; simpl; intuition discriminate.
  - reflexivity.
  - reflexivity.
  - exact fixture_solution_feasible.
  - reflexivity.
Defined.

(** * The plan against the objective and the lead-time constraints *)

Lemma Qsum_app (l1 l2 : list Q) : Qsum (l1 ++ l2) == Qsum l1 + Qsum l2.
Proof.
  unfold Qsum. induction l1 as [| a l1 IH]; simpl; [now rewrite Qplus_0_l |].
  rewrite IH. ring.
Qed.

Lemma Qsum_flat_map {A B : Type} (f : B -> Q) (G : A -> list B) (l : list A) :
  Qsum (map f (flat_map G l)) == Qsum (map (fun a => Qsum (map f (G a))) l).
Proof.
  induction l as [| a l IH]; simpl; [reflexivity |].
  now rewrite map_app, Qsum_app, IH.
Qed.

(** X22. When the solved values respect the variables' lower bound 0, the
    TotalCost of the plan's lines add up to the objective function of the
    built problem at the solved values (a variable without a value counting
    as 0). *)
Theorem plan_cost_is_objective (solver : Solver) (data : Data) (m : LpProblem)
    (x : VarDict) (lines : list OrderLine) (total : option Q) :
  create_optimization_model data = Ok (m, x) ->
  snd (solve_model solver m x data) = Ok (Some lines, total) ->
  within_bounds (assignment_of (solver m)) x ->
  exists obj,
    objective m = Some (obj, "Total_Cost"%string) /\
    Qsum (map TotalCost lines) == eval (assignment_of (solver m)) obj.
Proof.
  intros Hc Hs Hb. destruct (solve_model_plan _ _ _ _ _ _ Hs) as (_ & -> & _).
  pose proof (create_optimization_model_Ok _ _ _ Hc) as (_ & Hm & _).
  exists (described_objective data). split; [now rewrite Hm |].
  unfold described_objective, described_plan.
  rewrite eval_lpSum, map_map, Qsum_flat_map. simpl.
  apply Qsum_ext. intros [i s] Hk. simpl.
  destruct (built_variable data m x Hc i s Hk) as [_ Hx].
  destruct (Hb _ _ Hx) as [Hlow _]. simpl in Hlow.
  unfold line_for. rewrite (built_solved_value data m x Hc (solver m) (i, s) Hk). simpl.
  unfold assignment_of in *.
  destruct (value (solver m) (x_ i s)) as [p |]; [| simpl; ring].
  destruct (ordered (Some p)) eqn:Ho; simpl; [ring |].
  assert (Hz : p == 0).
  { apply Qle_antisym; [| assumption]. apply Qnot_lt_le. intros Hlt.
    assert (ordered (Some p) = true) by (apply ordered_true; eauto). congruence. }
  rewrite Hz. ring.
Qed.

Lemma plan_cost_is_objective_witness :
  exists obj,
    objective (described_problem fixture_data) = Some (obj, "Total_Cost"%string) /\
    Qsum (map TotalCost (described_plan (artifact_solver (described_problem fixture_data))
                                        fixture_x fixture_data))
    == eval (assignment_of (artifact_solver (described_problem fixture_data))) obj.
Proof.
  apply (plan_cost_is_objective artifact_solver fixture_data (described_problem fixture_data)
           fixture_x
           (described_plan (artifact_solver (described_problem fixture_data))
                           fixture_x fixture_data)
           (Some 310)).
  - reflexivity.
  - reflexivity.
  - intros k v Hin. simpl in Hin.
    repeat (destruct Hin as [Heq | Hin];
            [injection Heq as <- <-; simpl; split; [discriminate | exact I] |]).
    contradiction.
Defined.

(** X23. When the solver's values are whole, within the variables' bounds
    and satisfy the built constraints, every line of the plan keeps the
    lead-time limit of its pair: current_stock + UnitsOrdered <=
    expected_demand + average_daily_sale * lead_time of the line's
    supplier. *)
Theorem plan_lines_within_lead_time (solver : Solver) (data : Data) (m : LpProblem)
    (x : VarDict) (lines : list OrderLine) (total : option Q) (line : OrderLine) :
  create_optimization_model data = Ok (m, x) ->
  snd (solve_model solver m x data) = Ok (Some lines, total) ->
  feasible_solution (solver m) m x ->
  In line lines ->
  exists it sd,
    dict_get (items data) (ItemID line) = Some it /\
    dict_get (suppliers data) (SupplierID line) = Some sd /\
    current_stock it + inject_Z (UnitsOrdered line)
    <= expected_demand it + average_daily_sale it * lead_time sd.
Proof.
  intros Hc Hs Hf Hin. destruct (solve_model_plan _ _ _ _ _ _ Hs) as (_ & -> & _).
  apply plan_line in Hin. destruct Hin as ([i s] & v & Hk & Hv & Hpos & ->).
  rewrite (built_solved_value data m x Hc (solver m) (i, s) Hk) in Hv. simpl in Hv.
  destruct (feasible_value solver data m x Hc Hf i s Hk) as (q & n & Hq & Hn & _ & Hrho).
  rewrite Hv in Hq. injection Hq as <-.
  pose proof (create_optimization_model_Ok _ _ _ Hc) as (_ & Hm & _ & _ & Hknown).
  destruct Hf as (_ & _ & Hall).
  apply in_eligible_pairs in Hk. destruct Hk as [Hi Hsup].
  destruct (dict_key_get (items data) i Hi) as (it & Hit).
  pose proof (dict_get_In _ _ _ Hit) as Hitem.
  specialize (Hknown (i, it) Hitem s Hsup).
  destruct (dict_get (suppliers data) s) as [sd |] eqn:Hsd; [| congruence].
  exists it, sd. simpl. split; [assumption |]. split; [assumption |].
  assert (Hsat : satisfies (assignment_of (solver m))
                   (lead_time_constraint i it s (supplier_at data s))).
  { apply (Hall (Lead_Time_Expiry_ i s)). rewrite Hm. now apply lead_time_row_in. }
  apply satisfies_lead_time in Hsat.
  unfold supplier_at in Hsat. rewrite Hsd, Hrho in Hsat.
  unfold item_at. rewrite Hit.
  assert (Hu : int (v * inject_Z (units_per_pallet it)) = (n * units_per_pallet it)%Z).
  { apply int_whole. rewrite Hn. unfold Qeq. simpl. lia. }
  rewrite Hu, inject_Z_mult, <- Hn, Qplus_comm. exact Hsat.
Qed.

Lemma plan_lines_within_lead_time_witness :
  exists it sd,
    dict_get (items fixture_data) 2%Z = Some it /\
    dict_get (suppliers fixture_data) 2%Z = Some sd /\
    current_stock it + inject_Z 48
    <= expected_demand it + average_daily_sale it * lead_time sd.
Proof.
  apply (plan_lines_within_lead_time fixture_solver fixture_data
           (described_problem fixture_data) fixture_x
           (described_plan (fixture_solver (described_problem fixture_data))
                           fixture_x fixture_data)
           (Some 310) (order_line fixture_data (2, 2)%Z 2)
           eq_refl eq_refl fixture_solution_feasible).
  right. left. reflexivity.
Defined.
